(** * Conversational front end: intent dispatch and confirmation workflow

    A shallow embedding of the two variants of [App.jsx] that live in the
    repository:

    - the client-side variant, which classifies the utterance itself
      ([checkForChartRequest], the [INC] and install regular expressions)
      and talks to [requestInstall], [createTicket] and [showStatus];
    - the backend-driven variant, which sends every utterance to
      [queryChatbot] and renders the payload ([buildChartJsSpec]).

    Strings are [string]s read as UTF-8 bytes.  Every keyword and every
    regular expression of the program is ASCII and none has the [u] flag:
    [\b], [\d] and the case-insensitive comparison of [/i] see a byte of
    128 or more as a character that is no letter, no digit and no word
    character.  [toLowerCase] is the lower-casing of Unicode, which turns
    two characters outside ASCII into ASCII letters (the Kelvin sign into
    [k], the dotted capital I into [i] and a combining dot).

    The values of the backend are what [JSON.parse] makes of a response.
    Such a value may be an object with an own key [toString]: a template
    literal, [String] and [Number] throw a TypeError on it, and so do the
    handlers and components that convert it outside a [try].

    An event handler is a computation in the monad [Handler.M]: it reads
    and updates the [useState] cells of the component, may throw, and
    records every request it sends.  The request a handler awaits is
    answered on the spot by a [Backend.backend]; what happens when an event
    arrives while a request is still in flight is what the handler does
    when it starts in a state whose [thinking] flag is set. *)

From Stdlib Require Import String Ascii List Bool Arith Lia Floats NArith.
Import ListNotations.

Set Warnings "-register-all".

Local Open Scope string_scope.
Local Open Scope list_scope.

(* ================================================================== *)
(** ** JavaScript strings *)
(* ================================================================== *)

Module JsString.

Definition code (c : ascii) : nat := nat_of_ascii c.

Definition between (lo hi : nat) (c : ascii) : bool :=
  (lo <=? code c)%nat && (code c <=? hi)%nat.

Definition is_upper : ascii -> bool := between 65 90.
Definition is_lower : ascii -> bool := between 97 122.
Definition is_digit : ascii -> bool := between 48 57.

(** [\w]: the word characters of a regular expression without [u]. *)
Definition is_word (c : ascii) : bool :=
  is_upper c || is_lower c || is_digit c || Ascii.eqb c "_".

Definition lower_char (c : ascii) : ascii :=
  if is_upper c then ascii_of_nat (code c + 32) else c.

Definition upper_char (c : ascii) : ascii :=
  if is_lower c then ascii_of_nat (code c - 32) else c.

Fixpoint smap (f : ascii -> ascii) (s : string) : string :=
  match s with
  | EmptyString => EmptyString
  | String c s' => String (f c) (smap f s')
  end.

(** [s.toUpperCase()] of a string of ASCII characters: the program
    upper-cases only what the incident pattern matched. *)
Definition toUpperCase : string -> string := smap upper_char.

(** *** Unicode

    [toLowerCase] follows the default case conversion of Unicode: the
    lower-case mapping of each code point, the one unconditional special
    casing (U+0130 becomes [i] and U+0307) and the rule of the final sigma.
    The tables are those of Unicode 14.0, in ranges of code points. *)

(** A range of code points from [first] to [last], every one or every
    other one ([step] 1 or 2), mapped to [target], [target + step], ... *)
Definition lower_table : list (N * N * N * N) :=
  [ (65, 90, 1, 97); (192, 214, 1, 224); (216, 222, 1, 248); (256, 302, 2, 257);
    (306, 310, 2, 307); (313, 327, 2, 314); (330, 374, 2, 331); (376, 376, 1, 255);
    (377, 381, 2, 378); (385, 385, 1, 595); (386, 388, 2, 387); (390, 390, 1, 596);
    (391, 391, 1, 392); (393, 394, 1, 598); (395, 395, 1, 396); (398, 398, 1, 477);
    (399, 399, 1, 601); (400, 400, 1, 603); (401, 401, 1, 402); (403, 403, 1, 608);
    (404, 404, 1, 611); (406, 406, 1, 617); (407, 407, 1, 616); (408, 408, 1, 409);
    (412, 412, 1, 623); (413, 413, 1, 626); (415, 415, 1, 629); (416, 420, 2, 417);
    (422, 422, 1, 640); (423, 423, 1, 424); (425, 425, 1, 643); (428, 428, 1, 429);
    (430, 430, 1, 648); (431, 431, 1, 432); (433, 434, 1, 650); (435, 437, 2, 436);
    (439, 439, 1, 658); (440, 440, 1, 441); (444, 444, 1, 445); (452, 452, 1, 454);
    (453, 453, 1, 454); (455, 455, 1, 457); (456, 456, 1, 457); (458, 458, 1, 460);
    (459, 475, 2, 460); (478, 494, 2, 479); (497, 497, 1, 499); (498, 500, 2, 499);
    (502, 502, 1, 405); (503, 503, 1, 447); (504, 542, 2, 505); (544, 544, 1, 414);
    (546, 562, 2, 547); (570, 570, 1, 11365); (571, 571, 1, 572); (573, 573, 1, 410);
    (574, 574, 1, 11366); (577, 577, 1, 578); (579, 579, 1, 384); (580, 580, 1, 649);
    (581, 581, 1, 652); (582, 590, 2, 583); (880, 882, 2, 881); (886, 886, 1, 887);
    (895, 895, 1, 1011); (902, 902, 1, 940); (904, 906, 1, 941); (908, 908, 1, 972);
    (910, 911, 1, 973); (913, 929, 1, 945); (931, 939, 1, 963); (975, 975, 1, 983);
    (984, 1006, 2, 985); (1012, 1012, 1, 952); (1015, 1015, 1, 1016); (1017, 1017, 1, 1010);
    (1018, 1018, 1, 1019); (1021, 1023, 1, 891); (1024, 1039, 1, 1104); (1040, 1071, 1, 1072);
    (1120, 1152, 2, 1121); (1162, 1214, 2, 1163); (1216, 1216, 1, 1231); (1217, 1229, 2, 1218);
    (1232, 1326, 2, 1233); (1329, 1366, 1, 1377); (4256, 4293, 1, 11520); (4295, 4295, 1, 11559);
    (4301, 4301, 1, 11565); (5024, 5103, 1, 43888); (5104, 5109, 1, 5112); (7312, 7354, 1, 4304);
    (7357, 7359, 1, 4349); (7680, 7828, 2, 7681); (7838, 7838, 1, 223); (7840, 7934, 2, 7841);
    (7944, 7951, 1, 7936); (7960, 7965, 1, 7952); (7976, 7983, 1, 7968); (7992, 7999, 1, 7984);
    (8008, 8013, 1, 8000); (8025, 8031, 2, 8017); (8040, 8047, 1, 8032); (8072, 8079, 1, 8064);
    (8088, 8095, 1, 8080); (8104, 8111, 1, 8096); (8120, 8121, 1, 8112); (8122, 8123, 1, 8048);
    (8124, 8124, 1, 8115); (8136, 8139, 1, 8050); (8140, 8140, 1, 8131); (8152, 8153, 1, 8144);
    (8154, 8155, 1, 8054); (8168, 8169, 1, 8160); (8170, 8171, 1, 8058); (8172, 8172, 1, 8165);
    (8184, 8185, 1, 8056); (8186, 8187, 1, 8060); (8188, 8188, 1, 8179); (8486, 8486, 1, 969);
    (8490, 8490, 1, 107); (8491, 8491, 1, 229); (8498, 8498, 1, 8526); (8544, 8559, 1, 8560);
    (8579, 8579, 1, 8580); (9398, 9423, 1, 9424); (11264, 11311, 1, 11312); (11360, 11360, 1, 11361);
    (11362, 11362, 1, 619); (11363, 11363, 1, 7549); (11364, 11364, 1, 637); (11367, 11371, 2, 11368);
    (11373, 11373, 1, 593); (11374, 11374, 1, 625); (11375, 11375, 1, 592); (11376, 11376, 1, 594);
    (11378, 11378, 1, 11379); (11381, 11381, 1, 11382); (11390, 11391, 1, 575); (11392, 11490, 2, 11393);
    (11499, 11501, 2, 11500); (11506, 11506, 1, 11507); (42560, 42604, 2, 42561); (42624, 42650, 2, 42625);
    (42786, 42798, 2, 42787); (42802, 42862, 2, 42803); (42873, 42875, 2, 42874); (42877, 42877, 1, 7545);
    (42878, 42886, 2, 42879); (42891, 42891, 1, 42892); (42893, 42893, 1, 613); (42896, 42898, 2, 42897);
    (42902, 42920, 2, 42903); (42922, 42922, 1, 614); (42923, 42923, 1, 604); (42924, 42924, 1, 609);
    (42925, 42925, 1, 620); (42926, 42926, 1, 618); (42928, 42928, 1, 670); (42929, 42929, 1, 647);
    (42930, 42930, 1, 669); (42931, 42931, 1, 43859); (42932, 42946, 2, 42933); (42948, 42948, 1, 42900);
    (42949, 42949, 1, 642); (42950, 42950, 1, 7566); (42951, 42953, 2, 42952); (42960, 42960, 1, 42961);
    (42966, 42968, 2, 42967); (42997, 42997, 1, 42998); (65313, 65338, 1, 65345); (66560, 66599, 1, 66600);
    (66736, 66771, 1, 66776); (66928, 66938, 1, 66967); (66940, 66954, 1, 66979); (66956, 66962, 1, 66995);
    (66964, 66965, 1, 67003); (68736, 68786, 1, 68800); (71840, 71871, 1, 71872); (93760, 93791, 1, 93792);
    (125184, 125217, 1, 125218) ]%N.

(** The code points that have case and that case does not ignore. *)
Definition cased_table : list (N * N) :=
  [ (65, 90); (97, 122); (170, 170); (181, 181); (186, 186); (192, 214);
    (216, 246); (248, 442); (444, 447); (452, 659); (661, 687); (880, 883);
    (886, 887); (891, 893); (895, 895); (902, 902); (904, 906); (908, 908);
    (910, 929); (931, 1013); (1015, 1153); (1162, 1327); (1329, 1366); (1376, 1416);
    (4256, 4293); (4295, 4295); (4301, 4301); (4304, 4346); (4349, 4351); (5024, 5109);
    (5112, 5117); (7296, 7304); (7312, 7354); (7357, 7359); (7424, 7467); (7531, 7543);
    (7545, 7578); (7680, 7957); (7960, 7965); (7968, 8005); (8008, 8013); (8016, 8023);
    (8025, 8025); (8027, 8027); (8029, 8029); (8031, 8061); (8064, 8116); (8118, 8124);
    (8126, 8126); (8130, 8132); (8134, 8140); (8144, 8147); (8150, 8155); (8160, 8172);
    (8178, 8180); (8182, 8188); (8450, 8450); (8455, 8455); (8458, 8467); (8469, 8469);
    (8473, 8477); (8484, 8484); (8486, 8486); (8488, 8488); (8490, 8493); (8495, 8500);
    (8505, 8505); (8508, 8511); (8517, 8521); (8526, 8526); (8544, 8575); (8579, 8580);
    (9398, 9449); (11264, 11387); (11390, 11492); (11499, 11502); (11506, 11507); (11520, 11557);
    (11559, 11559); (11565, 11565); (42560, 42605); (42624, 42651); (42786, 42863); (42865, 42887);
    (42891, 42894); (42896, 42954); (42960, 42961); (42963, 42963); (42965, 42969); (42997, 42998);
    (43002, 43002); (43824, 43866); (43872, 43880); (43888, 43967); (64256, 64262); (64275, 64279);
    (65313, 65338); (65345, 65370); (66560, 66639); (66736, 66771); (66776, 66811); (66928, 66938);
    (66940, 66954); (66956, 66962); (66964, 66965); (66967, 66977); (66979, 66993); (66995, 67001);
    (67003, 67004); (68736, 68786); (68800, 68850); (71840, 71903); (93760, 93823); (119808, 119892);
    (119894, 119964); (119966, 119967); (119970, 119970); (119973, 119974); (119977, 119980); (119982, 119993);
    (119995, 119995); (119997, 120003); (120005, 120069); (120071, 120074); (120077, 120084); (120086, 120092);
    (120094, 120121); (120123, 120126); (120128, 120132); (120134, 120134); (120138, 120144); (120146, 120485);
    (120488, 120512); (120514, 120538); (120540, 120570); (120572, 120596); (120598, 120628); (120630, 120654);
    (120656, 120686); (120688, 120712); (120714, 120744); (120746, 120770); (120772, 120779); (122624, 122633);
    (122635, 122654); (125184, 125251); (127280, 127305); (127312, 127337); (127344, 127369) ]%N.

(** The code points that case ignores (Case_Ignorable). *)
Definition case_ignorable_table : list (N * N) :=
  [ (39, 39); (46, 46); (58, 58); (94, 94); (96, 96); (168, 168);
    (173, 173); (175, 175); (180, 180); (183, 184); (688, 879); (884, 885);
    (890, 890); (900, 901); (903, 903); (1155, 1161); (1369, 1369); (1375, 1375);
    (1425, 1469); (1471, 1471); (1473, 1474); (1476, 1477); (1479, 1479); (1524, 1524);
    (1536, 1541); (1552, 1562); (1564, 1564); (1600, 1600); (1611, 1631); (1648, 1648);
    (1750, 1757); (1759, 1768); (1770, 1773); (1807, 1807); (1809, 1809); (1840, 1866);
    (1958, 1968); (2027, 2037); (2042, 2042); (2045, 2045); (2070, 2093); (2137, 2139);
    (2184, 2184); (2192, 2193); (2200, 2207); (2249, 2306); (2362, 2362); (2364, 2364);
    (2369, 2376); (2381, 2381); (2385, 2391); (2402, 2403); (2417, 2417); (2433, 2433);
    (2492, 2492); (2497, 2500); (2509, 2509); (2530, 2531); (2558, 2558); (2561, 2562);
    (2620, 2620); (2625, 2626); (2631, 2632); (2635, 2637); (2641, 2641); (2672, 2673);
    (2677, 2677); (2689, 2690); (2748, 2748); (2753, 2757); (2759, 2760); (2765, 2765);
    (2786, 2787); (2810, 2815); (2817, 2817); (2876, 2876); (2879, 2879); (2881, 2884);
    (2893, 2893); (2901, 2902); (2914, 2915); (2946, 2946); (3008, 3008); (3021, 3021);
    (3072, 3072); (3076, 3076); (3132, 3132); (3134, 3136); (3142, 3144); (3146, 3149);
    (3157, 3158); (3170, 3171); (3201, 3201); (3260, 3260); (3263, 3263); (3270, 3270);
    (3276, 3277); (3298, 3299); (3328, 3329); (3387, 3388); (3393, 3396); (3405, 3405);
    (3426, 3427); (3457, 3457); (3530, 3530); (3538, 3540); (3542, 3542); (3633, 3633);
    (3636, 3642); (3654, 3662); (3761, 3761); (3764, 3772); (3782, 3782); (3784, 3789);
    (3864, 3865); (3893, 3893); (3895, 3895); (3897, 3897); (3953, 3966); (3968, 3972);
    (3974, 3975); (3981, 3991); (3993, 4028); (4038, 4038); (4141, 4144); (4146, 4151);
    (4153, 4154); (4157, 4158); (4184, 4185); (4190, 4192); (4209, 4212); (4226, 4226);
    (4229, 4230); (4237, 4237); (4253, 4253); (4348, 4348); (4957, 4959); (5906, 5908);
    (5938, 5939); (5970, 5971); (6002, 6003); (6068, 6069); (6071, 6077); (6086, 6086);
    (6089, 6099); (6103, 6103); (6109, 6109); (6155, 6159); (6211, 6211); (6277, 6278);
    (6313, 6313); (6432, 6434); (6439, 6440); (6450, 6450); (6457, 6459); (6679, 6680);
    (6683, 6683); (6742, 6742); (6744, 6750); (6752, 6752); (6754, 6754); (6757, 6764);
    (6771, 6780); (6783, 6783); (6823, 6823); (6832, 6862); (6912, 6915); (6964, 6964);
    (6966, 6970); (6972, 6972); (6978, 6978); (7019, 7027); (7040, 7041); (7074, 7077);
    (7080, 7081); (7083, 7085); (7142, 7142); (7144, 7145); (7149, 7149); (7151, 7153);
    (7212, 7219); (7222, 7223); (7288, 7293); (7376, 7378); (7380, 7392); (7394, 7400);
    (7405, 7405); (7412, 7412); (7416, 7417); (7468, 7530); (7544, 7544); (7579, 7679);
    (8125, 8125); (8127, 8129); (8141, 8143); (8157, 8159); (8173, 8175); (8189, 8190);
    (8203, 8207); (8216, 8217); (8228, 8228); (8231, 8231); (8234, 8238); (8288, 8292);
    (8294, 8303); (8305, 8305); (8319, 8319); (8336, 8348); (8400, 8432); (11388, 11389);
    (11503, 11505); (11631, 11631); (11647, 11647); (11744, 11775); (11823, 11823); (12293, 12293);
    (12330, 12333); (12337, 12341); (12347, 12347); (12441, 12446); (12540, 12542); (40981, 40981);
    (42232, 42237); (42508, 42508); (42607, 42610); (42612, 42621); (42623, 42623); (42652, 42655);
    (42736, 42737); (42752, 42785); (42864, 42864); (42888, 42890); (42994, 42996); (43000, 43001);
    (43010, 43010); (43014, 43014); (43019, 43019); (43045, 43046); (43052, 43052); (43204, 43205);
    (43232, 43249); (43263, 43263); (43302, 43309); (43335, 43345); (43392, 43394); (43443, 43443);
    (43446, 43449); (43452, 43453); (43471, 43471); (43493, 43494); (43561, 43566); (43569, 43570);
    (43573, 43574); (43587, 43587); (43596, 43596); (43632, 43632); (43644, 43644); (43696, 43696);
    (43698, 43700); (43703, 43704); (43710, 43711); (43713, 43713); (43741, 43741); (43756, 43757);
    (43763, 43764); (43766, 43766); (43867, 43871); (43881, 43883); (44005, 44005); (44008, 44008);
    (44013, 44013); (64286, 64286); (64434, 64450); (65024, 65039); (65043, 65043); (65056, 65071);
    (65106, 65106); (65109, 65109); (65279, 65279); (65287, 65287); (65294, 65294); (65306, 65306);
    (65342, 65342); (65344, 65344); (65392, 65392); (65438, 65439); (65507, 65507); (65529, 65531);
    (66045, 66045); (66272, 66272); (66422, 66426); (67456, 67461); (67463, 67504); (67506, 67514);
    (68097, 68099); (68101, 68102); (68108, 68111); (68152, 68154); (68159, 68159); (68325, 68326);
    (68900, 68903); (69291, 69292); (69446, 69456); (69506, 69509); (69633, 69633); (69688, 69702);
    (69744, 69744); (69747, 69748); (69759, 69761); (69811, 69814); (69817, 69818); (69821, 69821);
    (69826, 69826); (69837, 69837); (69888, 69890); (69927, 69931); (69933, 69940); (70003, 70003);
    (70016, 70017); (70070, 70078); (70089, 70092); (70095, 70095); (70191, 70193); (70196, 70196);
    (70198, 70199); (70206, 70206); (70367, 70367); (70371, 70378); (70400, 70401); (70459, 70460);
    (70464, 70464); (70502, 70508); (70512, 70516); (70712, 70719); (70722, 70724); (70726, 70726);
    (70750, 70750); (70835, 70840); (70842, 70842); (70847, 70848); (70850, 70851); (71090, 71093);
    (71100, 71101); (71103, 71104); (71132, 71133); (71219, 71226); (71229, 71229); (71231, 71232);
    (71339, 71339); (71341, 71341); (71344, 71349); (71351, 71351); (71453, 71455); (71458, 71461);
    (71463, 71467); (71727, 71735); (71737, 71738); (71995, 71996); (71998, 71998); (72003, 72003);
    (72148, 72151); (72154, 72155); (72160, 72160); (72193, 72202); (72243, 72248); (72251, 72254);
    (72263, 72263); (72273, 72278); (72281, 72283); (72330, 72342); (72344, 72345); (72752, 72758);
    (72760, 72765); (72767, 72767); (72850, 72871); (72874, 72880); (72882, 72883); (72885, 72886);
    (73009, 73014); (73018, 73018); (73020, 73021); (73023, 73029); (73031, 73031); (73104, 73105);
    (73109, 73109); (73111, 73111); (73459, 73460); (78896, 78904); (92912, 92916); (92976, 92982);
    (92992, 92995); (94031, 94031); (94095, 94111); (94176, 94177); (94179, 94180); (110576, 110579);
    (110581, 110587); (110589, 110590); (113821, 113822); (113824, 113827); (118528, 118573); (118576, 118598);
    (119143, 119145); (119155, 119170); (119173, 119179); (119210, 119213); (119362, 119364); (121344, 121398);
    (121403, 121452); (121461, 121461); (121476, 121476); (121499, 121503); (121505, 121519); (122880, 122886);
    (122888, 122904); (122907, 122913); (122915, 122916); (122918, 122922); (123184, 123197); (123566, 123566);
    (123628, 123631); (125136, 125142); (125252, 125259); (127995, 127999); (917505, 917505); (917536, 917631);
    (917760, 917999) ]%N.

(** A character of a string read as UTF-8: a code point, or a byte that
    is part of no well-formed sequence. *)
Inductive char : Type :=
| Scalar (cp : N)
| Stray (b : ascii).

Definition byte (c : ascii) : N := N_of_ascii c.

Definition continuation (c : ascii) : bool :=
  ((128 <=? byte c) && (byte c <=? 191))%N.

Fixpoint decode (s : list ascii) : list char :=
  match s with
  | [] => []
  | b :: s1 =>
      if (byte b <? 128)%N then Scalar (byte b) :: decode s1
      else
        match s1 with
        | c1 :: s2 =>
            if ((194 <=? byte b) && (byte b <=? 223))%N && continuation c1
            then Scalar ((byte b - 192) * 64 + (byte c1 - 128))%N :: decode s2
            else
              match s2 with
              | c2 :: s3 =>
                  let cp3 := ((byte b - 224) * 4096 + (byte c1 - 128) * 64
                              + (byte c2 - 128))%N in
                  if ((224 <=? byte b) && (byte b <=? 239))%N
                     && continuation c1 && continuation c2
                     && (2048 <=? cp3)%N
                  then Scalar cp3 :: decode s3
                  else
                    match s3 with
                    | c3 :: s4 =>
                        let cp4 := ((byte b - 240) * 262144
                                    + (byte c1 - 128) * 4096
                                    + (byte c2 - 128) * 64 + (byte c3 - 128))%N in
                        if ((240 <=? byte b) && (byte b <=? 244))%N
                           && continuation c1 && continuation c2
                           && continuation c3
                           && ((65536 <=? cp4) && (cp4 <=? 1114111))%N
                        then Scalar cp4 :: decode s4
                        else Stray b :: decode s1
                    | [] => Stray b :: decode s1
                    end
              | [] => Stray b :: decode s1
              end
        | [] => [Stray b]
        end
  end.

Definition encode (cp : N) : list ascii :=
  map ascii_of_N
    (if cp <? 128 then [cp]
     else if cp <? 2048 then [192 + cp / 64; 128 + cp mod 64]
     else if cp <? 65536 then
       [224 + cp / 4096; 128 + (cp / 64) mod 64; 128 + cp mod 64]
     else
       [240 + cp / 262144; 128 + (cp / 4096) mod 64; 128 + (cp / 64) mod 64;
        128 + cp mod 64])%N.

(** The tables are in ascending order. *)
Fixpoint in_ranges (cp : N) (t : list (N * N)) : bool :=
  match t with
  | [] => false
  | (first, last) :: t' =>
      if (cp <? first)%N then false
      else (cp <=? last)%N || in_ranges cp t'
  end.

Fixpoint lower_of (cp : N) (t : list (N * N * N * N)) : N :=
  match t with
  | [] => cp
  | (first, last, step, target) :: t' =>
      if (cp <? first)%N then cp
      else if ((cp <=? last) && ((cp - first) mod step =? 0))%N
           then (target + (cp - first))%N
           else lower_of cp t'
  end.

Definition case_ignorable (cp : N) : bool := in_ranges cp case_ignorable_table.
Definition cased (cp : N) : bool := in_ranges cp cased_table.

(** What follows a sigma: characters that case ignores, then a letter
    that has case. *)
Fixpoint before_cased (l : list char) : bool :=
  match l with
  | [] => false
  | Stray _ :: _ => false
  | Scalar cp :: l' => if case_ignorable cp then before_cased l' else cased cp
  end.

(** [after_cased]: a letter that has case, then characters that case
    ignores, come before. *)
Fixpoint lower_chars (after_cased : bool) (l : list char) : list ascii :=
  match l with
  | [] => []
  | Stray b :: l' => b :: lower_chars false l'
  | Scalar cp :: l' =>
      (if (cp =? 931)%N then
         encode (if after_cased && negb (before_cased l') then 962 else 963)%N
       else if (cp =? 304)%N then encode 105 ++ encode 775
       else encode (lower_of cp lower_table))
      ++ lower_chars (if case_ignorable cp then after_cased else cased cp) l'
  end.

(** [s.toLowerCase()] *)
Definition toLowerCase (s : string) : string :=
  string_of_list_ascii (lower_chars false (decode (list_ascii_of_string s))).

Fixpoint startsWith (s needle : string) : bool :=
  match needle, s with
  | EmptyString, _ => true
  | String _ _, EmptyString => false
  | String a needle', String b s' => Ascii.eqb a b && startsWith s' needle'
  end.

(** [s.includes(needle)]. *)
Fixpoint includes (s needle : string) : bool :=
  startsWith s needle ||
  match s with
  | EmptyString => false
  | String _ s' => includes s' needle
  end.

(** The white space and line terminators that [trim] removes, as UTF-8
    byte sequences: TAB, LF, VT, FF, CR, SP, U+00A0, U+1680,
    U+2000..U+200A, U+2028, U+2029, U+202F, U+205F, U+3000, U+FEFF. *)
Definition bytes (l : list nat) : list ascii := map ascii_of_nat l.

Definition white_space : list (list ascii) :=
  map bytes
    ([ [9]; [10]; [11]; [12]; [13]; [32]; [194; 160]; [225; 154; 128] ]
     ++ map (fun k => [226; 128; 128 + k]) (seq 0 11)
     ++ [ [226; 128; 168]; [226; 128; 169]; [226; 128; 175];
          [226; 129; 159]; [227; 128; 128]; [239; 187; 191] ]).

Fixpoint strip_prefix (p s : list ascii) : option (list ascii) :=
  match p, s with
  | [], _ => Some s
  | _ :: _, [] => None
  | a :: p', b :: s' => if Ascii.eqb a b then strip_prefix p' s' else None
  end.

Fixpoint strip_any (ps : list (list ascii)) (s : list ascii)
  : option (list ascii) :=
  match ps with
  | [] => None
  | p :: ps' =>
      match strip_prefix p s with
      | Some r => Some r
      | None => strip_any ps' s
      end
  end.

(** Drop leading white space; every step removes at least one byte, so
    [length s] steps are enough. *)
Fixpoint drop_space (fuel : nat) (ws : list (list ascii)) (s : list ascii)
  : list ascii :=
  match fuel with
  | O => s
  | S fuel' =>
      match strip_any ws s with
      | Some r => drop_space fuel' ws r
      | None => s
      end
  end.

Definition trimStart (s : list ascii) : list ascii :=
  drop_space (length s) white_space s.

Definition trimEnd (s : list ascii) : list ascii :=
  rev (drop_space (length s) (map (@rev ascii) white_space) (rev s)).

(** [s.trim()]. *)
Definition trim (s : string) : string :=
  string_of_list_ascii (trimEnd (trimStart (list_ascii_of_string s))).

Fixpoint join (sep : string) (l : list string) : string :=
  match l with
  | [] => ""
  | [x] => x
  | x :: l' => x ++ sep ++ join sep l'
  end.

End JsString.

(* ================================================================== *)
(** ** Regular expressions (the fragment the program uses) *)
(* ================================================================== *)

Module Regex.
Import JsString.

(** One-character matchers. *)
Inductive cls : Type :=
| CChar (c : ascii)          (* a literal character *)
| CDigit                     (* \d *)
| CRange (lo hi : ascii).    (* [lo-hi] *)

Inductive regex : Type :=
| Eps
| One (c : cls)
| WordB                      (* \b *)
| Seq (r1 r2 : regex)
| Alt (r1 r2 : regex)        (* r1|r2, left alternative first *)
| Plus (c : cls).            (* c+, greedy *)

(** A literal word. *)
Fixpoint lit (s : string) : regex :=
  match s with
  | EmptyString => Eps
  | String c EmptyString => One (CChar c)
  | String c s' => Seq (One (CChar c)) (lit s')
  end.

Definition in_range (lo hi x : ascii) : bool :=
  (code lo <=? code x)%nat && (code x <=? code hi)%nat.

(** Does character [x] match [c]?  With the [i] flag ([ic = true]) two
    characters match when their canonical (upper-case) forms agree; no
    character outside ASCII canonicalizes to an ASCII one. *)
Definition cls_match (ic : bool) (c : cls) (x : ascii) : bool :=
  match c with
  | CChar a =>
      if ic then Ascii.eqb (upper_char a) (upper_char x) else Ascii.eqb a x
  | CDigit => is_digit x
  | CRange lo hi =>
      in_range lo hi x ||
      (ic && (in_range lo hi (upper_char x) || in_range lo hi (lower_char x)))
  end.

Definition is_word_opt (o : option ascii) : bool :=
  match o with
  | Some c => is_word c
  | None => false
  end.

(** [\b] holds between [prev] and the head of [s] when exactly one of the
    two is a word character. *)
Definition at_boundary (prev : option ascii) (s : list ascii) : bool :=
  xorb (is_word_opt prev) (is_word_opt (hd_error s)).

(** The continuation of a match: previous character, rest of the input,
    characters matched so far (last first). *)
Definition cont : Type :=
  option ascii -> list ascii -> list ascii -> option (list ascii).

(** Greedy [c*]: take one more character if possible and backtrack to
    the shorter match when the continuation fails. *)
Fixpoint star (ic : bool) (c : cls) (prev : option ascii)
    (s acc : list ascii) (k : cont) : option (list ascii) :=
  match s with
  | x :: s' =>
      if cls_match ic c x then
        match star ic c (Some x) s' (x :: acc) k with
        | Some r => Some r
        | None => k prev s acc
        end
      else k prev s acc
  | [] => k prev s acc
  end.

(** Backtracking matcher anchored at the current position. *)
Fixpoint run (ic : bool) (r : regex) (prev : option ascii)
    (s acc : list ascii) (k : cont) : option (list ascii) :=
  match r with
  | Eps => k prev s acc
  | One c =>
      match s with
      | x :: s' => if cls_match ic c x then k (Some x) s' (x :: acc) else None
      | [] => None
      end
  | WordB => if at_boundary prev s then k prev s acc else None
  | Seq r1 r2 => run ic r1 prev s acc (fun p s' a => run ic r2 p s' a k)
  | Alt r1 r2 =>
      match run ic r1 prev s acc k with
      | Some m => Some m
      | None => run ic r2 prev s acc k
      end
  | Plus c =>
      match s with
      | x :: s' =>
          if cls_match ic c x then star ic c (Some x) s' (x :: acc) k
          else None
      | [] => None
      end
  end.

Definition accept : cont := fun _ _ acc => Some (rev acc).

(** Leftmost match: try every start position in turn. *)
Fixpoint search (ic : bool) (r : regex) (prev : option ascii)
    (s : list ascii) : option (list ascii) :=
  match run ic r prev s [] accept with
  | Some m => Some m
  | None =>
      match s with
      | x :: s' => search ic r (Some x) s'
      | [] => None
      end
  end.

(** [s.match(r)] without the [g] flag: the text of the first match
    ([m[0]]), or [None] for [null]. *)
Definition exec (ic : bool) (r : regex) (s : string) : option string :=
  option_map string_of_list_ascii
    (search ic r None (list_ascii_of_string s)).

(** [r.test(s)]. *)
Definition test (ic : bool) (r : regex) (s : string) : bool :=
  match exec ic r s with
  | Some _ => true
  | None => false
  end.

End Regex.

Import JsString Regex.

(** [/\bINC\d+\b/i] *)
Definition re_incident : regex :=
  Seq WordB (Seq (lit "INC") (Seq (Plus CDigit) WordB)).

(** [/\b(install|setup|set up)\b/i] *)
Definition re_install : regex :=
  Seq WordB (Seq (Alt (lit "install") (Alt (lit "setup") (lit "set up"))) WordB).

(** [/\bq[1-4]\b/] *)
Definition re_quarter : regex :=
  Seq WordB (Seq (One (CChar "q")) (Seq (One (CRange "1" "4")) WordB)).

(* ================================================================== *)
(** ** JavaScript values *)
(* ================================================================== *)

Module Js.

(** The values the program handles: what [JSON.parse] produces, plus
    [undefined].  An object lists each of its keys once, in insertion
    order. *)
Inductive jsval : Type :=
| JUndefined
| JNull
| JBool (b : bool)
| JNum (n : float)
| JStr (s : string)
| JArr (items : list jsval)
| JObj (fields : list (string * jsval)).

(** ToBoolean. *)
Definition truthy (v : jsval) : bool :=
  match v with
  | JUndefined | JNull => false
  | JBool b => b
  | JNum n => negb (PrimFloat.is_zero n || PrimFloat.is_nan n)
  | JStr s => negb (String.eqb s "")
  | JArr _ | JObj _ => true
  end.

(** [a || b], [a && b], [a ?? b] and [!a]. *)
Definition js_or (a b : jsval) : jsval := if truthy a then a else b.
Definition js_and (a b : jsval) : jsval := if truthy a then b else a.
Definition js_nullish (a b : jsval) : jsval :=
  match a with
  | JUndefined | JNull => b
  | _ => a
  end.
Definition js_not (a : jsval) : bool := negb (truthy a).

Fixpoint assoc (k : string) (fields : list (string * jsval)) : jsval :=
  match fields with
  | [] => JUndefined
  | (k', v) :: rest => if String.eqb k k' then v else assoc k rest
  end.

(** [v?.k]: the property [k] of [v], [undefined] when [v] is [null] or
    [undefined].  It is also [v.k] for every other [v]: of the keys the
    program reads only [values] is a built-in property, of arrays, and the
    program does no more with it than [Array.isArray], which is false for
    that function as it is for [undefined]. *)
Definition prop (v : jsval) (k : string) : jsval :=
  match v with
  | JObj fields => assoc k fields
  | _ => JUndefined
  end.

(** [Array.isArray(v) ? v : []]. *)
Definition array_or_empty (v : jsval) : list jsval :=
  match v with
  | JArr items => items
  | _ => []
  end.

Definition isArray (v : jsval) : bool :=
  match v with
  | JArr _ => true
  | _ => false
  end.

(** [typeof v === "object"]. *)
Definition typeof_object (v : jsval) : bool :=
  match v with
  | JNull | JArr _ | JObj _ => true
  | _ => false
  end.

(** [typeof v === "number"] and [typeof v === "string"]. *)
Definition typeof_number (v : jsval) : bool :=
  match v with
  | JNum _ => true
  | _ => false
  end.

Definition typeof_string (v : jsval) : bool :=
  match v with
  | JStr _ => true
  | _ => false
  end.

(** [Number.isFinite(n)] for a number [n]. *)
Definition isFinite (n : float) : bool := PrimFloat.is_finite n.

(** The built-in algorithms of the language that the program calls and
    whose text is not part of it. *)
Record engine : Type := {
  (** Number::toString *)
  Number_toString : float -> string;
  (** StringToNumber *)
  StringToNumber : string -> float;
  (** [JSON.stringify(v, null, 2)] *)
  JSON_stringify : jsval -> jsval;
  (** the message of the TypeError raised by property [k] of [v]: read
      from [null] or [undefined], or called when it is no function *)
  TypeError_message : jsval -> string -> string;
  (** the message of the TypeError raised by the conversion of [v] to a
      primitive value *)
  ToPrimitive_message : jsval -> string
}.

(** An object has the own key [k]. *)
Definition has_own (k : string) (fields : list (string * jsval)) : bool :=
  existsb (fun kv => String.eqb k (fst kv)) fields.

(** All or nothing. *)
Fixpoint sequence {A : Type} (l : list (option A)) : option (list A) :=
  match l with
  | [] => Some []
  | None :: _ => None
  | Some a :: l' =>
      match sequence l' with
      | Some l'' => Some (a :: l'')
      | None => None
      end
  end.

Section Conversions.
Variable E : engine.

(** ToString, as applied by a template literal and by [String]; [None]
    is a TypeError.  An object is converted by the first of its [toString]
    and [valueOf] that is a function and returns a primitive value.  The
    own [toString] of a parsed object is data, and no function; the
    inherited [valueOf] returns the object itself: so an object with an own
    key [toString] has no conversion, whatever else it holds.  An array is
    converted by [join], which converts its elements. *)
Fixpoint ToString (v : jsval) : option string :=
  match v with
  | JUndefined => Some "undefined"
  | JNull => Some "null"
  | JBool true => Some "true"
  | JBool false => Some "false"
  | JNum n => Some (Number_toString E n)
  | JStr s => Some s
  | JArr items =>
      option_map (join ",")
        (sequence
           (map (fun x =>
                   match x with
                   | JUndefined | JNull => Some ""
                   | _ => ToString x
                   end) items))
  | JObj fields =>
      if has_own "toString" fields then None else Some "[object Object]"
  end.

(** [Number(v)]; [None] is a TypeError.  An object or an array is first
    converted to a primitive value: [valueOf] returns the object itself
    (an own [valueOf] is no function), so it is [toString] as above. *)
Definition Number (v : jsval) : option float :=
  match v with
  | JUndefined => Some PrimFloat.nan
  | JNull => Some PrimFloat.zero
  | JBool true => Some PrimFloat.one
  | JBool false => Some PrimFloat.zero
  | JNum n => Some n
  | JStr s => Some (StringToNumber E s)
  | JArr _ | JObj _ => option_map (StringToNumber E) (ToString v)
  end.
End Conversions.

(** What a [catch] clause receives: an axios error (with the body of the
    response, when there was one) or an [Error]. *)
Record js_error : Type := {
  response_data : jsval;      (* [e?.response?.data] *)
  message : string            (* [e.message] *)
}.

Definition TypeError (E : engine) (v : jsval) (k : string) : js_error :=
  {| response_data := JUndefined; message := TypeError_message E v k |}.

(** The TypeError of a value that has no conversion. *)
Definition ConversionError (E : engine) (v : jsval) : js_error :=
  {| response_data := JUndefined; message := ToPrimitive_message E v |}.

End Js.

(* ================================================================== *)
(** ** Backend collaborators and the monad of event handlers *)
(* ================================================================== *)

Module Backend.
Import Js.

(** The functions of [lib/api]; each call is one request. *)
Inductive call : Type :=
| requestInstall (user_query : string) (chosen_version : jsval)
| createTicket (user_query : string)
| showStatus (incidentId : string)
| queryChatbot (prompt : string) (chartType : string).

(** A promise settles: it resolves with the body of the response or
    rejects with an error. *)
Inductive outcome : Type :=
| Resolved (data : jsval)
| Rejected (e : js_error).

Definition backend : Type := call -> outcome.

End Backend.

Module Handler.
Import Js Backend.

Section Monad.
(** The component state. *)
Variable S : Type.

(** The state of the component, the requests issued so far, oldest
    first, and the error of a state updater that threw.  React runs the
    function given to a state setter on its own, not as part of the
    handler, and throws what it threw when it renders the component: no
    [catch] clause of a handler sees that error, and the page is lost with
    it. *)
Record world : Type := {
  ui : S;
  calls : list call;
  render_error : option js_error
}.

Inductive result (A : Type) : Type :=
| Ok (a : A)
| Throw (e : js_error).

Definition M (A : Type) : Type := world -> result A * world.

Definition ret {A} (a : A) : M A := fun w => (Ok A a, w).

Definition bind {A B} (m : M A) (f : A -> M B) : M B :=
  fun w =>
    match m w with
    | (Ok _ a, w') => f a w'
    | (Throw _ e, w') => (Throw B e, w')
    end.

Definition throw {A} (e : js_error) : M A := fun w => (Throw A e, w).

(** [try { m } catch (e) { h e }] *)
Definition try_catch {A} (m : M A) (h : js_error -> M A) : M A :=
  fun w =>
    match m w with
    | (Ok _ a, w') => (Ok A a, w')
    | (Throw _ e, w') => h e w'
    end.

(** [try { m } finally { f }] *)
Definition try_finally {A} (m : M A) (f : M unit) : M A :=
  fun w =>
    match m w with
    | (r, w') =>
        match f w' with
        | (Ok _ _, w'') => (r, w'')
        | (Throw _ e, w'') => (Throw A e, w'')
        end
    end.

Definition get_ui : M S := fun w => (Ok S (ui w), w).

Definition modify_ui (f : S -> S) : M unit :=
  fun w => (Ok unit tt, {| ui := f (ui w); calls := calls w;
                           render_error := render_error w |}).

(** A state setter given an updater that throws [e]: the handler goes
    on, the state is as it was, and the next render throws. *)
Definition updater_throws (e : js_error) : M unit :=
  fun w => (Ok unit tt, {| ui := ui w; calls := calls w;
                           render_error := match render_error w with
                                           | Some e0 => Some e0
                                           | None => Some e
                                           end |}).

(** [await c]: issue the request and wait until it settles. *)
Definition await (be : backend) (c : call) : M jsval :=
  fun w =>
    let w' := {| ui := ui w; calls := calls w ++ [c];
                 render_error := render_error w |} in
    match be c with
    | Resolved data => (Ok jsval data, w')
    | Rejected e => (Throw jsval e, w')
    end.

(** [v.k] where [v] may be [null] or [undefined]. *)
Definition member (E : engine) (v : jsval) (k : string) : M jsval :=
  match v with
  | JUndefined | JNull => throw (TypeError E v k)
  | _ => ret (prop v k)
  end.

(** A conversion of [v] that may have failed. *)
Definition converted {A} (E : engine) (v : jsval) (o : option A) : result A :=
  match o with
  | Some a => Ok A a
  | None => Throw A (ConversionError E v)
  end.

(** [`${v}`] in a handler. *)
Definition template (E : engine) (v : jsval) : M string :=
  match ToString E v with
  | Some s => ret s
  | None => throw (ConversionError E v)
  end.
End Monad.

Arguments ui {S} _.
Arguments calls {S} _.
Arguments Ok {A} _.
Arguments Throw {A} _.
Arguments ret {S A} _ _.
Arguments bind {S A B} _ _ _.
Arguments throw {S A} _ _.
Arguments try_catch {S A} _ _ _.
Arguments try_finally {S A} _ _ _.
Arguments get_ui {S} _.
Arguments modify_ui {S} _ _.
Arguments await {S} _ _ _.
Arguments member {S} _ _ _ _.
Arguments render_error {S} _.
Arguments updater_throws {S} _ _.
Arguments converted {A} _ _ _.
Arguments template {S} _ _ _.

(** [l.map(f)] where [f] may throw. *)
Fixpoint mapM {A B : Type} (f : A -> result B) (l : list A) : result (list B) :=
  match l with
  | [] => Ok []
  | a :: l' =>
      match f a with
      | Throw e => Throw e
      | Ok b =>
          match mapM f l' with
          | Throw e => Throw e
          | Ok bs => Ok (b :: bs)
          end
      end
  end.

End Handler.

Declare Scope handler_scope.
Delimit Scope handler_scope with handler.
Notation "x <- m ;; k" := (Handler.bind m (fun x => k))
  (at level 61, m at next level, right associativity) : handler_scope.
Notation "m ;; k" := (Handler.bind m (fun _ => k))
  (at level 61, right associativity) : handler_scope.

(** A turn of the transcript. *)
Inductive role : Type := system | user | assistant.

Record ChatTurn : Type := { turn_role : role; content : Js.jsval }.

Definition turn (r : role) (c : Js.jsval) : ChatTurn :=
  {| turn_role := r; content := c |}.

(** A key press on the input box: [e.key] and [e.shiftKey]. *)
Record KeyEvent : Type := { key : string; shiftKey : bool }.

(* ================================================================== *)
(** ** The client-side variant of [App] *)
(* ================================================================== *)

Module ClientSide.
Import Js Backend Handler.
Local Open Scope handler_scope.

Definition SYSTEM_RULES : string :=
"Title: Conversational Sales Insights with Northwind DB.

Rules:
- If the user asks to 'install' or' 'setup' software, ALWAYS call request_install first.
- If that returns multiple versions, show them and wait for the user's choice.
- If exactly one match, proceed (backend may create the ticket).
- If no match, backend creates a ticket automatically.
- If the user asks about an incident (INC...), call show_status.
- If the user asks about sales data, business metrics, or requests a chart, show the appropriate visualization.
".

Definition greeting : string :=
  "Hi! I'm your IT assistant. How can I help you today?".

(** The two turns of a fresh session. *)
Definition fresh : list ChatTurn :=
  [ turn system (JStr SYSTEM_RULES); turn assistant (JStr greeting) ].

(** [pending]: the query that was ambiguous and the versions offered. *)
Record Pending : Type := { user_query : string; options : list jsval }.

(** The [useState] cells of [App], and the [chat_history_v1] entry of
    the local storage ([None] when the key is not set).  Handlers write
    the entry only in [clearSession]; the effect that copies [messages]
    there runs after a render, outside every handler. *)
Record state : Type := {
  messages : list ChatTurn;
  input : string;
  pending : option Pending;
  thinking : bool;
  showChart : option string;
  chat_history_v1 : option (list ChatTurn)
}.

Definition setMessages (f : list ChatTurn -> list ChatTurn) : M state unit :=
  modify_ui (fun st =>
    {| messages := f (messages st); input := input st;
       pending := pending st; thinking := thinking st;
       showChart := showChart st; chat_history_v1 := chat_history_v1 st |}).

Definition setInput (s : string) : M state unit :=
  modify_ui (fun st =>
    {| messages := messages st; input := s;
       pending := pending st; thinking := thinking st;
       showChart := showChart st; chat_history_v1 := chat_history_v1 st |}).

Definition setPending (p : option Pending) : M state unit :=
  modify_ui (fun st =>
    {| messages := messages st; input := input st;
       pending := p; thinking := thinking st;
       showChart := showChart st; chat_history_v1 := chat_history_v1 st |}).

Definition setThinking (b : bool) : M state unit :=
  modify_ui (fun st =>
    {| messages := messages st; input := input st;
       pending := pending st; thinking := b;
       showChart := showChart st; chat_history_v1 := chat_history_v1 st |}).

Definition setShowChart (c : option string) : M state unit :=
  modify_ui (fun st =>
    {| messages := messages st; input := input st;
       pending := pending st; thinking := thinking st;
       showChart := c; chat_history_v1 := chat_history_v1 st |}).

(** [setMessages(f)] for an updater [f] that builds the new turn from
    values it has to convert. *)
Definition setMessages_with (f : list ChatTurn -> result (list ChatTurn))
  : M state unit :=
  st <- get_ui ;;
  match f (messages st) with
  | Ok m => setMessages (fun _ => m)
  | Throw e => updater_throws e
  end.

(** [localStorage.setItem("chat_history_v1", JSON.stringify(h))] *)
Definition localStorage_setItem (h : list ChatTurn) : M state unit :=
  modify_ui (fun st =>
    {| messages := messages st; input := input st;
       pending := pending st; thinking := thinking st;
       showChart := showChart st; chat_history_v1 := Some h |}).

(** [e?.response?.data || e.message], what the catch clauses print. *)
Definition error_detail (e : js_error) : jsval :=
  js_or (response_data e) (JStr (message e)).

(** Is the user asking for sales data or charts? *)
Definition checkForChartRequest (query : string) : option string :=
  let lowerQuery := toLowerCase query in
  if includes lowerQuery "sales" || includes lowerQuery "revenue" then
    if includes lowerQuery "month" || includes lowerQuery "monthly" then
      Some "monthly"
    else if includes lowerQuery "product" || includes lowerQuery "item" then
      Some "products"
    else if includes lowerQuery "quarter" || includes lowerQuery "q1"
            || includes lowerQuery "q2" || includes lowerQuery "q3"
            || includes lowerQuery "q4" then
      Some "quarterly"
    else if includes lowerQuery "chart" || includes lowerQuery "graph"
            || includes lowerQuery "visual" then
      Some "monthly"
    else None
  else None.

Section App.
Variable E : engine.
Variable be : backend.

Definition decideAndCallTool (query : string) : M state jsval :=
  (* Check for chart requests first *)
  match checkForChartRequest query with
  | Some chartType =>
      setShowChart (Some chartType) ;;
      ret (JStr ("Here's the " ++ chartType ++ " sales data you requested:"))
  | None =>
      (* Reset chart display for non-chart requests *)
      setShowChart None ;;
      (* 1) Incident check *)
      match exec true re_incident query with
      | Some incMatch0 =>
          try_catch
            (let inc := toUpperCase incMatch0 in
             data <- await be (showStatus inc) ;;
             setPending None ;;
             status <- member E data "incident_status" ;;
             text <- template E (js_nullish status (JStr "Unknown")) ;;
             ret (JStr ("Incident " ++ inc ++ " status: " ++ text)))
            (fun e =>
               detail <- template E (error_detail e) ;;
               ret (JStr ("Error while checking status: " ++ detail)))
      | None =>
          (* 2) install/setup path *)
          if test true re_install query then
            try_catch
              (data <- await be (requestInstall query JNull) ;;
               if truthy data && typeof_object data
                  && truthy (prop data "incident") then
                 setPending None ;;
                 ret (JSON_stringify E data)
               else if isArray (prop data "options")
                       && (1 <? length (array_or_empty (prop data "options")))%nat
               then
                 setPending
                   (Some {| user_query := query;
                            options := array_or_empty (prop data "options") |}) ;;
                 message <- member E data "message" ;;
                 ret (js_or message
                        (JStr "Multiple versions found. Please choose one."))
               else
                 setPending None ;;
                 ret (JSON_stringify E data))
              (fun e =>
                 setPending None ;;
                 detail <- template E (error_detail e) ;;
                 ret (JStr ("Error while searching software: " ++ detail)))
          else
            (* 3) generic ticket *)
            try_catch
              (data <- await be (createTicket query) ;;
               setPending None ;;
               incident <- member E data "incident" ;;
               text <- template E incident ;;
               ret (JStr ("Ticket " ++ text ++ " created for: " ++ query)))
              (fun e =>
                 setPending None ;;
                 detail <- template E (error_detail e) ;;
                 ret (JStr ("Error while creating ticket: " ++ detail)))
      end
  end.

Definition handleSend : M state unit :=
  st <- get_ui ;;
  let text := trim (input st) in
  if String.eqb text "" then ret tt
  else
    setMessages (fun m => m ++ [turn user (JStr text)]) ;;
    setInput "" ;;
    setThinking true ;;
    result <- decideAndCallTool text ;;
    setThinking false ;;
    setMessages (fun m => m ++ [turn assistant result]).

(** The text of the new turn is built inside the function given to
    [setMessages]: a conversion that fails throws there, where neither the
    [catch] nor the [finally] of the handler sees it. *)
Definition confirmVersion (choice : jsval) : M state unit :=
  if js_not choice then ret tt
  else
    st <- get_ui ;;
    try_finally
      (try_catch
         (user_query <-
            match pending st with
            | Some p => ret (user_query p)
            | None => throw (TypeError E JNull "user_query")
            end ;;
          data <- await be (requestInstall user_query choice) ;;
          setMessages_with (fun m =>
            let message := js_or (prop data "message") (JStr "Ticket created") in
            let incident := js_or (prop data "incident") (JStr "N/A") in
            match ToString E message, ToString E incident with
            | Some text, Some id =>
                Ok (m ++ [turn assistant
                            (JStr ("✅ " ++ text ++ " • Incident: " ++ id))])
            | None, _ => Throw (ConversionError E message)
            | Some _, None => Throw (ConversionError E incident)
            end))
         (fun e =>
            setMessages_with (fun m =>
              match ToString E (error_detail e) with
              | Some detail =>
                  Ok (m ++ [turn assistant (JStr ("❌ Failed: " ++ detail))])
              | None => Throw (ConversionError E (error_detail e))
              end)))
      (* always hide dropdown after confirm *)
      (setPending None).

Definition clearSession : M state unit :=
  setMessages (fun _ => fresh) ;;
  setPending None ;;
  setShowChart None ;;
  localStorage_setItem fresh.

(** The input box: [e.key === "Enter" && !e.shiftKey && handleSend()]. *)
Definition onKeyDown (e : KeyEvent) : M state unit :=
  if String.eqb (key e) "Enter" && negb (shiftKey e) then handleSend
  else ret tt.

(** The send button: [onClick={handleSend}] with
    [disabled={thinking || input.trim() === ""}]; a disabled button
    does not fire [click]. *)
Definition onClick_send : M state unit :=
  st <- get_ui ;;
  if thinking st || String.eqb (trim (input st)) "" then ret tt
  else handleSend.

(** The version dropdown is rendered when [pending?.options?.length > 1]. *)
Definition dropdown_visible (st : state) : bool :=
  match pending st with
  | Some p => (1 <? length (options p))%nat
  | None => false
  end.
End App.

End ClientSide.

(* ================================================================== *)
(** ** The backend-driven variant of [App] *)
(* ================================================================== *)

Module BackendDriven.
Import Js Backend Handler.
Local Open Scope handler_scope.

Definition SYSTEM_RULES : string :=
"Title: Conversational Sales Insights with Northwind DB.

Rules:
- If the user asks about sales data, business metrics, or requests a chart, call the /chatbot/query API.
- Prefer showing a relevant visualization when the user mentions month/quarter/product.
".

Definition greeting : string :=
  "Hi! I’m your Sales Insights assistant. Ask me about sales, revenue, products, or trends.".

Definition fresh : list ChatTurn :=
  [ turn system (JStr SYSTEM_RULES); turn assistant (JStr greeting) ].

(** *** Helpers to render API results *)

Record Dataset : Type := {
  label : string;
  data : list float;
  borderWidth : float
}.

Record ChartData : Type := {
  labels : list jsval;
  datasets : list Dataset
}.

(** [scales: { y: { beginAtZero, ticks: { precision } } }] *)
Record Scales : Type := { beginAtZero : bool; precision : float }.

Record ChartOptions : Type := {
  responsive : bool;
  legend_position : string;
  title_display : bool;
  title_text : jsval;
  scales : option Scales
}.

Record ChartJsSpec : Type := {
  type : string;
  chart_data : ChartData;
  options : ChartOptions
}.

Section Render.
Variable E : engine.

(** [v.toLowerCase()]: a TypeError unless [v] is a string. *)
Definition call_toLowerCase (v : jsval) : result string :=
  match v with
  | JStr s => Ok (toLowerCase s)
  | _ => Throw (TypeError E v "toLowerCase")
  end.

Definition buildChartJsSpec (spec : jsval) : result ChartJsSpec :=
  match call_toLowerCase (js_or (prop spec "type") (JStr "bar")) with
  | Throw e => Throw e
  | Ok type =>
      let labels := array_or_empty (prop spec "labels") in
      let rawValues := array_or_empty (prop spec "values") in
      (* Coerce to numbers; if non-numeric, count = 1 per label *)
      match mapM (fun v =>
                    match v with
                    | JNum n => Ok n
                    | _ => converted E v (Number E v)
                    end) rawValues with
      | Throw e => Throw e
      | Ok numeric =>
          let allNums := forallb isFinite numeric in
          let dataValues :=
            if allNums then numeric else map (fun _ => PrimFloat.one) labels in
          let title_options :=
            (truthy (prop spec "title"), js_or (prop spec "title") (JStr "")) in
          Ok {| type := type;
                chart_data :=
                  {| labels := labels;
                     datasets :=
                       [ {| label := if allNums then "Value" else "Count";
                            data := dataValues;
                            borderWidth := PrimFloat.one |} ] |};
                options :=
                  {| responsive := true;
                     legend_position := "top";
                     title_display := fst title_options;
                     title_text := snd title_options;
                     scales :=
                       if String.eqb type "bar" || String.eqb type "line"
                       then Some {| beginAtZero := true;
                                    precision := PrimFloat.zero |}
                       else None |} |}
      end
  end.

Inductive chart_component : Type := Bar | Line | Pie.

(** [GenericChart({ spec })]: nothing for a falsy [spec], otherwise
    the chart component with its [data] and [options]. *)
Definition GenericChart (spec : jsval)
  : result (option (chart_component * ChartData * ChartOptions)) :=
  if js_not spec then Ok None
  else
    match buildChartJsSpec spec with
    | Throw e => Throw e
    | Ok s =>
        let component :=
          if String.eqb (type s) "pie" then Pie
          else if String.eqb (type s) "line" then Line
          else Bar in
        Ok (Some (component, chart_data s, options s))
    end.
End Render.

(** *** App *)

Record state : Type := {
  messages : list ChatTurn;
  input : string;
  thinking : bool;
  showChart : option string;
  lastPayload : jsval;
  errorMsg : string;
  chat_history_v1 : option (list ChatTurn)
}.

Definition setMessages (f : list ChatTurn -> list ChatTurn) : M state unit :=
  modify_ui (fun st =>
    {| messages := f (messages st); input := input st;
       thinking := thinking st; showChart := showChart st;
       lastPayload := lastPayload st; errorMsg := errorMsg st;
       chat_history_v1 := chat_history_v1 st |}).

Definition setInput (s : string) : M state unit :=
  modify_ui (fun st =>
    {| messages := messages st; input := s;
       thinking := thinking st; showChart := showChart st;
       lastPayload := lastPayload st; errorMsg := errorMsg st;
       chat_history_v1 := chat_history_v1 st |}).

Definition setThinking (b : bool) : M state unit :=
  modify_ui (fun st =>
    {| messages := messages st; input := input st;
       thinking := b; showChart := showChart st;
       lastPayload := lastPayload st; errorMsg := errorMsg st;
       chat_history_v1 := chat_history_v1 st |}).

Definition setShowChart (c : option string) : M state unit :=
  modify_ui (fun st =>
    {| messages := messages st; input := input st;
       thinking := thinking st; showChart := c;
       lastPayload := lastPayload st; errorMsg := errorMsg st;
       chat_history_v1 := chat_history_v1 st |}).

Definition setLastPayload (v : jsval) : M state unit :=
  modify_ui (fun st =>
    {| messages := messages st; input := input st;
       thinking := thinking st; showChart := showChart st;
       lastPayload := v; errorMsg := errorMsg st;
       chat_history_v1 := chat_history_v1 st |}).

Definition setErrorMsg (s : string) : M state unit :=
  modify_ui (fun st =>
    {| messages := messages st; input := input st;
       thinking := thinking st; showChart := showChart st;
       lastPayload := lastPayload st; errorMsg := s;
       chat_history_v1 := chat_history_v1 st |}).

Definition localStorage_setItem (h : list ChatTurn) : M state unit :=
  modify_ui (fun st =>
    {| messages := messages st; input := input st;
       thinking := thinking st; showChart := showChart st;
       lastPayload := lastPayload st; errorMsg := errorMsg st;
       chat_history_v1 := Some h |}).

(** Simple heuristic to hint chart type to backend. *)
Definition checkForChartRequest (query : string) : option string :=
  let lower := toLowerCase query in
  if includes lower "sales" || includes lower "revenue" then
    if includes lower "month" || includes lower "monthly" then Some "monthly"
    else if includes lower "product" || includes lower "item" then
      Some "products"
    else if includes lower "quarter" || test false re_quarter lower then
      Some "quarterly"
    else if includes lower "chart" || includes lower "graph"
            || includes lower "visual" then
      Some "monthly"
    else None
  else None.

(** [["monthly", "products", "quarterly"].includes(v)] *)
Definition is_static_chart (v : jsval) : option string :=
  match v with
  | JStr s =>
      if String.eqb s "monthly" || String.eqb s "products"
         || String.eqb s "quarterly"
      then Some s else None
  | _ => None
  end.

Section App.
Variable be : backend.

Definition decideAndCallTool (query : string) : M state jsval :=
  try_catch
    (setErrorMsg "" ;;
     let inferredChart := checkForChartRequest query in
     data <- await be (queryChatbot query
                         (match inferredChart with
                          | Some c => c
                          | None => "auto"
                          end)) ;;
     setLastPayload (js_nullish data JNull) ;;
     (* text shown in assistant bubble *)
     let answer :=
       js_or (js_and data (js_or (prop data "summary") (prop data "answer")))
         (JStr "Here are your sales insights.") in
     (* prefer backend chart_type; if dynamic chart present, hide static *)
     let backendChartType := prop data "chart_type" in
     match is_static_chart backendChartType with
     | Some c => setShowChart (Some c)
     | None =>
         if truthy (prop data "chart") then setShowChart None
         else setShowChart inferredChart
     end ;;
     ret answer)
    (fun e =>
       setLastPayload JNull ;;
       setShowChart None ;;
       let msg := if String.eqb (message e) "" then "Unknown error"
                  else message e in
       setErrorMsg msg ;;
       ret (JStr ("Chatbot error: " ++ msg))).

Definition handleSend : M state unit :=
  st <- get_ui ;;
  let text := trim (input st) in
  (* prevent double submit *)
  if String.eqb text "" || thinking st then ret tt
  else
    setMessages (fun m => m ++ [turn user (JStr text)]) ;;
    setInput "" ;;
    setThinking true ;;
    result <- decideAndCallTool text ;;
    setThinking false ;;
    setMessages (fun m => m ++ [turn assistant result]).

Definition clearSession : M state unit :=
  setMessages (fun _ => fresh) ;;
  setShowChart None ;;
  setLastPayload JNull ;;
  setErrorMsg "" ;;
  localStorage_setItem fresh.

Definition onKeyDown (e : KeyEvent) : M state unit :=
  if String.eqb (key e) "Enter" && negb (shiftKey e) then handleSend
  else ret tt.

Definition onClick_send : M state unit :=
  st <- get_ui ;;
  if thinking st || String.eqb (trim (input st)) "" then ret tt
  else handleSend.

(** The static fallback is rendered when
    [!lastPayload?.chart && showChart]. *)
Definition static_fallback_visible (st : state) : bool :=
  js_not (prop (lastPayload st) "chart") &&
  match showChart st with
  | Some c => negb (String.eqb c "")
  | None => false
  end.
End App.

End BackendDriven.

(* ================================================================== *)
(** ** Vocabulary of the specification *)
(* ================================================================== *)

(** The intent of an utterance, as the cascade of tests at the head of the
    client-side [decideAndCallTool] decides it. *)
Inductive Intent : Type :=
| AnalyticsQuery (chartHint : string)
| IncidentStatus (incidentId : string)
| InstallRequest
| GenericTicket.

Definition classify (query : string) : Intent :=
  match ClientSide.checkForChartRequest query with
  | Some chartType => AnalyticsQuery chartType
  | None =>
      match exec true re_incident query with
      | Some incMatch0 => IncidentStatus (toUpperCase incMatch0)
      | None =>
          if test true re_install query then InstallRequest else GenericTicket
      end
  end.

Fixpoint all_digits (s : string) : bool :=
  match s with
  | EmptyString => true
  | String c s' => is_digit c && all_digits s'
  end.

(** [INC] in any case followed by one digit or more. *)
Definition is_incident_id (tok : string) : bool :=
  match tok with
  | String i (String n (String c (String d ds))) =>
      Ascii.eqb (upper_char i) "I" && Ascii.eqb (upper_char n) "N"
      && Ascii.eqb (upper_char c) "C" && is_digit d && all_digits ds
  | _ => false
  end.

Fixpoint last_char (s : string) : option ascii :=
  match s with
  | EmptyString => None
  | String c EmptyString => Some c
  | String _ s' => last_char s'
  end.

Definition first_char (s : string) : option ascii :=
  match s with
  | EmptyString => None
  | String c _ => Some c
  end.

(** What follows [\d+] in the incident pattern: [\b], then success. *)
Definition word_end : cont := fun p s a => run true WordB p s a accept.

(** The shape of an incident id, character by character. *)
Definition incident_chars (i n c d : ascii) (ds : list ascii) : bool :=
  cls_match true (CChar "I") i && cls_match true (CChar "N") n
  && cls_match true (CChar "C") c && is_digit d && forallb is_digit ds.

(** The character before the current position once [pre] has been read,
    starting after [prev]. *)
Definition prev_after (prev : option ascii) (pre : list ascii) : option ascii :=
  fold_left (fun _ x => Some x) pre prev.

(** The utterance contains a token matching [INC\d+]: an incident id that
    no word character precedes or follows. *)
Definition has_incident_token (u : string) : Prop :=
  exists pre tok post,
    u = (pre ++ tok ++ post)%string /\
    is_incident_id tok = true /\
    is_word_opt (last_char pre) = false /\
    is_word_opt (first_char post) = false.

(** The chart heuristic, in words: sales vocabulary together with a cue. *)
Definition sales_vocabulary (lower : string) : bool :=
  includes lower "sales" || includes lower "revenue".

Definition chart_cue (lower : string) : bool :=
  includes lower "month" || includes lower "product" || includes lower "item"
  || includes lower "quarter" || includes lower "q1" || includes lower "q2"
  || includes lower "q3" || includes lower "q4" || includes lower "chart"
  || includes lower "graph" || includes lower "visual".

(** The world in which a handler starts: a component state and the
    requests already issued. *)
Definition world_of {S : Type} (st : S) (cs : list Backend.call)
  : Handler.world S :=
  {| Handler.ui := st; Handler.calls := cs; Handler.render_error := None |}.

(** The value a handler returned, when it did not throw. *)
Definition returned {S A : Type} (r : Handler.result A * Handler.world S)
  : option A :=
  match fst r with
  | Handler.Ok a => Some a
  | Handler.Throw _ => None
  end.

Definition state_after {S A : Type} (r : Handler.result A * Handler.world S)
  : S := Handler.ui (snd r).

Definition calls_after {S A : Type} (r : Handler.result A * Handler.world S)
  : list Backend.call := Handler.calls (snd r).

(** [Number(v)] of a chart value: numbers are kept, everything else is
    coerced; [None] when the coercion throws. *)
Definition coerce (E : Js.engine) (v : Js.jsval) : option float :=
  match v with
  | Js.JNum n => Some n
  | _ => Js.Number E v
  end.

(** The chart types the backend may declare. *)
Definition static_charts : list string := ["monthly"; "products"; "quarterly"].

(** The [type] of a chart is a string, or is missing or falsy
    ([chart?: { type?: string, ... }] in the interface of [queryChatbot]). *)
Definition well_typed_chart (spec : Js.jsval) : bool :=
  Js.typeof_string (Js.prop spec "type") || Js.js_not (Js.prop spec "type").

(** Stand-ins for the closed examples below.  The theorems hold for every
    engine and every backend; the examples need one of each. *)
Module Sample.
Import Js Backend.

Fixpoint decimal (acc : float) (s : string) : float :=
  match s with
  | EmptyString => acc
  | String c s' =>
      if is_digit c then
        decimal (acc * 10 + PrimFloat.of_uint63 (Uint63.of_nat (code c - 48)))%float s'
      else PrimFloat.nan
  end.

(** An engine that reads unsigned decimal integers and prints only the
    special numbers. *)
Definition engine0 : engine :=
  {| Number_toString := fun n =>
       if PrimFloat.is_nan n then "NaN"
       else if PrimFloat.is_zero n then "0"
       else "<number>";
     StringToNumber := decimal PrimFloat.zero;
     JSON_stringify := fun v =>
       match v with
       | JUndefined => JUndefined
       | _ => JStr "<json>"
       end;
     TypeError_message := fun _ k =>
       ("Cannot read properties of null (reading '" ++ k ++ "')")%string;
     ToPrimitive_message := fun _ =>
       "Cannot convert object to primitive value" |}.

Definition network_error : js_error :=
  {| response_data := JUndefined; message := "Network Error" |}.

(** A failed request whose response has the body [{"toString": 1}]. *)
Definition unprintable_error : js_error :=
  {| response_data := JObj [ ("toString", JNum 1%float) ];
     message := "Request failed with status code 500" |}.

(** A backend that fails every request that way. *)
Definition unprintable : backend := fun _ => Rejected unprintable_error.

(** A backend that is down. *)
Definition offline : backend := fun _ => Rejected network_error.

(** A backend that knows two versions of everything until one is chosen. *)
Definition two_versions : backend := fun c =>
  match c with
  | requestInstall _ JNull =>
      Resolved (JObj [ ("options", JArr [JStr "1.85"; JStr "1.86"]);
                       ("message", JStr "Which version?") ])
  | requestInstall _ _ =>
      Resolved (JObj [ ("incident", JStr "INC0010001");
                       ("message", JStr "Ticket created") ])
  | createTicket _ => Resolved (JObj [ ("incident", JStr "INC0010002") ])
  | showStatus _ => Resolved (JObj [ ("incident_status", JStr "Open") ])
  | queryChatbot _ _ => Resolved (JObj [ ("answer", JStr "42") ])
  end.

(** A backend whose install lookup always finds three versions. *)
Definition three_versions : backend := fun c =>
  match c with
  | requestInstall _ _ =>
      Resolved (JObj [ ("options", JArr [JStr "1.0"; JStr "2.0"; JStr "3.0"]);
                       ("message", JStr "Which version do you want?") ])
  | _ => Rejected network_error
  end.

(** A backend whose install lookup finds exactly one version and leaves
    the ticket to the caller. *)
Definition one_version : backend := fun c =>
  match c with
  | requestInstall _ _ =>
      Resolved (JObj [ ("options", JArr [JStr "1.0"]);
                       ("message", JStr "Multiple versions found") ])
  | _ => Rejected network_error
  end.

Definition idle : ClientSide.state :=
  {| ClientSide.messages := ClientSide.fresh;
     ClientSide.input := "";
     ClientSide.pending := None;
     ClientSide.thinking := false;
     ClientSide.showChart := None;
     ClientSide.chat_history_v1 := None |}.

(** A dispatch is in flight and the user has typed the next message. *)
Definition busy : ClientSide.state :=
  {| ClientSide.messages :=
       ClientSide.fresh ++ [turn user (JStr "my laptop is slow")];
     ClientSide.input := "hello";
     ClientSide.pending := None;
     ClientSide.thinking := true;
     ClientSide.showChart := None;
     ClientSide.chat_history_v1 := None |}.

(** Two versions of vscode were offered. *)
Definition awaiting : ClientSide.state :=
  {| ClientSide.messages := ClientSide.fresh;
     ClientSide.input := "";
     ClientSide.pending :=
       Some {| ClientSide.user_query := "install vscode";
               ClientSide.options := [JStr "1.85"; JStr "1.86"] |};
     ClientSide.thinking := false;
     ClientSide.showChart := None;
     ClientSide.chat_history_v1 := None |}.

Definition insights : BackendDriven.state :=
  {| BackendDriven.messages := BackendDriven.fresh;
     BackendDriven.input := "top products";
     BackendDriven.thinking := true;
     BackendDriven.showChart := Some "monthly";
     BackendDriven.lastPayload := JObj [ ("answer", JStr "42") ];
     BackendDriven.errorMsg := "";
     BackendDriven.chat_history_v1 := None |}.

Definition enter : KeyEvent := {| key := "Enter"; shiftKey := false |}.
End Sample.

(* ================================================================== *)
(** ** More vocabulary: patterns, requests and events *)
(* ================================================================== *)

(** Read the literal [w] off the head of [s] the way a pattern does:
    the characters read and the rest of the input. *)
Fixpoint match_lit (ic : bool) (w s : list ascii)
  : option (list ascii * list ascii) :=
  match w with
  | [] => Some ([], s)
  | a :: w' =>
      match s with
      | [] => None
      | x :: s' =>
          if cls_match ic (CChar a) x then
            match match_lit ic w' s' with
            | Some (m, rest) => Some (x :: m, rest)
            | None => None
            end
          else None
      end
  end.

(** The three alternatives of the install pattern. *)
Definition install_alternatives : list string := ["install"; "setup"; "set up"].

(** The utterance contains [install], [setup] or [set up] in any case, as
    a whole word: no word character precedes or follows it. *)
Definition has_install_word (u : string) : Prop :=
  exists pre w post,
    u = (pre ++ w ++ post)%string /\
    In (toUpperCase w) (map toUpperCase install_alternatives) /\
    is_word_opt (last_char pre) = false /\
    is_word_opt (first_char post) = false.

(** All the characters there are. *)
Definition all_ascii : list ascii := map ascii_of_nat (seq 0 256).

(** The request that goes with an intent: none for a chart request. *)
Definition requests_of (query : string) : list Backend.call :=
  match classify query with
  | AnalyticsQuery _ => []
  | IncidentStatus inc => [Backend.showStatus inc]
  | InstallRequest => [Backend.requestInstall query Js.JNull]
  | GenericTicket => [Backend.createTicket query]
  end.

(** The turns that are rendered: [messages.filter((m) => m.role !== "system")]. *)
Definition visible (messages : list ChatTurn) : list ChatTurn :=
  filter (fun m => match turn_role m with system => false | _ => true end)
    messages.

(** *** The client-side component as a machine *)

Module ClientMachine.
Import Js Backend Handler.

(** The chart blocks of the page: [{showChart === 'monthly' && ...}] and
    its two siblings, in the order of the page. *)
Definition rendered_charts (st : ClientSide.state) : list string :=
  filter (fun c =>
            match ClientSide.showChart st with
            | Some s => String.eqb s c
            | None => false
            end)
    ["monthly"; "products"; "quarterly"].

(** What the user can do to the page. *)
Inductive event : Type :=
| Change (value : string)      (* type in the input box *)
| KeyDown (e : KeyEvent)       (* press a key in the input box *)
| ClickSend                    (* the send button *)
| ClickConfirm (choice : jsval) (* the confirm button of the dropdown *)
| ClickClear.                  (* the clear button *)

Section Machine.
Variable E : engine.
Variable be : backend.

(** The handler an event runs.  The dropdown, and with it its button, is
    on the page only while [pending?.options?.length > 1]. *)
Definition handle (ev : event) : M ClientSide.state unit :=
  match ev with
  | Change value => ClientSide.setInput value
  | KeyDown e => ClientSide.onKeyDown E be e
  | ClickSend => ClientSide.onClick_send E be
  | ClickConfirm choice =>
      (st <- get_ui ;;
       if ClientSide.dropdown_visible st
       then ClientSide.confirmVersion E be choice
       else ret tt)%handler
  | ClickClear => ClientSide.clearSession
  end.

(** One event after the other; an exception that escapes a handler does
    not stop the page.  A render that throws does: no event follows it on
    the real page, so the runs of events below include some that cannot
    happen. *)
Definition run_events (evs : list event) (w : world ClientSide.state)
  : world ClientSide.state :=
  fold_left (fun w ev => snd (handle ev w)) evs w.
End Machine.

(** A pending confirmation offers two versions or more. *)
Definition pending_wf (st : ClientSide.state) : Prop :=
  match ClientSide.pending st with
  | Some p => 2 <= length (ClientSide.options p)
  | None => True
  end.

(** The chart to show, if any, is one the page has a block for. *)
Definition showChart_wf (st : ClientSide.state) : Prop :=
  match ClientSide.showChart st with
  | Some c => In c static_charts
  | None => True
  end.

(** The transcript opens with the one system turn. *)
Definition transcript_wf (st : ClientSide.state) : Prop :=
  exists rest,
    ClientSide.messages st = turn system (JStr ClientSide.SYSTEM_RULES) :: rest /\
    visible rest = rest.

Definition wf (st : ClientSide.state) : Prop :=
  pending_wf st /\ showChart_wf st /\ transcript_wf st.

Definition is_clear (ev : event) : bool :=
  match ev with
  | ClickClear => true
  | _ => false
  end.

(** The page as [useState] sets it up when nothing is stored. *)
Definition initial : ClientSide.state :=
  {| ClientSide.messages := ClientSide.fresh;
     ClientSide.input := "";
     ClientSide.pending := None;
     ClientSide.thinking := false;
     ClientSide.showChart := None;
     ClientSide.chat_history_v1 := None |}.
End ClientMachine.

(** [v == null]: [v] is [null] or [undefined]. *)
Definition is_nullish (v : Js.jsval) : bool :=
  match v with
  | Js.JUndefined | Js.JNull => true
  | _ => false
  end.

(** *** The backend-driven component as a machine *)

Module BackendMachine.
Import Js Backend Handler.

Inductive event : Type :=
| Change (value : string)
| KeyDown (e : KeyEvent)
| ClickSend
| ClickClear.

Section Machine.
Variable be : backend.

Definition handle (ev : event) : M BackendDriven.state unit :=
  match ev with
  | Change value => BackendDriven.setInput value
  | KeyDown e => BackendDriven.onKeyDown be e
  | ClickSend => BackendDriven.onClick_send be
  | ClickClear => BackendDriven.clearSession
  end.

Definition run_events (evs : list event) (w : world BackendDriven.state)
  : world BackendDriven.state :=
  fold_left (fun w ev => snd (handle ev w)) evs w.
End Machine.

(** While the error banner is up there is no payload and no chart. *)
Definition banner_wf (st : BackendDriven.state) : Prop :=
  BackendDriven.errorMsg st <> "" ->
  BackendDriven.lastPayload st = JNull /\ BackendDriven.showChart st = None.

Definition showChart_wf (st : BackendDriven.state) : Prop :=
  match BackendDriven.showChart st with
  | Some c => In c static_charts
  | None => True
  end.

Definition wf (st : BackendDriven.state) : Prop :=
  banner_wf st /\ showChart_wf st.

(** The chart hint sent to the backend. *)
Definition hint_of (query : string) : string :=
  match BackendDriven.checkForChartRequest query with
  | Some c => c
  | None => "auto"
  end.

Definition initial : BackendDriven.state :=
  {| BackendDriven.messages := BackendDriven.fresh;
     BackendDriven.input := "";
     BackendDriven.thinking := false;
     BackendDriven.showChart := None;
     BackendDriven.lastPayload := JNull;
     BackendDriven.errorMsg := "";
     BackendDriven.chat_history_v1 := None |}.
End BackendMachine.



(** The kind of chart a spec asks for: its [type] in lower case, [bar]
    when it has none. *)
Definition chart_kind (spec : Js.jsval) : string :=
  match Js.prop spec "type" with
  | Js.JStr s => if String.eqb s "" then "bar" else toLowerCase s
  | _ => "bar"
  end.

(* ================================================================== *)
(** ** The API modules *)
(* ================================================================== *)

From Stdlib Require Import DecimalString.

Module Api.
Import Js Backend.

(** What goes over the wire. *)
Inductive request : Type :=
| GET (url : string)
| POST (url : string) (body : jsval).

(** What axios rejects with: [err.response] (the body of the response,
    when the server answered), [err.message] and [err.name]. *)
Record axios_error : Type := {
  response : option jsval;
  ax_message : string;
  ax_name : string
}.

Inductive axios_outcome : Type :=
| AxResolved (data : jsval)
| AxRejected (err : axios_error).

Definition transport : Type := request -> axios_outcome.

(** *** [lib/api] of the client-side variant *)

Definition BASE : string := "http://127.0.0.1:8000".

(** The request each function sends; [lib/api] of this variant has no
    [queryChatbot]. *)
Definition wire (c : call) : option request :=
  match c with
  | requestInstall user_query chosen_version =>
      Some (POST (BASE ++ "/request_install")
              (JObj [ ("user_query", JStr user_query);
                      ("chosen_version",
                       match chosen_version with
                       | JUndefined => JNull
                       | v => v
                       end) ]))
  | createTicket user_query =>
      Some (POST (BASE ++ "/create_ticket")
              (JObj [ ("short_description", JStr user_query);
                      ("description", JStr user_query);
                      ("impact", JStr "2");
                      ("category", JStr "Software") ]))
  | showStatus incidentId =>
      Some (GET (BASE ++ "/show_status/" ++ incidentId))
  | queryChatbot _ _ => None
  end.

(** *** [lib/api] of the backend-driven variant *)

(** [String(err)] for an error object. *)
Definition error_toString (err : axios_error) : string :=
  if String.eqb (ax_name err) "" then ax_message err
  else if String.eqb (ax_message err) "" then ax_name err
  else ax_name err ++ ": " ++ ax_message err.

Section Chatbot.
Variable E : engine.
(** [JSON.stringify(v)] *)
Variable stringify : jsval -> jsval.
(** [import.meta.env.VITE_API_BASE || "http://127.0.0.1:8000"] and
    [import.meta.env.VITE_DISABLE_API === "1"] *)
Variable BASE_URL : string.
Variable DISABLE : bool.

(** Convert axios error -> readable text; [None] is a falsy [err]. *)
Definition errorToText (err : option axios_error) : jsval :=
  match err with
  | None => JStr "Unknown error"
  | Some e =>
      match response e with
      | Some d =>
          (* FastAPI errors often live in data.detail or data.detail.error *)
          let detail :=
            js_nullish
              (js_nullish (prop (prop d "detail") "error") (prop d "detail")) d in
          if typeof_string detail then detail else stringify detail
      | None => js_or (JStr (ax_message e)) (JStr (error_toString e))
      end
  end.

(** What [throw new Error(v)] throws: the error whose message is [v] as
    a string, empty for [undefined]. *)
Definition new_Error (v : jsval) : js_error :=
  match v with
  | JUndefined => {| response_data := JUndefined; message := "" |}
  | _ =>
      match ToString E v with
      | Some s => {| response_data := JUndefined; message := s |}
      | None => ConversionError E v
      end
  end.

Definition mock : jsval :=
  JObj [ ("summary", JStr "⚠️ API disabled (mock). Showing sample results.");
         ("data", JArr [ JObj [ ("CompanyName", JStr "Sample Co A") ];
                         JObj [ ("CompanyName", JStr "Sample Co B") ] ]);
         ("chart", JObj [ ("type", JStr "bar");
                          ("labels", JArr [JStr "Sample Co A"; JStr "Sample Co B"]);
                          ("values", JArr [JNum 1%float; JNum 1%float]);
                          ("title", JStr "Mock Chart") ]);
         ("sql", JStr "/* mock */");
         ("forecast", JNull) ].

(** Call backend chatbot. *)
Definition queryChatbot (t : transport) (prompt chartType : string) : outcome :=
  (* Mock mode (no real network call) *)
  if DISABLE then Resolved mock
  else
    match t (POST (BASE_URL ++ "/chatbot/query")
               (JObj [ ("prompt", JStr prompt); ("chart_type", JStr chartType) ])) with
    | AxResolved data => Resolved data
    | AxRejected err =>
        (* Throw a normalized Error so UI can show it *)
        Rejected (new_Error (errorToText (Some err)))
    end.

(** A backend whose [queryChatbot] is this one. *)
Definition implements (be : backend) (t : transport) : Prop :=
  forall prompt chartType,
    be (Backend.queryChatbot prompt chartType) = queryChatbot t prompt chartType.
End Chatbot.
End Api.

(* ================================================================== *)
(** ** The version dropdown *)
(* ================================================================== *)

Module PendingInstall.
Import Js Backend Handler.
Local Open Scope handler_scope.

(** The page: the component and the global [window.__choice]. *)
Record page : Type := { app : ClientSide.state; window_choice : jsval }.

(** Run a handler of [App] on the page. *)
Definition on_app {A : Type} (m : M ClientSide.state A) : M page A :=
  fun w =>
    match m {| ui := app (ui w); calls := calls w;
               render_error := render_error w |} with
    | (r, w') =>
        (r, {| ui := {| app := ui w'; window_choice := window_choice (ui w) |};
               calls := calls w'; render_error := render_error w' |})
    end.



Section Dropdown.
Variable E : engine.
Variable be : backend.

(** [onClick={() => onConfirm(window.__choice)}], with
    [onConfirm={confirmVersion}]. *)
Definition button_onClick : M page unit :=
  pg <- get_ui ;;
  on_app (ClientSide.confirmVersion E be (window_choice pg)).




(** The user presses the confirm button, if the dropdown is on the page. *)
Definition confirm : M page unit :=
  pg <- get_ui ;;
  if ClientSide.dropdown_visible (app pg) then button_onClick else ret tt.

(** The user sends an utterance. *)
Definition send (text : string) : M page unit :=
  on_app (ClientSide.setInput text ;; ClientSide.handleSend E be).
End Dropdown.

Definition loaded : page :=
  {| app := ClientMachine.initial; window_choice := JUndefined |}.

(** The page after version 1.85 of something was chosen and confirmed. *)
Definition after_vscode : page :=
  {| app := ClientMachine.initial; window_choice := JStr "1.85" |}.

End PendingInstall.

(* ================================================================== *)
(** ** Rendering a payload *)
(* ================================================================== *)

Module Renderer.
Import Js Handler.

(** [k] as an array index: the canonical decimal of a number below
    [2^32 - 1]. *)
Definition array_index (k : string) : option N :=
  match NilZero.uint_of_string k with
  | Some u =>
      let n := N.of_uint u in
      if String.eqb (NilZero.string_of_uint (N.to_uint n)) k
         && (n <=? 4294967294)%N
      then Some n else None
  | None => None
  end.

Definition show_nat (n : nat) : string := NilZero.string_of_uint (Nat.to_uint n).

(** Insert a key by its index into keys sorted by index. *)
Fixpoint insert_index (x : N * string) (l : list (N * string))
  : list (N * string) :=
  match l with
  | [] => [x]
  | y :: l' => if (fst x <=? fst y)%N then x :: l else y :: insert_index x l'
  end.

Definition sort_indices (l : list (N * string)) : list (N * string) :=
  fold_right insert_index [] l.

(** The number of UTF-16 code units of a string given as UTF-8 bytes:
    one for each character, two for those of four bytes. *)
Fixpoint utf16_length (s : string) : nat :=
  match s with
  | EmptyString => 0
  | String c s' =>
      (if (code c <? 128)%nat || (192 <=? code c)%nat then 1 else 0)
      + (if (240 <=? code c)%nat then 1 else 0)
      + utf16_length s'
  end.

(** The own enumerable keys of an object, as [Object.keys] lists them:
    array indices in ascending order, then the other keys in the order of
    their creation. *)
Definition own_keys (fields : list (string * jsval)) : list string :=
  let keys := map fst fields in
  map snd
    (sort_indices
       (flat_map (fun k => match array_index k with
                           | Some n => [(n, k)]
                           | None => []
                           end) keys))
  ++ filter (fun k => match array_index k with
                      | Some _ => false
                      | None => true
                      end) keys.

Definition has_key (k : string) (fields : list (string * jsval)) : bool :=
  existsb (fun kv => String.eqb k (fst kv)) fields.

(** An own property of an object or of an array.  The properties of a
    string, a number or a boolean, [length] and all that is inherited are
    left to [builtin_text] below. *)
Definition own_property (v : jsval) (k : string) : option jsval :=
  match v with
  | JObj fields => if has_key k fields then Some (assoc k fields) else None
  | JArr items =>
      match array_index k with
      | Some n => nth_error items (N.to_nat n)
      | None => None
      end
  | _ => None
  end.

(** A child of the form [{x && <element/>}]: the element, or the falsy
    [x] itself (React draws nothing for false, null, undefined and the empty
    string, and the number for 0 and NaN). *)
Inductive slot (A : Type) : Type :=
| Value (v : jsval)
| Element (a : A).
Arguments Value {A} _.
Arguments Element {A} _.

Definition jsx_and {A : Type} (x : jsval) (a : A) : slot A :=
  if truthy x then Element a else Value x.

(** What [ApiPayloadRenderer] returns: the summary text, the spec handed
    to [GenericChart], the single-column list (its heading and its items),
    the table (its header and its rows of cells) and the SQL text. *)
Record view : Type := {
  summary : slot jsval;
  chart : slot jsval;
  single_column : option (string * list string);
  table : option (list string * list (list string));
  sql : slot jsval
}.

Section Render.
Variable E : engine.
(** The TypeError of [Object.keys] on [null] or [undefined]. *)
Variable keys_error : jsval -> js_error.
(** [String(v[k])] when [k] is no own property of [v] as [own_property]
    has them: the text of an inherited method, of the length or of a
    character of a string, and [undefined] when there is no such property. *)
Variable builtin_text : jsval -> string -> string.

(** [Object.keys(v)] *)
Definition Object_keys (v : jsval) : result (list string) :=
  match v with
  | JUndefined | JNull => Throw (keys_error v)
  | JObj fields => Ok (own_keys fields)
  | JArr items => Ok (map show_nat (seq 0 (length items)))
  | JStr s => Ok (map show_nat (seq 0 (utf16_length s)))
  | JBool _ | JNum _ => Ok []
  end.

(** [String(row[c])] *)
Definition cell (row : jsval) (c : string) : result string :=
  match row with
  | JUndefined | JNull => Throw (TypeError E row c)
  | _ =>
      match own_property row c with
      | Some v => converted E v (ToString E v)
      | None => Ok (builtin_text row c)
      end
  end.

Definition ApiPayloadRenderer (payload : jsval) : result (option view) :=
  if js_not payload then Ok None
  else
    let rows := array_or_empty (prop payload "data") in
    let hasRows := (0 <? length rows)%nat in
    match (if hasRows then Object_keys (hd JUndefined rows) else Ok []) with
    | Throw e => Throw e
    | Ok columns =>
        let isSingleCol := hasRows && (length columns =? 1)%nat in
        let singleColName := hd "" columns in
        match (if isSingleCol
               then match mapM (fun r => cell r singleColName) rows with
                    | Throw e => Throw e
                    | Ok items => Ok (Some (singleColName, items))
                    end
               else Ok None) with
        | Throw e => Throw e
        | Ok single =>
            match (if hasRows
                   then match mapM (fun row => mapM (cell row) columns) rows with
                        | Throw e => Throw e
                        | Ok body => Ok (Some (columns, body))
                        end
                   else Ok None) with
            | Throw e => Throw e
            | Ok tbl =>
                Ok (Some
                      {| summary :=
                           jsx_and (js_or (prop payload "summary")
                                      (prop payload "answer"))
                             (js_or (prop payload "summary")
                                (prop payload "answer"));
                         chart := jsx_and (prop payload "chart")
                                    (prop payload "chart");
                         single_column := single;
                         table := tbl;
                         sql := jsx_and (prop payload "sql")
                                  (prop payload "sql") |})
            end
        end
    end.

(** The page renders the payload when there is one:
    [{lastPayload && <ApiPayloadRenderer payload={lastPayload} />}]. *)
Definition payload_block (st : BackendDriven.state)
  : result (slot (option view)) :=
  if truthy (BackendDriven.lastPayload st)
  then match ApiPayloadRenderer (BackendDriven.lastPayload st) with
       | Throw e => Throw e
       | Ok v => Ok (Element v)
       end
  else Ok (Value (BackendDriven.lastPayload st)).
End Render.
End Renderer.

(* ================================================================== *)
(** ** The stored history *)
(* ================================================================== *)

Module History.
Import Js Handler.

(** A turn as the object it is: [{ role, content }]. *)
Definition role_name (r : role) : string :=
  match r with
  | system => "system"
  | user => "user"
  | assistant => "assistant"
  end.

Definition turn_js (t : ChatTurn) : jsval :=
  JObj [ ("role", JStr (role_name (turn_role t))); ("content", content t) ].

Definition history_js (h : list ChatTurn) : jsval := JArr (map turn_js h).

Section Load.
Variable E : engine.
(** [JSON.parse], which throws on a text that is no JSON. *)
Variable JSON_parse : string -> result jsval.
(** The TypeError of calling [v.k] when it is no function. *)
Variable not_a_function : jsval -> string -> js_error.

(** [loadHistory] of the client-side variant; [raw] is what
    [localStorage.getItem("chat_history_v1")] returns, null or a string. *)
Definition client_loadHistory (raw : option string) : jsval :=
  match raw with
  | None => history_js ClientSide.fresh
  | Some s =>
      if String.eqb s "" then history_js ClientSide.fresh
      else match JSON_parse s with
           | Ok v => v
           | Throw _ => history_js [turn system (JStr ClientSide.SYSTEM_RULES)]
           end
  end.

(** [loadHistory] of the backend-driven variant. *)
Definition backend_loadHistory (raw : option string) : jsval :=
  match raw with
  | None => history_js BackendDriven.fresh
  | Some s =>
      if String.eqb s "" then history_js BackendDriven.fresh
      else match JSON_parse s with
           | Ok v => v
           | Throw _ => history_js [turn system (JStr BackendDriven.SYSTEM_RULES)]
           end
  end.

(** The two variants, each with the turns of its fresh session. *)
Definition variants : list ((option string -> jsval) * list ChatTurn) :=
  [ (client_loadHistory, ClientSide.fresh);
    (backend_loadHistory, BackendDriven.fresh) ].

(** [m.role !== "system"] *)
Definition keep (m : jsval) : result bool :=
  match m with
  | JUndefined | JNull => Throw (TypeError E m "role")
  | _ =>
      Ok (match prop m "role" with
          | JStr r => negb (String.eqb r "system")
          | _ => true
          end)
  end.

Fixpoint filterM (l : list jsval) : result (list jsval) :=
  match l with
  | [] => Ok []
  | m :: l' =>
      match keep m with
      | Throw e => Throw e
      | Ok b =>
          match filterM l' with
          | Throw e => Throw e
          | Ok ms => Ok (if b then m :: ms else ms)
          end
      end
  end.

(** [messages.filter((m) => m.role !== "system")], the first step of the
    render of the transcript. *)
Definition rendered_turns (messages : jsval) : result (list jsval) :=
  match messages with
  | JArr items => filterM items
  | JUndefined | JNull => Throw (TypeError E messages "filter")
  | _ => Throw (not_a_function messages "filter")
  end.
End Load.
End History.

(** More stand-ins for closed examples. *)
Module Fixture.
Import Js Backend.

(** The sales assistant, idle, with a question typed in. *)
Definition ready : BackendDriven.state :=
  {| BackendDriven.messages := BackendDriven.fresh;
     BackendDriven.input := " revenue per quarter ";
     BackendDriven.thinking := false;
     BackendDriven.showChart := None;
     BackendDriven.lastPayload := JNull;
     BackendDriven.errorMsg := "";
     BackendDriven.chat_history_v1 := None |}.

(** A payload with a table and an inline chart. *)
Definition customers : jsval :=
  JObj [ ("summary", JStr "Two customers.");
         ("data", JArr [ JObj [ ("CompanyName", JStr "Acme"); ("Orders", JStr "12") ];
                         JObj [ ("CompanyName", JStr "Bolt") ] ]);
         ("chart", JObj [ ("type", JStr "PIE");
                          ("labels", JArr [JStr "Acme"; JStr "Bolt"]);
                          ("values", JArr [JStr "12"; JStr "7"]) ]);
         ("chart_type", JStr "products") ].

(** An analytics backend that answers with it. *)
Definition analytics : backend := fun _ => Resolved customers.

(** A payload whose second row is null. *)
Definition broken : jsval :=
  JObj [ ("data", JArr [ JObj [ ("CompanyName", JStr "Acme") ]; JNull ]) ].

(** The error of [Object.keys(null)] and the text of a property that is
    not there, for the examples. *)
Definition no_keys : jsval -> js_error := fun _ =>
  {| response_data := JUndefined;
     message := "Cannot convert undefined or null to object" |}.

Definition no_builtin : jsval -> string -> string := fun _ _ => "undefined".

(** The chatbot endpoint answers 400 with a FastAPI detail. *)
Definition bad_request : Api.axios_error :=
  {| Api.response := Some (JObj [ ("detail", JStr "no such table: Orders") ]);
     Api.ax_message := "Request failed with status code 400";
     Api.ax_name := "AxiosError" |}.

Definition failing_transport : Api.transport := fun _ => Api.AxRejected bad_request.

Definition compact : jsval -> jsval := fun _ => JStr "<json>".

(** The backend of the sales assistant over [failing_transport], with the
    API enabled or disabled. *)
Definition chatbot (disable : bool) : backend := fun c =>
  match c with
  | queryChatbot prompt chartType =>
      Api.queryChatbot Sample.engine0 compact "http://127.0.0.1:8000" disable
        failing_transport prompt chartType
  | _ => Rejected Sample.network_error
  end.

Definition server_error : js_error :=
  {| response_data := JUndefined; message := "Request failed with status code 500" |}.


(** Two versions of zoom. *)
Definition zoom_options : jsval :=
  JObj [ ("options", JArr [JStr "5.0"; JStr "6.0"]) ].

Definition zoom : backend := fun c =>
  match c with
  | requestInstall _ JNull => Resolved zoom_options
  | _ => Resolved (JObj [ ("incident", JStr "INC0010003") ])
  end.

(** A [JSON.parse] that knows the text [null] and takes any other text for
    broken, and the TypeError of a call of what is no function. *)
Definition parse : string -> Handler.result jsval := fun s =>
  if String.eqb s "null" then Handler.Ok JNull
  else Handler.Throw {| response_data := JUndefined;
                        message := "Unexpected token" |}.

Definition no_function : jsval -> string -> js_error := fun _ k =>
  {| response_data := JUndefined; message := k ++ " is not a function" |}.
End Fixture.

(* ================================================================== *)
(** * Properties *)
(* ================================================================== *)

Example re_incident_ex1 :
  exec true re_incident "please install inc123 status" = Some "inc123".
Proof. reflexivity. Qed.

Example re_incident_ex2 : exec true re_incident "xINC123 INC5a INC" = None.
Proof. reflexivity. Qed.

Example re_install_ex : test true re_install "Please Set Up zoom" = true.
Proof. reflexivity. Qed.

Example re_install_ex2 : test true re_install "reinstall setups" = false.
Proof. reflexivity. Qed.

Example trim_ex : trim "  hi there 	" = "hi there".
Proof. reflexivity. Qed.

(* ------------------------------------------------------------------ *)
(** ** Session clear *)
(* ------------------------------------------------------------------ *)

(** C9.  Session clear, in whatever state it is invoked, leaves the
    transcript equal to the two seed turns (the system rules, then the
    assistant greeting) and empties the slots of the variant in one handler
    run: the pending confirmation (and the chart) in the client-side
    variant, the last payload (with the chart and the error banner) in the
    backend-driven one.  It issues no request. *)
Theorem clearSession_resets :
  (forall w : Handler.world ClientSide.state,
     let r := ClientSide.clearSession w in
     returned r = Some tt /\
     ClientSide.messages (state_after r) = ClientSide.fresh /\
     ClientSide.pending (state_after r) = None /\
     ClientSide.showChart (state_after r) = None /\
     ClientSide.chat_history_v1 (state_after r) = Some ClientSide.fresh /\
     calls_after r = Handler.calls w) /\
  (forall w : Handler.world BackendDriven.state,
     let r := BackendDriven.clearSession w in
     returned r = Some tt /\
     BackendDriven.messages (state_after r) = BackendDriven.fresh /\
     BackendDriven.lastPayload (state_after r) = Js.JNull /\
     BackendDriven.showChart (state_after r) = None /\
     BackendDriven.errorMsg (state_after r) = "" /\
     BackendDriven.chat_history_v1 (state_after r) = Some BackendDriven.fresh /\
     calls_after r = Handler.calls w) /\
  map turn_role ClientSide.fresh = [system; assistant] /\
  map turn_role BackendDriven.fresh = [system; assistant].
Proof.
  repeat split.
Qed.

(* ------------------------------------------------------------------ *)
(** ** The chart heuristic of the client-side variant *)
(* ------------------------------------------------------------------ *)

Lemma startsWith_prefix (a b s : string) :
  startsWith s (a ++ b) = true -> startsWith s a = true.
Proof.
  revert s. induction a as [|x a IH]; intros s H.
  - destruct s; reflexivity.
  - destruct s as [|y s]; [discriminate H|].
    cbn [startsWith append] in *.
    apply andb_true_iff in H. destruct H as [Hxy H].
    apply andb_true_iff. split; [exact Hxy | exact (IH s H)].
Qed.

Lemma includes_prefix (a b s : string) :
  includes s (a ++ b) = true -> includes s a = true.
Proof.
  induction s as [|c s IH]; cbn [includes]; intros H.
  - rewrite orb_false_r in *. exact (startsWith_prefix a b _ H).
  - apply orb_true_iff in H. apply orb_true_iff.
    destruct H as [H | H]; [left; exact (startsWith_prefix a b _ H) | right; auto].
Qed.

Lemma includes_monthly_month (s : string) :
  includes s "monthly" = true -> includes s "month" = true.
Proof. exact (includes_prefix "month" "ly" s). Qed.

(** The heuristic answers exactly when the lower-cased utterance has sales
    vocabulary and a cue. *)
Lemma checkForChartRequest_matches (query : string) :
  (exists chartType, ClientSide.checkForChartRequest query = Some chartType)
  <-> sales_vocabulary (toLowerCase query) = true
      /\ chart_cue (toLowerCase query) = true.
Proof.
  unfold ClientSide.checkForChartRequest, sales_vocabulary, chart_cue.
  generalize (includes_monthly_month (toLowerCase query)).
  generalize (toLowerCase query) as l. intros l Hm.
  destruct (includes l "sales" || includes l "revenue"); cbv beta iota.
  2:{ split; [intros [c H]; discriminate H | intros [H _]; discriminate H]. }
  destruct (includes l "month"); cbn [orb];
    [ split; [intros _; split; reflexivity | intros _; eauto] | ].
  destruct (includes l "monthly"); [ discriminate (Hm eq_refl) | ].
  repeat
    match goal with
    | |- context [includes l ?kw] =>
        destruct (includes l kw); cbn [orb];
        [ split; [intros _; split; reflexivity | intros _; eauto] | ]
    end.
  split; [intros [c H]; discriminate H | intros [_ H]; discriminate H].
Qed.

(** C10.  In the client-side variant, an utterance matched by the chart
    heuristic (sales or revenue together with a month, product, quarter or
    chart cue) is answered locally: the reply names the chart, no request is
    issued to any collaborator and the pending confirmation is the one the
    dispatch started with. *)
Theorem chart_request_is_local
    (E : Js.engine) (be : Backend.backend)
    (st : ClientSide.state) (cs : list Backend.call) (query : string) :
  sales_vocabulary (toLowerCase query) = true ->
  chart_cue (toLowerCase query) = true ->
  exists chartType,
    ClientSide.checkForChartRequest query = Some chartType /\
    let r := ClientSide.decideAndCallTool E be query (world_of st cs) in
    returned r =
      Some (Js.JStr ("Here's the " ++ chartType ++ " sales data you requested:")) /\
    calls_after r = cs /\
    ClientSide.pending (state_after r) = ClientSide.pending st /\
    ClientSide.messages (state_after r) = ClientSide.messages st /\
    ClientSide.showChart (state_after r) = Some chartType.
Proof.
  intros Hs Hc.
  destruct (proj2 (checkForChartRequest_matches query) (conj Hs Hc))
    as [chartType Hq].
  exists chartType. split; [exact Hq|].
  unfold ClientSide.decideAndCallTool. rewrite Hq.
  repeat split.
Qed.

Lemma chart_request_is_local_witness :
  exists chartType,
    ClientSide.checkForChartRequest "Show me revenue by quarter" = Some chartType /\
    let r := ClientSide.decideAndCallTool Sample.engine0 Sample.offline
               "Show me revenue by quarter" (world_of Sample.awaiting []) in
    returned r =
      Some (Js.JStr ("Here's the " ++ chartType ++ " sales data you requested:")) /\
    calls_after r = [] /\
    ClientSide.pending (state_after r) = ClientSide.pending Sample.awaiting /\
    ClientSide.messages (state_after r) = ClientSide.messages Sample.awaiting /\
    ClientSide.showChart (state_after r) = Some chartType.
Proof.
  apply (chart_request_is_local Sample.engine0 Sample.offline Sample.awaiting []
           "Show me revenue by quarter"); reflexivity.
Defined.

(* ------------------------------------------------------------------ *)
(** ** Dispatch in the client-side variant *)
(* ------------------------------------------------------------------ *)

(** Split on every conversion the goal waits for. *)
Ltac split_conversions :=
  repeat match goal with
         | |- context [match Js.ToString ?E0 ?v with _ => _ end] =>
             destruct (Js.ToString E0 v)
         end.

Section Dispatch.
Import Js Backend Handler.
Variable E : engine.
Variable be : backend.

Lemma classify_analytics (query chartType : string) :
  classify query = AnalyticsQuery chartType ->
  ClientSide.checkForChartRequest query = Some chartType.
Proof.
  unfold classify.
  destruct (ClientSide.checkForChartRequest query);
    [ intros H; injection H as ->; reflexivity | ].
  destruct (exec true re_incident query); [discriminate|].
  destruct (test true re_install query); discriminate.
Qed.

Lemma classify_incident (query inc : string) :
  classify query = IncidentStatus inc ->
  ClientSide.checkForChartRequest query = None /\
  exists incMatch0,
    exec true re_incident query = Some incMatch0 /\ inc = toUpperCase incMatch0.
Proof.
  unfold classify.
  destruct (ClientSide.checkForChartRequest query); [discriminate|].
  destruct (exec true re_incident query) as [m|].
  - intros H; injection H as <-. eauto.
  - destruct (test true re_install query); discriminate.
Qed.

Lemma classify_install (query : string) :
  classify query = InstallRequest ->
  ClientSide.checkForChartRequest query = None /\
  exec true re_incident query = None /\
  test true re_install query = true.
Proof.
  unfold classify.
  destruct (ClientSide.checkForChartRequest query); [discriminate|].
  destruct (exec true re_incident query); [discriminate|].
  destruct (test true re_install query); [auto | discriminate].
Qed.

Lemma classify_generic (query : string) :
  classify query = GenericTicket ->
  ClientSide.checkForChartRequest query = None /\
  exec true re_incident query = None /\
  test true re_install query = false.
Proof.
  unfold classify.
  destruct (ClientSide.checkForChartRequest query); [discriminate|].
  destruct (exec true re_incident query); [discriminate|].
  destruct (test true re_install query); [discriminate | auto].
Qed.

(** Unfold one dispatch down to the outcome of its request. *)
Ltac run_dispatch :=
  unfold ClientSide.decideAndCallTool, returned, state_after, calls_after,
    world_of, try_catch, bind, await, member, template, ret, throw,
    ClientSide.setPending, ClientSide.setShowChart, modify_ui.

(** What the install branch does with an ambiguous answer. *)
Lemma install_ambiguous (st : ClientSide.state) (cs : list call)
    (query : string) (data : jsval) (opts : list jsval) :
  classify query = InstallRequest ->
  be (requestInstall query JNull) = Resolved data ->
  truthy (prop data "incident") = false ->
  prop data "options" = JArr opts ->
  1 < length opts ->
  let r := ClientSide.decideAndCallTool E be query (world_of st cs) in
  returned r =
    Some (js_or (prop data "message")
            (JStr "Multiple versions found. Please choose one.")) /\
  ClientSide.pending (state_after r) =
    Some {| ClientSide.user_query := query; ClientSide.options := opts |} /\
  calls_after r = cs ++ [requestInstall query JNull].
Proof.
  intros Hc Hbe Hinc Hopts Hlen.
  destruct (classify_install _ Hc) as (Hchart & Hexec & Htest).
  destruct data as [ | | | | | |fields]; try discriminate Hopts.
  run_dispatch. rewrite Hchart, Hexec, Htest. cbv beta iota.
  rewrite Hbe. cbv beta iota zeta.
  cbn [prop] in *. rewrite Hinc, Hopts.
  cbn [truthy typeof_object andb isArray array_or_empty].
  apply Nat.ltb_lt in Hlen. rewrite Hlen.
  cbn [fst snd ui calls ClientSide.pending]. auto.
Qed.
(** What the install branch does when at most one version is offered. *)
Lemma install_unambiguous (st : ClientSide.state) (cs : list call)
    (query : string) (data : jsval) (opts : list jsval) :
  classify query = InstallRequest ->
  be (requestInstall query JNull) = Resolved data ->
  truthy (prop data "incident") = false ->
  prop data "options" = JArr opts ->
  length opts <= 1 ->
  let r := ClientSide.decideAndCallTool E be query (world_of st cs) in
  returned r = Some (JSON_stringify E data) /\
  ClientSide.pending (state_after r) = None /\
  calls_after r = cs ++ [requestInstall query JNull].
Proof.
  intros Hc Hbe Hinc Hopts Hlen.
  destruct (classify_install _ Hc) as (Hchart & Hexec & Htest).
  run_dispatch. rewrite Hchart, Hexec, Htest. cbv beta iota.
  rewrite Hbe. cbv beta iota zeta.
  rewrite Hinc, Hopts, andb_false_r.
  cbn [isArray array_or_empty andb].
  assert (Hlt : (1 <? length opts)%nat = false) by (apply Nat.ltb_ge; exact Hlen).
  rewrite Hlt. cbn [fst snd ui calls ClientSide.pending]. auto.
Qed.

Lemma incident_failure (st : ClientSide.state) (cs : list call)
    (query inc : string) (e : js_error) :
  classify query = IncidentStatus inc ->
  be (showStatus inc) = Rejected e ->
  let r := ClientSide.decideAndCallTool E be query (world_of st cs) in
  returned r =
    option_map (fun detail => JStr ("Error while checking status: " ++ detail))
      (ToString E (ClientSide.error_detail e)) /\
  ClientSide.pending (state_after r) = ClientSide.pending st /\
  calls_after r = cs ++ [showStatus inc].
Proof.
  intros Hc Hbe.
  destruct (classify_incident _ _ Hc) as (Hchart & m & Hexec & ->).
  run_dispatch. rewrite Hchart, Hexec. cbv beta iota zeta.
  rewrite Hbe. cbv beta iota zeta.
  destruct (ToString E (ClientSide.error_detail e));
    cbn [fst snd ui calls ClientSide.pending option_map]; auto.
Qed.

Lemma install_failure (st : ClientSide.state) (cs : list call)
    (query : string) (e : js_error) :
  classify query = InstallRequest ->
  be (requestInstall query JNull) = Rejected e ->
  let r := ClientSide.decideAndCallTool E be query (world_of st cs) in
  returned r =
    option_map (fun detail => JStr ("Error while searching software: " ++ detail))
      (ToString E (ClientSide.error_detail e)) /\
  ClientSide.pending (state_after r) = None /\
  calls_after r = cs ++ [requestInstall query JNull].
Proof.
  intros Hc Hbe.
  destruct (classify_install _ Hc) as (Hchart & Hexec & Htest).
  run_dispatch. rewrite Hchart, Hexec, Htest. cbv beta iota zeta.
  rewrite Hbe. cbv beta iota zeta.
  destruct (ToString E (ClientSide.error_detail e));
    cbn [fst snd ui calls ClientSide.pending option_map]; auto.
Qed.

Lemma generic_failure (st : ClientSide.state) (cs : list call)
    (query : string) (e : js_error) :
  classify query = GenericTicket ->
  be (createTicket query) = Rejected e ->
  let r := ClientSide.decideAndCallTool E be query (world_of st cs) in
  returned r =
    option_map (fun detail => JStr ("Error while creating ticket: " ++ detail))
      (ToString E (ClientSide.error_detail e)) /\
  ClientSide.pending (state_after r) = None /\
  calls_after r = cs ++ [createTicket query].
Proof.
  intros Hc Hbe.
  destruct (classify_generic _ Hc) as (Hchart & Hexec & Htest).
  run_dispatch. rewrite Hchart, Hexec, Htest. cbv beta iota zeta.
  rewrite Hbe. cbv beta iota zeta.
  destruct (ToString E (ClientSide.error_detail e));
    cbn [fst snd ui calls ClientSide.pending option_map]; auto.
Qed.

(** An incident dispatch asks for the status of the incident, and for
    nothing else. *)
Lemma incident_calls (st : ClientSide.state) (cs : list call)
    (query inc : string) :
  classify query = IncidentStatus inc ->
  calls_after (ClientSide.decideAndCallTool E be query (world_of st cs))
  = cs ++ [showStatus inc].
Proof.
  intros Hc.
  destruct (classify_incident _ _ Hc) as (Hchart & m & Hexec & ->).
  run_dispatch. rewrite Hchart, Hexec. cbv beta iota zeta.
  destruct (be (showStatus (toUpperCase m))) as [data|e];
    [ destruct data | ]; cbv beta iota zeta; split_conversions; reflexivity.
Qed.

(** A dispatch never leaves behind a confirmation of its own making with
    fewer than two options. *)
Lemma dispatch_pending_wf (st : ClientSide.state) (cs : list call)
    (query : string) (p : ClientSide.Pending) :
  ClientSide.pending
    (state_after (ClientSide.decideAndCallTool E be query (world_of st cs)))
  = Some p ->
  ClientSide.pending st = Some p \/
  (2 <= length (ClientSide.options p) /\ ClientSide.user_query p = query).
Proof.
  run_dispatch.
  destruct (ClientSide.checkForChartRequest query); [auto|].
  destruct (exec true re_incident query).
  - cbv beta iota zeta.
    destruct (be (showStatus _)) as [data|e];
      [ destruct data; cbv beta iota zeta; split_conversions; cbn; discriminate
      | cbv beta iota zeta; split_conversions; cbn; auto ].
  - destruct (test true re_install query); cbv beta iota zeta.
    + destruct (be (requestInstall query JNull)) as [data|e];
        [ | cbv beta iota zeta; split_conversions; cbn; discriminate ].
      destruct (truthy data && typeof_object data && truthy (prop data "incident"));
        [ cbn; discriminate | ].
      destruct (isArray (prop data "options")) eqn:Harr; cbn [andb];
        [ | cbn; discriminate ].
      destruct (1 <? length (array_or_empty (prop data "options")))%nat eqn:Hlen;
        [ | cbn; discriminate ].
      apply Nat.ltb_lt in Hlen.
      destruct data; try discriminate Harr.
      cbn in *. intros H; injection H as <-. right. cbn. split; [lia | reflexivity].
    + destruct (be (createTicket query)) as [data|e];
        [ destruct data | ]; cbv beta iota zeta; split_conversions;
        cbn; discriminate.
Qed.

(** C4.  An install dispatch whose response has no ticket identifier and
    offers more than one option sets the pending confirmation to the
    dispatched query with the options of the response, in their order; the
    reply is the message of the response when it has one (a non-empty one)
    and the generic sentence otherwise. *)
Theorem install_options_set_pending (st : ClientSide.state) (cs : list call)
    (query : string) (data : jsval) (opts : list jsval) :
  classify query = InstallRequest ->
  be (requestInstall query JNull) = Resolved data ->
  truthy (prop data "incident") = false ->
  prop data "options" = JArr opts ->
  1 < length opts ->
  let r := ClientSide.decideAndCallTool E be query (world_of st cs) in
  ClientSide.pending (state_after r) =
    Some {| ClientSide.user_query := query; ClientSide.options := opts |} /\
  (truthy (prop data "message") = true ->
   returned r = Some (prop data "message")) /\
  (truthy (prop data "message") = false ->
   returned r = Some (JStr "Multiple versions found. Please choose one.")) /\
  calls_after r = cs ++ [requestInstall query JNull].
Proof.
  intros Hc Hbe Hinc Hopts Hlen r.
  destruct (install_ambiguous st cs query data opts Hc Hbe Hinc Hopts Hlen) as (Hr & Hp & Hcs).
  fold r in Hr, Hp, Hcs. unfold js_or in Hr.
  repeat split; try assumption; intros Hm; rewrite Hm in Hr; exact Hr.
Qed.

(** C5.  An install dispatch whose response has no ticket identifier and
    an options list of length 0 or 1 clears the pending confirmation,
    whatever the message of the response says; and no dispatch at all
    leaves a confirmation it created with fewer than two options. *)
Theorem single_option_clears_pending (st : ClientSide.state) (cs : list call)
    (query : string) (data : jsval) (opts : list jsval) :
  classify query = InstallRequest ->
  be (requestInstall query JNull) = Resolved data ->
  truthy (prop data "incident") = false ->
  prop data "options" = JArr opts ->
  length opts <= 1 ->
  ClientSide.pending
    (state_after (ClientSide.decideAndCallTool E be query (world_of st cs)))
  = None /\
  (forall (st' : ClientSide.state) (cs' : list call) (query' : string)
          (p : ClientSide.Pending),
     ClientSide.pending
       (state_after (ClientSide.decideAndCallTool E be query' (world_of st' cs')))
     = Some p ->
     ClientSide.pending st' = Some p \/ 2 <= length (ClientSide.options p)).
Proof.
  intros Hc Hbe Hinc Hopts Hlen. split.
  - exact (proj1 (proj2 (install_unambiguous st cs query data opts Hc Hbe Hinc Hopts Hlen))).
  - intros st' cs' query' p Hp.
    destruct (dispatch_pending_wf st' cs' query' p Hp) as [H | [H _]]; auto.
Qed.

(** C6.  When the status lookup of an incident dispatch fails, the
    pending confirmation is the one the dispatch started with, whatever the
    error; a failed install lookup and a failed ticket creation both clear
    it.  The reply is the status error string with the detail of the error
    (the body of the response, or else the message) whenever that detail
    converts to a string; when it does not, the conversion throws in the
    catch clause and the dispatch ends without a reply. *)
Theorem incident_failure_keeps_pending (st : ClientSide.state)
    (cs : list call) (query inc : string) (e : js_error) :
  classify query = IncidentStatus inc ->
  be (showStatus inc) = Rejected e ->
  (let r := ClientSide.decideAndCallTool E be query (world_of st cs) in
   ClientSide.pending (state_after r) = ClientSide.pending st /\
   (forall detail,
      ToString E (ClientSide.error_detail e) = Some detail ->
      returned r = Some (JStr ("Error while checking status: " ++ detail))) /\
   (ToString E (ClientSide.error_detail e) = None -> returned r = None)) /\
  (forall st' cs' query',
     classify query' = InstallRequest ->
     be (requestInstall query' JNull) = Rejected e ->
     ClientSide.pending
       (state_after (ClientSide.decideAndCallTool E be query' (world_of st' cs')))
     = None) /\
  (forall st' cs' query',
     classify query' = GenericTicket ->
     be (createTicket query') = Rejected e ->
     ClientSide.pending
       (state_after (ClientSide.decideAndCallTool E be query' (world_of st' cs')))
     = None).
Proof.
  intros Hc Hbe. repeat split.
  - exact (proj1 (proj2 (incident_failure st cs query inc e Hc Hbe))).
  - intros detail Hd.
    rewrite (proj1 (incident_failure st cs query inc e Hc Hbe)), Hd. reflexivity.
  - intros Hd.
    rewrite (proj1 (incident_failure st cs query inc e Hc Hbe)), Hd. reflexivity.
  - intros st' cs' query' Hc' Hbe'.
    exact (proj1 (proj2 (install_failure st' cs' query' e Hc' Hbe'))).
  - intros st' cs' query' Hc' Hbe'.
    exact (proj1 (proj2 (generic_failure st' cs' query' e Hc' Hbe'))).
Qed.
End Dispatch.

Lemma install_options_set_pending_witness :
  classify "install vscode" = InstallRequest /\
  ClientSide.pending
    (state_after
       (ClientSide.decideAndCallTool Sample.engine0 Sample.three_versions
          "install vscode" (world_of Sample.idle [])))
  = Some {| ClientSide.user_query := "install vscode";
            ClientSide.options := [Js.JStr "1.0"; Js.JStr "2.0"; Js.JStr "3.0"] |} /\
  returned
    (ClientSide.decideAndCallTool Sample.engine0 Sample.three_versions
       "install vscode" (world_of Sample.idle []))
  = Some (Js.JStr "Which version do you want?").
Proof.
  split; [reflexivity|].
  destruct (install_options_set_pending Sample.engine0 Sample.three_versions
              Sample.idle [] "install vscode"
              (Js.JObj [ ("options", Js.JArr [Js.JStr "1.0"; Js.JStr "2.0"; Js.JStr "3.0"]);
                         ("message", Js.JStr "Which version do you want?") ])
              [Js.JStr "1.0"; Js.JStr "2.0"; Js.JStr "3.0"]
              eq_refl eq_refl eq_refl eq_refl (le_n_S _ _ (le_S _ _ (le_n 1))))
    as (Hp & Hm & _ & _).
  split; [exact Hp | exact (Hm eq_refl)].
Defined.

Lemma single_option_clears_pending_witness :
  ClientSide.pending Sample.awaiting <> None /\
  ClientSide.pending
    (state_after
       (ClientSide.decideAndCallTool Sample.engine0 Sample.one_version
          "please setup zoom" (world_of Sample.awaiting [])))
  = None.
Proof.
  split; [discriminate|].
  exact (proj1 (single_option_clears_pending Sample.engine0 Sample.one_version
                  Sample.awaiting [] "please setup zoom"
                  (Js.JObj [ ("options", Js.JArr [Js.JStr "1.0"]);
                             ("message", Js.JStr "Multiple versions found") ])
                  [Js.JStr "1.0"]
                  eq_refl eq_refl eq_refl eq_refl (le_n 1))).
Defined.

Lemma incident_failure_keeps_pending_witness :
  classify "what is the status of inc0012345?" = IncidentStatus "INC0012345" /\
  returned
    (ClientSide.decideAndCallTool Sample.engine0 Sample.offline
       "what is the status of inc0012345?" (world_of Sample.awaiting []))
  = Some (Js.JStr "Error while checking status: Network Error") /\
  ClientSide.pending
    (state_after
       (ClientSide.decideAndCallTool Sample.engine0 Sample.offline
          "what is the status of inc0012345?" (world_of Sample.awaiting [])))
  = ClientSide.pending Sample.awaiting.
Proof.
  split; [reflexivity|].
  destruct (incident_failure_keeps_pending Sample.engine0 Sample.offline
              Sample.awaiting [] "what is the status of inc0012345?"
              "INC0012345" Sample.network_error eq_refl eq_refl)
    as ((Hp & Hr & _) & _).
  split; [exact (Hr "Network Error" eq_refl) | exact Hp].
Defined.

(** C6 as stated fails: the body of the failed response is an object with
    an own key [toString], the template literal of the catch clause throws,
    and the dispatch ends without a reply. *)
Lemma incident_failure_without_reply :
  classify "status of INC123" = IncidentStatus "INC123" /\
  Sample.unprintable (Backend.showStatus "INC123")
  = Backend.Rejected Sample.unprintable_error /\
  returned
    (ClientSide.decideAndCallTool Sample.engine0 Sample.unprintable
       "status of INC123" (world_of Sample.awaiting []))
  = None.
Proof. repeat split. Qed.

(* ------------------------------------------------------------------ *)
(** ** Confirming a version *)
(* ------------------------------------------------------------------ *)

Section Confirm.
Import Js Backend Handler.
Variable E : engine.
Variable be : backend.

(** An empty choice does nothing at all. *)
Lemma confirmVersion_empty (w : world ClientSide.state) (choice : jsval) :
  truthy choice = false ->
  ClientSide.confirmVersion E be choice w = (Ok tt, w).
Proof.
  intros H. unfold ClientSide.confirmVersion, js_not. rewrite H. reflexivity.
Qed.

(** C3.  For a non-empty choice, [confirmVersion] ends with no pending
    confirmation, whether the install lookup resolves (a success turn is
    appended) or rejects (a failure turn is appended); it also does so when
    there was nothing to confirm.  It issues exactly the one lookup for the
    pending query and the choice, and it appends exactly one assistant turn
    whenever the text of that turn has a conversion; when it has none the
    updater throws, the transcript stays as it was and the next render
    fails. *)
Theorem confirmVersion_clears_pending (st : ClientSide.state)
    (cs : list call) (choice : jsval) :
  truthy choice = true ->
  returned (ClientSide.confirmVersion E be choice (world_of st cs)) = Some tt /\
  ClientSide.pending
    (state_after (ClientSide.confirmVersion E be choice (world_of st cs))) = None /\
  (forall p data text id,
     ClientSide.pending st = Some p ->
     be (requestInstall (ClientSide.user_query p) choice) = Resolved data ->
     ToString E (js_or (prop data "message") (JStr "Ticket created")) = Some text ->
     ToString E (js_or (prop data "incident") (JStr "N/A")) = Some id ->
     ClientSide.messages
       (state_after (ClientSide.confirmVersion E be choice (world_of st cs)))
     = ClientSide.messages st ++
       [turn assistant (JStr ("✅ " ++ text ++ " • Incident: " ++ id))] /\
     render_error (snd (ClientSide.confirmVersion E be choice (world_of st cs)))
     = None) /\
  (forall p e detail,
     ClientSide.pending st = Some p ->
     be (requestInstall (ClientSide.user_query p) choice) = Rejected e ->
     ToString E (ClientSide.error_detail e) = Some detail ->
     ClientSide.messages
       (state_after (ClientSide.confirmVersion E be choice (world_of st cs)))
     = ClientSide.messages st ++
       [turn assistant (JStr ("❌ Failed: " ++ detail))] /\
     render_error (snd (ClientSide.confirmVersion E be choice (world_of st cs)))
     = None) /\
  (forall p data,
     ClientSide.pending st = Some p ->
     be (requestInstall (ClientSide.user_query p) choice) = Resolved data ->
     ToString E (js_or (prop data "message") (JStr "Ticket created")) = None \/
     ToString E (js_or (prop data "incident") (JStr "N/A")) = None ->
     ClientSide.messages
       (state_after (ClientSide.confirmVersion E be choice (world_of st cs)))
     = ClientSide.messages st /\
     render_error (snd (ClientSide.confirmVersion E be choice (world_of st cs)))
     <> None) /\
  (forall p e,
     ClientSide.pending st = Some p ->
     be (requestInstall (ClientSide.user_query p) choice) = Rejected e ->
     ToString E (ClientSide.error_detail e) = None ->
     ClientSide.messages
       (state_after (ClientSide.confirmVersion E be choice (world_of st cs)))
     = ClientSide.messages st /\
     render_error (snd (ClientSide.confirmVersion E be choice (world_of st cs)))
     <> None) /\
  (forall p,
     ClientSide.pending st = Some p ->
     calls_after (ClientSide.confirmVersion E be choice (world_of st cs))
     = cs ++ [requestInstall (ClientSide.user_query p) choice]).
Proof.
  intros H.
  unfold ClientSide.confirmVersion, js_not. rewrite H. cbn [negb].
  unfold ClientSide.setMessages_with.
  unfold returned, state_after, calls_after, world_of, try_finally, try_catch,
    bind, await, ret, throw, get_ui, ClientSide.setPending,
    ClientSide.setMessages, updater_throws, modify_ui.
  cbn [ui calls].
  destruct (ClientSide.pending st) as [p|] eqn:Hp.
  - destruct (be (requestInstall (ClientSide.user_query p) choice))
      as [data|e] eqn:Hbe; cbv beta iota zeta.
    + destruct (ToString E (js_or (prop data "message") (JStr "Ticket created")))
        as [text|] eqn:Hm;
        [ destruct (ToString E (js_or (prop data "incident") (JStr "N/A")))
            as [id|] eqn:Hi | ];
        cbn; repeat split; intros;
        repeat match goal with
               | H0 : _ \/ _ |- _ => destruct H0
               | H0 : Some _ = Some _ |- _ => injection H0 as <-
               end;
        repeat split; congruence.
    + destruct (ToString E (ClientSide.error_detail e)) as [detail|] eqn:Hd;
        cbn; repeat split; intros;
        repeat match goal with
               | H0 : Some _ = Some _ |- _ => injection H0 as <-
               end;
        repeat split; congruence.
  - cbn. repeat split; intros; discriminate.
Qed.
End Confirm.

Lemma confirmVersion_clears_pending_witness :
  ClientSide.pending Sample.awaiting <> None /\
  ClientSide.pending
    (state_after
       (ClientSide.confirmVersion Sample.engine0 Sample.two_versions
          (Js.JStr "1.85") (world_of Sample.awaiting []))) = None /\
  ClientSide.pending
    (state_after
       (ClientSide.confirmVersion Sample.engine0 Sample.offline
          (Js.JStr "1.85") (world_of Sample.awaiting []))) = None.
Proof.
  split; [discriminate|]. split.
  - exact (proj1 (proj2 (confirmVersion_clears_pending Sample.engine0
                           Sample.two_versions Sample.awaiting []
                           (Js.JStr "1.85") eq_refl))).
  - exact (proj1 (proj2 (confirmVersion_clears_pending Sample.engine0
                           Sample.offline Sample.awaiting []
                           (Js.JStr "1.85") eq_refl))).
Defined.

(** The scenario of the specification: "install vscode", two versions,
    the user picks 1.85. *)
Example scenario_install_vscode :
  let w1 := snd (ClientSide.decideAndCallTool Sample.engine0 Sample.two_versions
                   "install vscode" (world_of Sample.idle [])) in
  let w2 := snd (ClientSide.confirmVersion Sample.engine0 Sample.two_versions
                   (Js.JStr "1.85") w1) in
  ClientSide.pending (Handler.ui w1) = Some
    {| ClientSide.user_query := "install vscode";
       ClientSide.options := [Js.JStr "1.85"; Js.JStr "1.86"] |} /\
  ClientSide.pending (Handler.ui w2) = None /\
  last (ClientSide.messages (Handler.ui w2)) (turn system Js.JNull) =
    turn assistant (Js.JStr "✅ Ticket created • Incident: INC0010001") /\
  Handler.calls w2 =
    [ Backend.requestInstall "install vscode" Js.JNull;
      Backend.requestInstall "install vscode" (Js.JStr "1.85") ].
Proof. repeat split. Qed.

(* ------------------------------------------------------------------ *)
(** ** Sending while a dispatch is in flight *)
(* ------------------------------------------------------------------ *)

Section Sending.
Import Js Backend Handler.
Variable E : engine.
Variable be : backend.

(** The backend-driven [handleSend] returns at once while [thinking] is
    set, whether the button or the Enter key called it: nothing is
    appended and nothing is requested. *)
Lemma backend_driven_send_rejected (w : world BackendDriven.state)
    (e : KeyEvent) :
  BackendDriven.thinking (ui w) = true ->
  BackendDriven.handleSend be w = (Ok tt, w) /\
  BackendDriven.onKeyDown be e w = (Ok tt, w) /\
  BackendDriven.onClick_send be w = (Ok tt, w).
Proof.
  intros H.
  assert (Hs : BackendDriven.handleSend be w = (Ok tt, w)).
  { unfold BackendDriven.handleSend, bind, get_ui, ret.
    rewrite H, orb_true_r. reflexivity. }
  repeat split.
  - exact Hs.
  - unfold BackendDriven.onKeyDown.
    destruct (String.eqb (key e) "Enter" && negb (shiftKey e));
      [exact Hs | reflexivity].
  - unfold BackendDriven.onClick_send, bind, get_ui, ret. rewrite H. reflexivity.
Qed.

(** In the client-side variant the disabled button rejects the click. *)
Lemma client_side_click_rejected (w : world ClientSide.state) :
  ClientSide.thinking (ui w) = true ->
  ClientSide.onClick_send E be w = (Ok tt, w).
Proof.
  intros H. unfold ClientSide.onClick_send, bind, get_ui, ret.
  rewrite H. reflexivity.
Qed.

(** The client-side dispatch touches neither the transcript, nor the
    input box, nor the [thinking] flag, whether it returns or throws. *)
Lemma decideAndCallTool_frame (query : string) (w : world ClientSide.state) :
  exists r w',
    ClientSide.decideAndCallTool E be query w = (r, w') /\
    ClientSide.messages (ui w') = ClientSide.messages (ui w) /\
    ClientSide.input (ui w') = ClientSide.input (ui w) /\
    ClientSide.thinking (ui w') = ClientSide.thinking (ui w).
Proof.
  unfold ClientSide.decideAndCallTool, try_catch, bind, await, member,
    template, ret, throw, ClientSide.setPending, ClientSide.setShowChart,
    modify_ui.
  destruct (ClientSide.checkForChartRequest query); [cbn; eauto 12|].
  destruct (exec true re_incident query); cbv beta iota zeta.
  - match goal with
    | |- context [be ?c] => destruct (be c) as [data|e]
    end; [ destruct data | ]; cbv beta iota zeta; split_conversions;
      cbn; eauto 12.
  - destruct (test true re_install query); cbv beta iota zeta.
    + destruct (be (requestInstall query JNull)) as [data|e];
        [ | cbv beta iota zeta; split_conversions; cbn; eauto 12 ].
      destruct (truthy data && typeof_object data && truthy (prop data "incident"));
        [ cbn; eauto 12 | ].
      destruct (isArray (prop data "options")
                && (1 <? length (array_or_empty (prop data "options")))%nat)
        eqn:Hopts; [ | cbn; eauto 12 ].
      destruct data; try discriminate Hopts; cbn; eauto 12.
    + destruct (be (createTicket query)) as [data|e];
        [ destruct data | ]; cbv beta iota zeta; split_conversions;
        cbn; eauto 12.
Qed.

(** The client-side [handleSend] does not look at [thinking]: the Enter
    key dispatches a second utterance while the first is in flight.  The
    user turn is appended, and after it the reply of the dispatch if it
    returns one. *)
Lemma client_side_enter_dispatches (st : ClientSide.state) (cs : list call) :
  ClientSide.thinking st = true ->
  trim (ClientSide.input st) <> "" ->
  exists suffix,
    ClientSide.messages
      (state_after
         (ClientSide.onKeyDown E be {| key := "Enter"; shiftKey := false |}
            (world_of st cs)))
    = ClientSide.messages st
      ++ turn user (JStr (trim (ClientSide.input st))) :: suffix /\
    (suffix = [] \/ exists reply, suffix = [turn assistant reply]).
Proof.
  intros _ Hin.
  apply String.eqb_neq in Hin.
  change (ClientSide.onKeyDown E be {| key := "Enter"; shiftKey := false |})
    with (ClientSide.handleSend E be).
  unfold ClientSide.handleSend, state_after, world_of, bind, get_ui, ret,
    ClientSide.setMessages, ClientSide.setInput, ClientSide.setThinking,
    modify_ui.
  cbn [ui calls]. rewrite Hin.
  match goal with
  | |- context [ClientSide.decideAndCallTool E be ?q ?w] =>
      destruct (decideAndCallTool_frame q w) as (r & w' & Hr & Hm & _ & _);
      rewrite Hr
  end.
  destruct r as [reply|e].
  - exists [turn assistant reply]. cbn in Hm |- *.
    rewrite Hm, <- app_assoc. split; [reflexivity | eauto].
  - exists []. cbn in Hm |- *. rewrite Hm. split; [reflexivity | auto].
Qed.
End Sending.

(** C2.  The claim fails in the client-side variant: with a dispatch in
    flight, pressing Enter on a non-empty input appends the user turn,
    issues a request and appends the reply. *)
Theorem enter_while_thinking_is_dispatched :
  ClientSide.thinking Sample.busy = true /\
  ClientSide.messages
    (state_after
       (ClientSide.onKeyDown Sample.engine0 Sample.two_versions Sample.enter
          (world_of Sample.busy [])))
  = ClientSide.messages Sample.busy
    ++ [ turn user (Js.JStr "hello");
         turn assistant (Js.JStr "Ticket INC0010002 created for: hello") ] /\
  calls_after
    (ClientSide.onKeyDown Sample.engine0 Sample.two_versions Sample.enter
       (world_of Sample.busy []))
  = [ Backend.createTicket "hello" ].
Proof. repeat split. Qed.

(* ------------------------------------------------------------------ *)
(** ** The backend-driven dispatch: which chart is chosen *)
(* ------------------------------------------------------------------ *)

Lemma is_static_chart_declared (v : Js.jsval) (c : string) :
  BackendDriven.is_static_chart v = Some c <->
  v = Js.JStr c /\ In c static_charts.
Proof.
  unfold BackendDriven.is_static_chart, static_charts. split.
  - destruct v as [ | | | |s| | ]; try discriminate.
    destruct (String.eqb s "monthly") eqn:H1;
      [ | destruct (String.eqb s "products") eqn:H2;
          [ | destruct (String.eqb s "quarterly") eqn:H3 ] ];
      cbn [orb]; intros H; try discriminate H; injection H as <-.
    + apply String.eqb_eq in H1. subst. cbn. auto.
    + apply String.eqb_eq in H2. subst. cbn. auto.
    + apply String.eqb_eq in H3. subst. cbn. auto.
  - intros [-> Hin]. cbn in Hin.
    destruct Hin as [<- | [<- | [<- | []]]]; reflexivity.
Qed.

Lemma is_static_chart_undeclared (v : Js.jsval) :
  BackendDriven.is_static_chart v = None <->
  (forall c, v = Js.JStr c -> ~ In c static_charts).
Proof.
  split.
  - intros H c -> Hin.
    rewrite (proj2 (is_static_chart_declared (Js.JStr c) c) (conj eq_refl Hin)) in H.
    discriminate H.
  - intros H. destruct (BackendDriven.is_static_chart v) as [c|] eqn:Hc;
      [ | reflexivity ].
    apply is_static_chart_declared in Hc. destruct Hc as [-> Hin].
    destruct (H c eq_refl Hin).
Qed.

(** C8.  After a successful analytics dispatch the static chart is chosen
    by precedence: a chart type declared by the response, when it is one of
    monthly, products and quarterly; otherwise, when the response carries an
    inline chart, no static chart; otherwise the hint inferred from the
    utterance, which is none when nothing was inferred.  The page shows the
    chosen static chart only when the response carries no inline chart: an
    inline chart hides it, also when the response declares a chart type. *)
Theorem chart_precedence (be : Backend.backend) (st : BackendDriven.state)
    (cs : list Backend.call) (query : string) (data : Js.jsval) :
  be (Backend.queryChatbot query
        match BackendDriven.checkForChartRequest query with
        | Some c => c
        | None => "auto"
        end) = Backend.Resolved data ->
  let r := BackendDriven.decideAndCallTool be query (world_of st cs) in
  (forall c,
     Js.prop data "chart_type" = Js.JStr c -> In c static_charts ->
     BackendDriven.showChart (state_after r) = Some c /\
     BackendDriven.static_fallback_visible (state_after r)
     = Js.js_not (Js.prop data "chart")) /\
  ((forall c, Js.prop data "chart_type" = Js.JStr c -> ~ In c static_charts) ->
   Js.truthy (Js.prop data "chart") = true ->
   BackendDriven.showChart (state_after r) = None /\
   BackendDriven.static_fallback_visible (state_after r) = false) /\
  ((forall c, Js.prop data "chart_type" = Js.JStr c -> ~ In c static_charts) ->
   Js.truthy (Js.prop data "chart") = false ->
   BackendDriven.showChart (state_after r)
   = BackendDriven.checkForChartRequest query /\
   (BackendDriven.static_fallback_visible (state_after r) = true <->
    BackendDriven.checkForChartRequest query <> None)) /\
  BackendDriven.lastPayload (state_after r) = Js.js_nullish data Js.JNull.
Proof.
  intros Hbe r. subst r.
  assert (Hprop : Js.prop (Js.js_nullish data Js.JNull) "chart"
                  = Js.prop data "chart") by (destruct data; reflexivity).
  unfold BackendDriven.decideAndCallTool, state_after, world_of,
    Handler.try_catch, Handler.bind, Handler.await, Handler.ret,
    BackendDriven.setErrorMsg, BackendDriven.setLastPayload,
    BackendDriven.setShowChart, Handler.modify_ui,
    BackendDriven.static_fallback_visible.
  cbn [Handler.ui Handler.calls]. rewrite Hbe. cbv beta iota zeta.
  repeat split.
  - rewrite (proj2 (is_static_chart_declared _ c) (conj H H0)). reflexivity.
  - rewrite (proj2 (is_static_chart_declared _ c) (conj H H0)).
    cbn [fst snd Handler.ui BackendDriven.lastPayload BackendDriven.showChart].
    rewrite Hprop.
    destruct H0 as [<- | [<- | [<- | []]]]; cbn [String.eqb Ascii.eqb Bool.eqb negb];
      apply andb_true_r.
  - rewrite (proj2 (is_static_chart_undeclared _) H), H0. reflexivity.
  - rewrite (proj2 (is_static_chart_undeclared _) H), H0.
    cbn [fst snd Handler.ui BackendDriven.lastPayload BackendDriven.showChart].
    apply andb_false_r.
  - rewrite (proj2 (is_static_chart_undeclared _) H), H0. reflexivity.
  - rewrite (proj2 (is_static_chart_undeclared _) H), H0.
    cbn [fst snd Handler.ui BackendDriven.lastPayload BackendDriven.showChart].
    intros Hv Hnone. rewrite Hnone in Hv. rewrite andb_false_r in Hv.
    discriminate Hv.
  - rewrite (proj2 (is_static_chart_undeclared _) H), H0.
    cbn [fst snd Handler.ui BackendDriven.lastPayload BackendDriven.showChart].
    rewrite Hprop. unfold Js.js_not. rewrite H0. cbn [negb andb].
    unfold BackendDriven.checkForChartRequest.
    repeat match goal with
           | |- context [if ?b then _ else _] => destruct b
           end; intros Hne; try reflexivity; destruct (Hne eq_refl).
  - destruct (BackendDriven.is_static_chart (Js.prop data "chart_type"));
      [ | destruct (Js.truthy (Js.prop data "chart")) ]; reflexivity.
Qed.

Lemma chart_precedence_witness :
  BackendDriven.showChart
    (state_after
       (BackendDriven.decideAndCallTool
          (fun _ => Backend.Resolved
                      (Js.JObj [ ("chart_type", Js.JStr "products");
                                 ("answer", Js.JStr "42") ]))
          "monthly revenue" (world_of Sample.insights [])))
  = Some "products" /\
  BackendDriven.static_fallback_visible
    (state_after
       (BackendDriven.decideAndCallTool
          (fun _ => Backend.Resolved
                      (Js.JObj [ ("chart_type", Js.JStr "products");
                                 ("answer", Js.JStr "42") ]))
          "monthly revenue" (world_of Sample.insights [])))
  = true.
Proof.
  exact (proj1 (chart_precedence
                  (fun _ => Backend.Resolved
                              (Js.JObj [ ("chart_type", Js.JStr "products");
                                         ("answer", Js.JStr "42") ]))
                  Sample.insights [] "monthly revenue" _ eq_refl)
               "products" eq_refl (or_intror (or_introl eq_refl))).
Defined.

(** C8 as stated fails: the response declares the chart type [products]
    and carries an inline chart; [products] is chosen, and the page does not
    show it. *)
Lemma declared_chart_hidden_by_inline_chart :
  BackendDriven.showChart
    (state_after
       (BackendDriven.decideAndCallTool
          (fun _ => Backend.Resolved
                      (Js.JObj [ ("chart_type", Js.JStr "products");
                                 ("chart", Js.JObj [ ("type", Js.JStr "pie") ]) ]))
          "monthly revenue" (world_of Sample.insights [])))
  = Some "products" /\
  BackendDriven.static_fallback_visible
    (state_after
       (BackendDriven.decideAndCallTool
          (fun _ => Backend.Resolved
                      (Js.JObj [ ("chart_type", Js.JStr "products");
                                 ("chart", Js.JObj [ ("type", Js.JStr "pie") ]) ]))
          "monthly revenue" (world_of Sample.insights [])))
  = false.
Proof. split; reflexivity. Qed.

(* ------------------------------------------------------------------ *)
(** ** The chart normalizer *)
(* ------------------------------------------------------------------ *)



(** The values of a chart are coerced one after the other; one that has
    no conversion throws. *)
Lemma coerce_all (E : Js.engine) (vals : list Js.jsval) (nums : list float) :
  map (coerce E) vals = map Some nums ->
  Handler.mapM (fun v => match v with
                         | Js.JNum n => Handler.Ok n
                         | _ => Handler.converted E v (Js.Number E v)
                         end) vals
  = Handler.Ok nums.
Proof.
  revert nums. induction vals as [|v vals IH]; intros [|n nums] H;
    try discriminate H; [reflexivity|].
  cbn [map] in H. injection H as Hv H.
  cbn [Handler.mapM]. rewrite (IH nums H).
  destruct v; cbn in Hv |- *;
    try (injection Hv as <-; reflexivity);
    try (rewrite Hv; reflexivity).
Qed.

Lemma coerce_throws (E : Js.engine) (vals : list Js.jsval) :
  (exists v, In v vals /\ coerce E v = None) ->
  exists e,
    Handler.mapM (fun v => match v with
                           | Js.JNum n => Handler.Ok n
                           | _ => Handler.converted E v (Js.Number E v)
                           end) vals
    = Handler.Throw e.
Proof.
  induction vals as [|v vals IH]; intros (x & Hin & Hx); [destruct Hin|].
  cbn [Handler.mapM].
  destruct (coerce E v) as [n|] eqn:Hv.
  - assert (Hok : match v with
                  | Js.JNum n0 => Handler.Ok n0
                  | _ => Handler.converted E v (Js.Number E v)
                  end = Handler.Ok n).
    { destruct v; cbn in Hv |- *;
        try (injection Hv as <-; reflexivity);
        try (rewrite Hv; reflexivity). }
    rewrite Hok.
    destruct Hin as [<- | Hin]; [rewrite Hv in Hx; discriminate Hx|].
    destruct (IH (ex_intro _ x (conj Hin Hx))) as [e He]. rewrite He. eauto.
  - destruct v; cbn in Hv |- *; try discriminate Hv;
      rewrite Hv; cbn; eauto.
Qed.





(* ------------------------------------------------------------------ *)
(** ** The incident pattern *)
(* ------------------------------------------------------------------ *)

(** A fact about one character: check the 256 of them. *)
Ltac ascii_cases c :=
  destruct c as [[|] [|] [|] [|] [|] [|] [|] [|]]; vm_compute;
  try reflexivity; try discriminate; auto.

Section IncidentPattern.

Lemma is_digit_is_word (c : ascii) : is_digit c = true -> is_word c = true.
Proof.
  unfold is_word. intros ->. rewrite orb_true_r. reflexivity.
Qed.

Lemma not_word_not_digit (c : ascii) : is_word c = false -> is_digit c = false.
Proof.
  intros H. destruct (is_digit c) eqn:Hd; [|reflexivity].
  rewrite (is_digit_is_word c Hd) in H. discriminate H.
Qed.

Lemma star_digits_complete (ds post : list ascii) :
  forallb is_digit ds = true ->
  is_word_opt (hd_error post) = false ->
  forall d acc,
    is_digit d = true ->
    star true CDigit (Some d) (ds ++ post) acc word_end = Some (rev acc ++ ds).
Proof.
  intros Hds Hpost. induction ds as [|x ds IH]; intros d acc Hd.
  - cbn [app]. rewrite app_nil_r.
    assert (Hk : word_end (Some d) post acc = Some (rev acc)).
    { unfold word_end. cbn [run]. unfold at_boundary.
      cbn [is_word_opt]. rewrite (is_digit_is_word d Hd), Hpost. reflexivity. }
    destruct post as [|x post]; cbn [star]; [exact Hk|].
    cbn [hd_error is_word_opt] in Hpost. cbn [cls_match].
    rewrite (not_word_not_digit x Hpost). exact Hk.
  - cbn [forallb] in Hds. apply andb_true_iff in Hds. destruct Hds as [Hx Hds].
    cbn [app star cls_match]. rewrite Hx.
    rewrite (IH Hds x (x :: acc) Hx). cbn [rev]. rewrite <- app_assoc.
    reflexivity.
Qed.

Lemma star_digits_sound (s : list ascii) :
  forall d acc m,
    is_digit d = true ->
    star true CDigit (Some d) s acc word_end = Some m ->
    exists ds post,
      s = ds ++ post /\ forallb is_digit ds = true /\
      is_word_opt (hd_error post) = false /\ m = rev acc ++ ds.
Proof.
  induction s as [|x s IH]; intros d acc m Hd H.
  - cbn [star] in H. unfold word_end in H. cbn [run] in H.
    destruct (at_boundary (Some d) []); [|discriminate H].
    injection H as <-. exists [], [].
    repeat split; rewrite ?app_nil_r; reflexivity.
  - cbn [star cls_match] in H.
    destruct (is_digit x) eqn:Hx.
    + destruct (star true CDigit (Some x) s (x :: acc) word_end) as [r|] eqn:Hr.
      * injection H as <-.
        destruct (IH x (x :: acc) r Hx Hr) as (ds & post & -> & Hds & Hpost & ->).
        exists (x :: ds), post. cbn [forallb app rev]. rewrite Hx, Hds.
        rewrite <- app_assoc. auto.
      * unfold word_end in H. cbn [run] in H. unfold at_boundary in H.
        cbn [is_word_opt hd_error] in H.
        rewrite (is_digit_is_word d Hd), (is_digit_is_word x Hx) in H.
        discriminate H.
    + unfold word_end in H. cbn [run] in H. unfold at_boundary in H.
      cbn [is_word_opt hd_error] in H.
      rewrite (is_digit_is_word d Hd) in H.
      destruct (is_word x) eqn:Hw; [discriminate H|].
      injection H as <-. exists [], (x :: s).
      repeat split; rewrite ?app_nil_r; auto.
Qed.

Lemma match_I_is_word (i : ascii) :
  cls_match true (CChar "I") i = true -> is_word i = true.
Proof. ascii_cases i. Qed.

Lemma run_incident_complete (prev : option ascii) (i n c d : ascii)
    (ds post : list ascii) :
  is_word_opt prev = false ->
  incident_chars i n c d ds = true ->
  is_word_opt (hd_error post) = false ->
  run true re_incident prev (i :: n :: c :: d :: ds ++ post) [] accept
  = Some (i :: n :: c :: d :: ds).
Proof.
  intros Hprev Hchars Hpost. unfold incident_chars in Hchars.
  repeat (apply andb_true_iff in Hchars; destruct Hchars as [Hchars ?]).
  unfold re_incident. cbn [run lit]. unfold at_boundary.
  cbn [hd_error is_word_opt].
  rewrite Hprev, (match_I_is_word i Hchars). cbn [xorb].
  rewrite Hchars, H2, H1. cbn [cls_match]. rewrite H0.
  exact (star_digits_complete ds post H Hpost d [d; c; n; i] H0).
Qed.

Lemma run_incident_sound (prev : option ascii) (s m : list ascii) :
  run true re_incident prev s [] accept = Some m ->
  exists i n c d ds post,
    s = i :: n :: c :: d :: ds ++ post /\
    m = i :: n :: c :: d :: ds /\
    incident_chars i n c d ds = true /\
    is_word_opt (hd_error post) = false.
Proof.
  unfold re_incident. cbn [run lit].
  destruct (at_boundary prev s); [|discriminate].
  destruct s as [|i [|n [|c [|d rest]]]];
    try discriminate;
    try (destruct (cls_match true (CChar "I") i); discriminate).
  - destruct (cls_match true (CChar "I") i); [|discriminate].
    destruct (cls_match true (CChar "N") n); discriminate.
  - destruct (cls_match true (CChar "I") i); [|discriminate].
    destruct (cls_match true (CChar "N") n); [|discriminate].
    destruct (cls_match true (CChar "C") c); discriminate.
  - destruct (cls_match true (CChar "I") i) eqn:Hi; [|discriminate].
    destruct (cls_match true (CChar "N") n) eqn:Hn; [|discriminate].
    destruct (cls_match true (CChar "C") c) eqn:Hc; [|discriminate].
    cbn [cls_match]. destruct (is_digit d) eqn:Hd; [|discriminate].
    intros H.
    destruct (star_digits_sound rest d [d; c; n; i] m Hd H)
      as (ds & post & -> & Hds & Hpost & ->).
    exists i, n, c, d, ds, post. unfold incident_chars.
    rewrite Hi, Hn, Hc, Hd, Hds. auto.
Qed.

(** The leftmost-match loop finds a match at or before any position at
    which the pattern matches. *)
Lemma search_complete (ic : bool) (r : regex) (pre rest m : list ascii) :
  forall prev,
    run ic r (prev_after prev pre) rest [] accept = Some m ->
    exists m', search ic r prev (pre ++ rest) = Some m'.
Proof.
  induction pre as [|x pre IH]; intros prev H.
  - cbn [app prev_after fold_left] in *.
    destruct rest; cbn [search]; rewrite H; eauto.
  - cbn [app search].
    destruct (run ic r prev (x :: pre ++ rest) [] accept); [eauto|].
    exact (IH (Some x) H).
Qed.

Lemma search_sound (ic : bool) (r : regex) (s : list ascii) :
  forall prev m,
    search ic r prev s = Some m ->
    exists pre rest,
      s = pre ++ rest /\ run ic r (prev_after prev pre) rest [] accept = Some m.
Proof.
  induction s as [|x s IH]; intros prev m H.
  - cbn [search] in H.
    destruct (run ic r prev [] [] accept) eqn:Hr; [|discriminate H].
    exists [], []. injection H as <-. auto.
  - cbn [search] in H.
    destruct (run ic r prev (x :: s) [] accept) eqn:Hr.
    + exists [], (x :: s). injection H as <-. auto.
    + destruct (IH (Some x) m H) as (pre & rest & -> & Hrun).
      exists (x :: pre), rest. auto.
Qed.
End IncidentPattern.

(** *** From lists of characters back to strings *)

Lemma list_ascii_of_string_app (a b : string) :
  list_ascii_of_string (a ++ b) = list_ascii_of_string a ++ list_ascii_of_string b.
Proof.
  induction a as [|x a IH]; [reflexivity|].
  cbn [append list_ascii_of_string app]. rewrite IH. reflexivity.
Qed.

Lemma last_char_nonempty (y : ascii) (s : string) :
  exists c, last_char (String y s) = Some c.
Proof.
  revert y. induction s as [|z s IH]; intros y; [cbn; eauto|].
  destruct (IH z) as [c Hc]. exists c. exact Hc.
Qed.

Lemma prev_after_last_char (pre : string) :
  forall prev,
    prev_after prev (list_ascii_of_string pre)
    = match last_char pre with
      | Some c => Some c
      | None => prev
      end.
Proof.
  unfold prev_after. induction pre as [|x pre IH]; intros prev; [reflexivity|].
  cbn [list_ascii_of_string fold_left]. rewrite (IH (Some x)).
  destruct pre as [|y pre]; [reflexivity|].
  destruct (last_char_nonempty y pre) as [c Hc].
  change (last_char (String x (String y pre))) with (last_char (String y pre)).
  rewrite Hc. reflexivity.
Qed.

Lemma hd_error_first_char (post : string) :
  hd_error (list_ascii_of_string post) = first_char post.
Proof. destruct post; reflexivity. Qed.

Lemma all_digits_forallb (ds : string) :
  all_digits ds = forallb is_digit (list_ascii_of_string ds).
Proof.
  induction ds as [|d ds IH]; [reflexivity|].
  cbn [all_digits list_ascii_of_string forallb]. rewrite IH. reflexivity.
Qed.

Lemma match_I (i : ascii) :
  cls_match true (CChar "I") i = Ascii.eqb (upper_char i) "I".
Proof. ascii_cases i. Qed.

Lemma match_N (n : ascii) :
  cls_match true (CChar "N") n = Ascii.eqb (upper_char n) "N".
Proof. ascii_cases n. Qed.

Lemma match_C (c : ascii) :
  cls_match true (CChar "C") c = Ascii.eqb (upper_char c) "C".
Proof. ascii_cases c. Qed.

(** [is_incident_id] and [incident_chars] say the same. *)
Lemma is_incident_id_chars (i n c d : ascii) (ds : string) :
  is_incident_id (String i (String n (String c (String d ds))))
  = incident_chars i n c d (list_ascii_of_string ds).
Proof.
  unfold is_incident_id, incident_chars.
  rewrite match_I, match_N, match_C, all_digits_forallb. reflexivity.
Qed.

Lemma is_incident_id_shape (tok : string) :
  is_incident_id tok = true ->
  exists i n c d ds, tok = String i (String n (String c (String d ds))).
Proof.
  destruct tok as [|i [|n [|c [|d ds]]]]; try discriminate. eauto 6.
Qed.

Lemma upper_char_idempotent (c : ascii) :
  upper_char (upper_char c) = upper_char c.
Proof. ascii_cases c. Qed.

Lemma is_digit_upper_char (c : ascii) : is_digit (upper_char c) = is_digit c.
Proof. ascii_cases c. Qed.

Lemma toUpperCase_idempotent (s : string) :
  toUpperCase (toUpperCase s) = toUpperCase s.
Proof.
  unfold toUpperCase. induction s as [|c s IH]; [reflexivity|].
  cbn [smap]. rewrite upper_char_idempotent, IH. reflexivity.
Qed.

Lemma all_digits_toUpperCase (s : string) :
  all_digits (toUpperCase s) = all_digits s.
Proof.
  unfold toUpperCase. induction s as [|c s IH]; [reflexivity|].
  cbn [smap all_digits]. rewrite is_digit_upper_char, IH. reflexivity.
Qed.

Lemma is_incident_id_toUpperCase (tok : string) :
  is_incident_id tok = true -> is_incident_id (toUpperCase tok) = true.
Proof.
  intros H. destruct (is_incident_id_shape tok H) as (i & n & c & d & ds & ->).
  unfold is_incident_id in *. unfold toUpperCase in *. cbn [smap].
  rewrite !upper_char_idempotent, is_digit_upper_char.
  fold (toUpperCase ds). rewrite all_digits_toUpperCase. exact H.
Qed.

(** The incident pattern finds an incident id in every utterance that has
    an incident token, and finds nothing but incident ids. *)
Lemma exec_incident_complete (u : string) :
  has_incident_token u ->
  exists m, exec true re_incident u = Some m.
Proof.
  intros (pre & tok & post & -> & Htok & Hpre & Hpost).
  destruct (is_incident_id_shape tok Htok) as (i & n & c & d & ds & ->).
  rewrite is_incident_id_chars in Htok.
  unfold exec.
  rewrite list_ascii_of_string_app, list_ascii_of_string_app.
  cbn [list_ascii_of_string app].
  destruct (search_complete true re_incident (list_ascii_of_string pre)
              (i :: n :: c :: d
                 :: list_ascii_of_string ds ++ list_ascii_of_string post)
              (i :: n :: c :: d :: list_ascii_of_string ds) None)
    as [m' Hm'].
  - apply run_incident_complete.
    + rewrite prev_after_last_char.
      destruct (last_char pre); [exact Hpre | reflexivity].
    + exact Htok.
    + rewrite hd_error_first_char. exact Hpost.
  - rewrite Hm'. cbn [option_map]. eauto.
Qed.

Lemma exec_incident_sound (u m : string) :
  exec true re_incident u = Some m -> is_incident_id m = true.
Proof.
  unfold exec.
  destruct (search true re_incident None (list_ascii_of_string u)) as [l|] eqn:Hs;
    [|discriminate].
  cbn [option_map]. intros H; injection H as <-.
  destruct (search_sound true re_incident _ None l Hs) as (pre & rest & _ & Hrun).
  destruct (run_incident_sound _ _ _ Hrun)
    as (i & n & c & d & ds & post & _ & -> & Hchars & _).
  cbn [string_of_list_ascii]. rewrite is_incident_id_chars.
  rewrite list_ascii_of_string_of_list_ascii. exact Hchars.
Qed.

(** C1, as the program has it.  An utterance that contains an incident
    token and that the chart heuristic does not match is classified as an
    incident-status query, whatever else it says (install keywords
    included): the dispatch asks the status-lookup collaborator, and nothing
    else, for an upper-cased incident id. *)
Theorem incident_token_dispatch (E : Js.engine) (be : Backend.backend)
    (st : ClientSide.state) (cs : list Backend.call) (u : string) :
  has_incident_token u ->
  ClientSide.checkForChartRequest u = None ->
  exists inc,
    classify u = IncidentStatus inc /\
    is_incident_id inc = true /\
    toUpperCase inc = inc /\
    calls_after (ClientSide.decideAndCallTool E be u (world_of st cs))
    = cs ++ [Backend.showStatus inc].
Proof.
  intros Htok Hchart.
  destruct (exec_incident_complete u Htok) as [m Hm].
  assert (Hc : classify u = IncidentStatus (toUpperCase m)).
  { unfold classify. rewrite Hchart, Hm. reflexivity. }
  exists (toUpperCase m). split; [exact Hc|]. split.
  - apply is_incident_id_toUpperCase. exact (exec_incident_sound u m Hm).
  - split; [apply toUpperCase_idempotent|].
    exact (incident_calls E be st cs u (toUpperCase m) Hc).
Qed.

Lemma incident_token_dispatch_witness :
  classify "please install INC123 status" = IncidentStatus "INC123" /\
  exists inc,
    classify "please install INC123 status" = IncidentStatus inc /\
    is_incident_id inc = true /\
    toUpperCase inc = inc /\
    calls_after
      (ClientSide.decideAndCallTool Sample.engine0 Sample.two_versions
         "please install INC123 status" (world_of Sample.awaiting []))
    = [] ++ [Backend.showStatus inc].
Proof.
  split; [reflexivity|].
  apply (incident_token_dispatch Sample.engine0 Sample.two_versions
           Sample.awaiting [] "please install INC123 status").
  - exists "please install ", "INC123", " status".
    repeat split; reflexivity.
  - reflexivity.
Defined.

(** C1 as stated fails: the chart heuristic is tested first, so an
    utterance with an incident token and sales vocabulary is answered
    locally and the status lookup is never called. *)
Lemma incident_token_behind_chart_request :
  has_incident_token "show monthly sales for INC123" /\
  classify "show monthly sales for INC123" = AnalyticsQuery "monthly" /\
  returned
    (ClientSide.decideAndCallTool Sample.engine0 Sample.two_versions
       "show monthly sales for INC123" (world_of Sample.idle []))
  = Some (Js.JStr "Here's the monthly sales data you requested:") /\
  calls_after
    (ClientSide.decideAndCallTool Sample.engine0 Sample.two_versions
       "show monthly sales for INC123" (world_of Sample.idle []))
  = [].
Proof.
  split.
  - exists "show monthly sales for ", "INC123", "".
    repeat split; reflexivity.
  - repeat split.
Qed.

(* ------------------------------------------------------------------ *)
(** ** Worked examples *)
(* ------------------------------------------------------------------ *)

(** An inline chart without a declared chart type hides the static
    chart, even though the utterance hints at one. *)
Example inline_chart_hides_static :
  BackendDriven.showChart
    (state_after
       (BackendDriven.decideAndCallTool
          (fun _ => Backend.Resolved
                      (Js.JObj [ ("chart", Js.JObj [ ("type", Js.JStr "pie") ]) ]))
          "monthly revenue" (world_of Sample.insights [])))
  = None.
Proof. reflexivity. Qed.

(** With neither, the hint inferred from the utterance is used. *)
Example inferred_hint_is_fallback :
  BackendDriven.showChart
    (state_after
       (BackendDriven.decideAndCallTool
          (fun _ => Backend.Resolved (Js.JObj [ ("answer", Js.JStr "42") ]))
          "revenue per quarter" (world_of Sample.insights [])))
  = Some "quarterly" /\
  calls_after
    (BackendDriven.decideAndCallTool
       (fun _ => Backend.Resolved (Js.JObj [ ("answer", Js.JStr "42") ]))
       "revenue per quarter" (world_of Sample.insights []))
  = [ Backend.queryChatbot "revenue per quarter" "quarterly" ].
Proof. split; reflexivity. Qed.

(** Numeric strings are coerced and the series keeps the label "Value". *)
Example numeric_strings_are_values :
  match BackendDriven.buildChartJsSpec Sample.engine0
          (Js.JObj [ ("labels", Js.JArr [Js.JStr "A"; Js.JStr "B"]);
                     ("values", Js.JArr [Js.JStr "3"; Js.JNum 4%float]) ]) with
  | Handler.Ok s =>
      BackendDriven.type s = "bar" /\
      map BackendDriven.label (BackendDriven.datasets (BackendDriven.chart_data s))
        = ["Value"] /\
      map BackendDriven.data (BackendDriven.datasets (BackendDriven.chart_data s))
        = [[3%float; 4%float]]
  | Handler.Throw _ => False
  end.
Proof. repeat split. Qed.

(** A chart whose [type] is a number makes the normalizer throw. *)
Example numeric_type_throws :
  BackendDriven.buildChartJsSpec Sample.engine0
    (Js.JObj [ ("type", Js.JNum 5%float); ("values", Js.JArr []) ])
  = Handler.Throw (Js.TypeError Sample.engine0 (Js.JNum 5%float) "toLowerCase").
Proof. reflexivity. Qed.

(** A status lookup that resolves clears the pending confirmation. *)
Example incident_success_clears_pending :
  returned
    (ClientSide.decideAndCallTool Sample.engine0 Sample.two_versions
       "status of inc42 please" (world_of Sample.awaiting []))
  = Some (Js.JStr "Incident INC42 status: Open") /\
  ClientSide.pending
    (state_after
       (ClientSide.decideAndCallTool Sample.engine0 Sample.two_versions
          "status of inc42 please" (world_of Sample.awaiting [])))
  = None.
Proof. split; reflexivity. Qed.

(** While a dispatch is in flight the backend-driven variant ignores the
    Enter key. *)
Example backend_driven_enter_ignored :
  BackendDriven.onKeyDown Sample.two_versions Sample.enter
    (world_of Sample.insights [])
  = (Handler.Ok tt, world_of Sample.insights []).
Proof. reflexivity. Qed.

(* ================================================================== *)
(** * Further properties of the program *)
(* ================================================================== *)

(* ------------------------------------------------------------------ *)
(** ** The patterns *)
(* ------------------------------------------------------------------ *)

Lemma in_all_ascii (c : ascii) : In c all_ascii.
Proof.
  unfold all_ascii. rewrite <- (ascii_nat_embedding c).
  apply in_map, in_seq. pose proof (nat_ascii_bounded c). lia.
Qed.

(** A property of characters that computes is checked on all of them. *)
Lemma ascii_forall (P : ascii -> bool) :
  forallb P all_ascii = true -> forall c, P c = true.
Proof.
  intros H c. rewrite forallb_forall in H. exact (H c (in_all_ascii c)).
Qed.

Lemma ascii_forall2 (P : ascii -> ascii -> bool) :
  forallb (fun a => forallb (P a) all_ascii) all_ascii = true ->
  forall a x, P a x = true.
Proof.
  intros H a x.
  exact (ascii_forall (P a) (ascii_forall _ H a) x).
Qed.

(** Two characters that agree up to case are both word characters or
    both not. *)
Lemma same_upper_same_word (a x : ascii) :
  Ascii.eqb (upper_char a) (upper_char x) = true -> is_word a = is_word x.
Proof.
  intros H.
  pose proof (ascii_forall2
                (fun a x => implb (Ascii.eqb (upper_char a) (upper_char x))
                              (Bool.eqb (is_word a) (is_word x)))
                ltac:(vm_compute; reflexivity) a x) as Hall.
  cbv beta in Hall. rewrite H in Hall. cbn [implb] in Hall.
  apply Bool.eqb_prop in Hall. exact Hall.
Qed.

Lemma run_lit (ic : bool) (w : string) :
  forall prev s acc k,
    run ic (lit w) prev s acc k
    = match match_lit ic (list_ascii_of_string w) s with
      | Some (m, rest) => k (prev_after prev m) rest (rev m ++ acc)
      | None => None
      end.
Proof.
  induction w as [|a w IH]; intros prev s acc k; [reflexivity|].
  destruct w as [|b w].
  - cbn [lit run list_ascii_of_string match_lit].
    destruct s as [|x s]; [reflexivity|].
    destruct (cls_match ic (CChar a) x); reflexivity.
  - change (lit (String a (String b w)))
      with (Seq (One (CChar a)) (lit (String b w))).
    cbn [run]. change (list_ascii_of_string (String a (String b w)))
      with (a :: list_ascii_of_string (String b w)).
    cbn [match_lit].
    destruct s as [|x s]; [reflexivity|].
    destruct (cls_match ic (CChar a) x); [|reflexivity].
    rewrite IH.
    destruct (match_lit ic (list_ascii_of_string (String b w)) s)
      as [[m rest]|]; [|reflexivity].
    cbn [rev prev_after fold_left]. rewrite <- app_assoc. reflexivity.
Qed.

Lemma match_lit_sound (w : list ascii) :
  forall s m rest,
    match_lit true w s = Some (m, rest) ->
    s = m ++ rest /\ map upper_char m = map upper_char w.
Proof.
  induction w as [|a w IH]; intros s m rest H.
  - injection H as <- <-. auto.
  - cbn [match_lit] in H. destruct s as [|x s]; [discriminate H|].
    destruct (cls_match true (CChar a) x) eqn:Hx; [|discriminate H].
    destruct (match_lit true w s) as [[m' rest']|] eqn:Hm; [|discriminate H].
    injection H as <- <-. destruct (IH s m' rest' Hm) as [-> Hu].
    cbn [cls_match] in Hx. apply Ascii.eqb_eq in Hx.
    cbn [map app]. rewrite Hu, Hx. auto.
Qed.

Lemma match_lit_complete (w : list ascii) :
  forall m rest,
    map upper_char m = map upper_char w ->
    match_lit true w (m ++ rest) = Some (m, rest).
Proof.
  induction w as [|a w IH]; intros m rest H.
  - destruct m; [reflexivity | discriminate H].
  - destruct m as [|x m]; [discriminate H|].
    cbn [map] in H. injection H as Hx Hm.
    cbn [app match_lit cls_match]. rewrite Hx, Ascii.eqb_refl.
    rewrite (IH m rest Hm). reflexivity.
Qed.

(** Matching up to case keeps the word boundaries where they are. *)
Lemma match_lit_edges (w : list ascii) :
  forall m p q,
    map upper_char m = map upper_char w ->
    is_word_opt p = is_word_opt q ->
    is_word_opt (prev_after p m) = is_word_opt (prev_after q w) /\
    is_word_opt (hd_error m) = is_word_opt (hd_error w).
Proof.
  induction w as [|a w IH]; intros m p q Hm Hpq.
  - destruct m; [auto | discriminate Hm].
  - destruct m as [|x m]; [discriminate Hm|].
    cbn [map] in Hm. injection Hm as Hx Hm.
    assert (Hw : is_word x = is_word a).
    { symmetry. apply same_upper_same_word. rewrite Hx. apply Ascii.eqb_refl. }
    split.
    + cbn [prev_after fold_left].
      exact (proj1 (IH m (Some x) (Some a) Hm Hw)).
    + exact Hw.
Qed.

Lemma run_install_matches (prev : option ascii) (s : list ascii) :
  (exists m, run true re_install prev s [] accept = Some m) <->
  (exists w m rest,
     In w install_alternatives /\
     match_lit true (list_ascii_of_string w) s = Some (m, rest) /\
     at_boundary prev s = true /\
     at_boundary (prev_after prev m) rest = true).
Proof.
  unfold re_install, install_alternatives. cbn [run]. rewrite !run_lit.
  cbn [run]. unfold accept.
  destruct (at_boundary prev s).
  2:{ split; [intros [m H]; discriminate H
             | intros (w & m & rest & _ & _ & H & _); discriminate H]. }
  destruct (match_lit true (list_ascii_of_string "install") s)
    as [[m1 r1]|] eqn:H1;
    [ destruct (at_boundary (prev_after prev m1) r1) eqn:B1 | ];
    try (split; [ intros _; exists "install", m1, r1; cbn [In];
                  repeat split; auto
                | intros _; eauto ]; fail).
  all: destruct (match_lit true (list_ascii_of_string "setup") s)
    as [[m2 r2]|] eqn:H2;
    [ destruct (at_boundary (prev_after prev m2) r2) eqn:B2 | ];
    try (split; [ intros _; exists "setup", m2, r2; cbn [In];
                  repeat split; auto
                | intros _; eauto ]; fail).
  all: destruct (match_lit true (list_ascii_of_string "set up") s)
    as [[m3 r3]|] eqn:H3;
    [ destruct (at_boundary (prev_after prev m3) r3) eqn:B3 | ];
    try (split; [ intros _; exists "set up", m3, r3; cbn [In];
                  repeat split; auto
                | intros _; eauto ]; fail).
  all: split; [intros [m H]; discriminate H|].
  all: intros (w & m & rest & Hw & Hm & _ & Hb); cbn [In] in Hw;
    destruct Hw as [<- | [<- | [<- | []]]];
    first [ rewrite H1 in Hm | rewrite H2 in Hm | rewrite H3 in Hm ];
    first [ discriminate Hm
          | injection Hm as <- <-;
            first [ rewrite B1 in Hb | rewrite B2 in Hb | rewrite B3 in Hb ];
            discriminate Hb ].
Qed.

Lemma string_of_list_ascii_app (a b : list ascii) :
  string_of_list_ascii (a ++ b)
  = (string_of_list_ascii a ++ string_of_list_ascii b)%string.
Proof.
  induction a as [|x a IH]; [reflexivity|].
  cbn [app string_of_list_ascii append]. rewrite IH. reflexivity.
Qed.

Lemma list_ascii_of_toUpperCase (w : string) :
  list_ascii_of_string (toUpperCase w) = map upper_char (list_ascii_of_string w).
Proof.
  unfold toUpperCase. induction w as [|a w IH]; [reflexivity|].
  cbn [smap list_ascii_of_string map]. rewrite IH. reflexivity.
Qed.

Lemma toUpperCase_eq_map (a b : string) :
  toUpperCase a = toUpperCase b <->
  map upper_char (list_ascii_of_string a) = map upper_char (list_ascii_of_string b).
Proof.
  rewrite <- !list_ascii_of_toUpperCase. split; [intros ->; reflexivity|].
  intros H. apply (f_equal string_of_list_ascii) in H.
  rewrite !string_of_list_ascii_of_string in H. exact H.
Qed.

(** Cut a string where its list of characters is cut. *)
Lemma string_split (u : string) (pre rest : list ascii) :
  list_ascii_of_string u = pre ++ rest ->
  u = (string_of_list_ascii pre ++ string_of_list_ascii rest)%string.
Proof.
  intros H. rewrite <- string_of_list_ascii_app, <- H.
  symmetry. apply string_of_list_ascii_of_string.
Qed.

Lemma prev_after_string (pre : list ascii) :
  prev_after None pre = last_char (string_of_list_ascii pre).
Proof.
  rewrite <- (list_ascii_of_string_of_list_ascii pre) at 1.
  rewrite prev_after_last_char.
  destruct (last_char (string_of_list_ascii pre)); reflexivity.
Qed.

Lemma hd_error_string (rest : list ascii) :
  hd_error rest = first_char (string_of_list_ascii rest).
Proof. destruct rest; reflexivity. Qed.

(** An install word starts and ends with a word character. *)
Lemma install_word_edges (w : string) (m : list ascii) :
  In w install_alternatives ->
  map upper_char m = map upper_char (list_ascii_of_string w) ->
  forall prev rest,
    is_word_opt (hd_error (m ++ rest)) = true /\
    is_word_opt (prev_after prev m) = true.
Proof.
  intros Hw Hm prev rest.
  destruct (match_lit_edges (list_ascii_of_string w) m prev prev Hm eq_refl)
    as [Hlast Hhd].
  rewrite Hlast.
  assert (Hne : exists x m', m = x :: m').
  { destruct m as [|x m']; [|eauto].
    destruct Hw as [<- | [<- | [<- | []]]]; discriminate Hm. }
  destruct Hne as (x & m' & ->). cbn [app hd_error] in *. rewrite Hhd.
  destruct Hw as [<- | [<- | [<- | []]]]; split; reflexivity.
Qed.

Lemma boundary_before_word (prev : option ascii) (s : list ascii) :
  is_word_opt (hd_error s) = true ->
  at_boundary prev s = negb (is_word_opt prev).
Proof.
  unfold at_boundary. intros ->. destruct (is_word_opt prev); reflexivity.
Qed.

Lemma boundary_after_word (prev : option ascii) (s : list ascii) :
  is_word_opt prev = true ->
  at_boundary prev s = negb (is_word_opt (hd_error s)).
Proof. unfold at_boundary. intros ->. reflexivity. Qed.

Lemma test_install_iff (u : string) :
  test true re_install u = true <-> has_install_word u.
Proof.
  unfold test, exec. split.
  - destruct (search true re_install None (list_ascii_of_string u))
      as [l|] eqn:Hs; [intros _ | discriminate].
    destruct (search_sound true re_install _ None l Hs)
      as (pre & rest & Hu & Hrun).
    destruct (proj1 (run_install_matches _ _) (ex_intro _ l Hrun))
      as (w & m & rest' & Hw & Hm & Hb1 & Hb2).
    destruct (match_lit_sound _ _ _ _ Hm) as [-> Hup].
    destruct (install_word_edges w m Hw Hup (prev_after None pre) rest')
      as [Hhd Hlast].
    rewrite (boundary_before_word _ _ Hhd) in Hb1.
    rewrite (boundary_after_word _ _ Hlast) in Hb2.
    apply negb_true_iff in Hb1, Hb2.
    exists (string_of_list_ascii pre), (string_of_list_ascii m),
      (string_of_list_ascii rest').
    repeat split.
    + rewrite <- string_of_list_ascii_app. exact (string_split u _ _ Hu).
    + apply in_map_iff. exists w. split; [|exact Hw].
      apply toUpperCase_eq_map.
      rewrite list_ascii_of_string_of_list_ascii. symmetry. exact Hup.
    + rewrite <- prev_after_string. exact Hb1.
    + rewrite <- hd_error_string. exact Hb2.
  - intros (pre & w & post & -> & Hw & Hpre & Hpost).
    apply in_map_iff in Hw. destruct Hw as (a & Ha & Hin).
    apply toUpperCase_eq_map in Ha. symmetry in Ha.
    destruct (install_word_edges a (list_ascii_of_string w) Hin Ha
                (prev_after None (list_ascii_of_string pre))
                (list_ascii_of_string post)) as [Hhd Hlast].
    rewrite !list_ascii_of_string_app.
    destruct (proj2 (run_install_matches
                       (prev_after None (list_ascii_of_string pre))
                       (list_ascii_of_string w ++ list_ascii_of_string post)))
      as [m Hm].
    { exists a, (list_ascii_of_string w), (list_ascii_of_string post).
      split; [exact Hin|]. split; [exact (match_lit_complete _ _ _ Ha)|].
      rewrite (boundary_before_word _ _ Hhd), (boundary_after_word _ _ Hlast).
      rewrite prev_after_last_char, hd_error_first_char, Hpost.
      destruct (last_char pre); [rewrite Hpre|]; auto. }
    destruct (search_complete true re_install (list_ascii_of_string pre) _ m
                None Hm) as [m' Hm'].
    rewrite Hm'. reflexivity.
Qed.

Lemma run_incident_boundary (prev : option ascii) (s m : list ascii) :
  run true re_incident prev s [] accept = Some m ->
  is_word_opt prev = false.
Proof.
  intros H.
  destruct (run_incident_sound prev s m H)
    as (i & n & c & d & ds & post & -> & _ & Hchars & _).
  unfold re_incident in H. cbn [run] in H.
  destruct (at_boundary prev (i :: n :: c :: d :: ds ++ post)) eqn:Hb;
    [|discriminate H].
  unfold incident_chars in Hchars.
  repeat (apply andb_true_iff in Hchars; destruct Hchars as [Hchars ?]).
  rewrite boundary_before_word in Hb
    by (cbn [hd_error is_word_opt]; exact (match_I_is_word i Hchars)).
  apply negb_true_iff in Hb. exact Hb.
Qed.

(** What the incident pattern returns is an incident token of the
    utterance. *)
Lemma exec_incident_token (u m : string) :
  exec true re_incident u = Some m ->
  exists pre post,
    u = (pre ++ m ++ post)%string /\
    is_incident_id m = true /\
    is_word_opt (last_char pre) = false /\
    is_word_opt (first_char post) = false.
Proof.
  intros H. pose proof (exec_incident_sound u m H) as Hid.
  unfold exec in H.
  destruct (search true re_incident None (list_ascii_of_string u)) as [l|] eqn:Hs;
    [|discriminate H].
  cbn [option_map] in H. injection H as <-.
  destruct (search_sound true re_incident _ None l Hs) as (pre & rest & Hu & Hrun).
  pose proof (run_incident_boundary _ _ _ Hrun) as Hprev.
  destruct (run_incident_sound _ _ _ Hrun)
    as (i & n & c & d & ds & post & -> & -> & _ & Hpost).
  exists (string_of_list_ascii pre), (string_of_list_ascii post).
  repeat split.
  - rewrite <- string_of_list_ascii_app. apply string_split.
    rewrite Hu. reflexivity.
  - exact Hid.
  - rewrite <- prev_after_string. exact Hprev.
  - rewrite <- hd_error_string. exact Hpost.
Qed.

(** X1.  The install pattern accepts exactly the utterances that contain
    install, setup or set up, in any case, as a whole word. *)
Theorem install_pattern_matches_whole_words (u : string) :
  test true re_install u = true <-> has_install_word u.
Proof. exact (test_install_iff u). Qed.

(** X2.  The incident pattern matches exactly the utterances that contain
    an incident token, and what it returns is such a token of the
    utterance. *)
Theorem incident_pattern_matches_tokens (u : string) :
  ((exists m, exec true re_incident u = Some m) <-> has_incident_token u) /\
  (forall m,
     exec true re_incident u = Some m ->
     exists pre post,
       u = (pre ++ m ++ post)%string /\
       is_incident_id m = true /\
       is_word_opt (last_char pre) = false /\
       is_word_opt (first_char post) = false).
Proof.
  split; [split|].
  - intros [m H]. destruct (exec_incident_token u m H) as (pre & post & Hrest).
    exists pre, m, post. exact Hrest.
  - apply exec_incident_complete.
  - apply exec_incident_token.
Qed.

(** X3.  The intent in words.  When the chart heuristic does not match:
    an utterance with an incident token is a status query; one without, but
    with an install word, is an install request; one with neither is a
    generic ticket. *)
Theorem classify_cascade (u : string) :
  ClientSide.checkForChartRequest u = None ->
  (has_incident_token u ->
   exists inc, classify u = IncidentStatus inc /\ is_incident_id inc = true) /\
  (~ has_incident_token u -> has_install_word u ->
   classify u = InstallRequest) /\
  (~ has_incident_token u -> ~ has_install_word u ->
   classify u = GenericTicket).
Proof.
  intros Hchart. unfold classify. rewrite Hchart.
  destruct (exec true re_incident u) as [m|] eqn:Hm.
  - pose proof (exec_incident_token u m Hm) as (pre & post & Htok).
    assert (Hhas : has_incident_token u) by (exists pre, m, post; exact Htok).
    split; [|split].
    + intros _. exists (toUpperCase m). split; [reflexivity|].
      apply is_incident_id_toUpperCase. exact (exec_incident_sound u m Hm).
    + intros Hno. destruct (Hno Hhas).
    + intros Hno. destruct (Hno Hhas).
  - assert (Hno : ~ has_incident_token u).
    { intros Hhas. destruct (exec_incident_complete u Hhas) as [m' Hm'].
      rewrite Hm in Hm'. discriminate Hm'. }
    split; [intros Hhas; destruct (Hno Hhas)|].
    destruct (test true re_install u) eqn:Ht.
    + split; [reflexivity|]. intros _ Hni.
      destruct (Hni (proj1 (test_install_iff u) Ht)).
    + split; [|reflexivity]. intros _ Hi.
      rewrite (proj2 (test_install_iff u) Hi) in Ht. discriminate Ht.
Qed.

Lemma classify_cascade_witness :
  classify "Please SET UP zoom for me" = InstallRequest.
Proof.
  apply (proj1 (proj2 (classify_cascade "Please SET UP zoom for me" eq_refl))).
  - intros Hhas.
    destruct (exec_incident_complete _ Hhas) as [m Hm]. discriminate Hm.
  - exists "Please ", "SET UP", " zoom for me". repeat split.
    right. right. left. reflexivity.
Defined.


(* ------------------------------------------------------------------ *)
(** ** The client-side dispatch, branch by branch *)
(* ------------------------------------------------------------------ *)

Section ClientDispatch.
Import Js Backend Handler.
Variable E : engine.
Variable be : backend.

Ltac unfold_dispatch :=
  unfold ClientSide.decideAndCallTool, try_catch, bind, await, member,
    template, ret, throw, ClientSide.setPending, ClientSide.setShowChart,
    modify_ui.

(** Everything a dispatch does to the page, whether it returns a reply or
    throws: it sends the request of the intent, sets the chart to what the
    heuristic answered, and leaves the pending confirmation alone, clears
    it, or replaces it by one for this query with two options or more. *)
Lemma dispatch_effect (query : string) (w : world ClientSide.state) :
  exists r p',
    ClientSide.decideAndCallTool E be query w
    = (r,
       {| ui := {| ClientSide.messages := ClientSide.messages (ui w);
                   ClientSide.input := ClientSide.input (ui w);
                   ClientSide.pending := p';
                   ClientSide.thinking := ClientSide.thinking (ui w);
                   ClientSide.showChart := ClientSide.checkForChartRequest query;
                   ClientSide.chat_history_v1 :=
                     ClientSide.chat_history_v1 (ui w) |};
          calls := calls w ++ requests_of query;
          render_error := render_error w |}) /\
    (p' = ClientSide.pending (ui w) \/ p' = None \/
     exists opts,
       p' = Some {| ClientSide.user_query := query;
                    ClientSide.options := opts |} /\
       2 <= length opts).
Proof.
  unfold requests_of, classify. unfold_dispatch.
  destruct (ClientSide.checkForChartRequest query).
  { cbn. rewrite app_nil_r. eauto 6. }
  destruct (exec true re_incident query); cbv beta iota zeta.
  - match goal with
    | |- context [be ?c] => destruct (be c) as [data|e]
    end; [ destruct data | ]; cbv beta iota zeta; split_conversions;
      cbn; eauto 6.
  - destruct (test true re_install query); cbv beta iota zeta.
    + destruct (be (requestInstall query JNull)) as [data|e];
        [ | cbv beta iota zeta; split_conversions; cbn; eauto 6 ].
      destruct (truthy data && typeof_object data && truthy (prop data "incident"));
        [ cbn; eauto 6 | ].
      destruct (isArray (prop data "options")) eqn:Harr; cbn [andb];
        [ | cbn; eauto 6 ].
      destruct (1 <? length (array_or_empty (prop data "options")))%nat eqn:Hlen;
        [ | cbn; eauto 6 ].
      apply Nat.ltb_lt in Hlen.
      destruct data; try discriminate Harr. cbn in *.
      do 2 eexists. split; [reflexivity|]. right. right. eauto.
    + destruct (be (createTicket query)) as [data|e];
        [ destruct data | ]; cbv beta iota zeta; split_conversions;
        cbn; eauto 6.
Qed.

(** The reply depends on the utterance and on what the backend answers,
    not on the page. *)
Lemma dispatch_reply_stateless (query : string) (w1 w2 : world ClientSide.state) :
  fst (ClientSide.decideAndCallTool E be query w1)
  = fst (ClientSide.decideAndCallTool E be query w2).
Proof.
  unfold_dispatch.
  destruct (ClientSide.checkForChartRequest query); [reflexivity|].
  destruct (exec true re_incident query); cbv beta iota zeta.
  - match goal with
    | |- context [be ?c] => destruct (be c) as [data|e]
    end; [ destruct data | ]; cbv beta iota zeta; split_conversions;
      reflexivity.
  - destruct (test true re_install query); cbv beta iota zeta.
    + destruct (be (requestInstall query JNull)) as [data|e];
        [ | cbv beta iota zeta; split_conversions; reflexivity ].
      destruct (truthy data && typeof_object data && truthy (prop data "incident"));
        [ reflexivity | ].
      destruct (isArray (prop data "options")
                && (1 <? length (array_or_empty (prop data "options")))%nat)
        eqn:Hopts; [ | reflexivity ].
      destruct data; try discriminate Hopts; reflexivity.
    + destruct (be (createTicket query)) as [data|e];
        [ destruct data | ]; cbv beta iota zeta; split_conversions;
        reflexivity.
Qed.

(** An error the dispatch makes itself is one it can print. *)
Lemma own_error_prints (v : jsval) (k : string) :
  ToString E (ClientSide.error_detail (TypeError E v k))
  = Some (TypeError_message E v k) /\
  ToString E (ClientSide.error_detail (ConversionError E v))
  = Some (ToPrimitive_message E v).
Proof.
  unfold ClientSide.error_detail, TypeError, ConversionError, js_or.
  cbn [response_data message truthy]. split; reflexivity.
Qed.

(** A dispatch throws only from a catch clause: the request was rejected
    and the detail of the error has no conversion to a string. *)
Lemma dispatch_throws (query : string) (w : world ClientSide.state)
    (e : js_error) :
  fst (ClientSide.decideAndCallTool E be query w) = Throw e ->
  exists c e0,
    In c (requests_of query) /\ be c = Rejected e0 /\
    ToString E (ClientSide.error_detail e0) = None /\
    e = ConversionError E (ClientSide.error_detail e0).
Proof.
  unfold requests_of, classify. unfold_dispatch.
  destruct (ClientSide.checkForChartRequest query); [discriminate|].
  destruct (exec true re_incident query); cbv beta iota zeta.
  - match goal with
    | |- context [be ?c] => destruct (be c) as [data|e0] eqn:Hbe
    end.
    + destruct data; cbv beta iota zeta;
        rewrite ?(proj1 (own_error_prints _ _));
        try discriminate;
        match goal with
        | |- context [match ToString E ?v with _ => _ end] =>
            destruct (ToString E v); cbv beta iota zeta;
            rewrite ?(proj2 (own_error_prints _)); discriminate
        end.
    + cbv beta iota zeta.
      destruct (ToString E (ClientSide.error_detail e0)) eqn:Hd;
        cbn; intros H; [discriminate H | injection H as <-].
      eexists _, e0. cbn. eauto.
  - destruct (test true re_install query); cbv beta iota zeta.
    + destruct (be (requestInstall query JNull)) as [data|e0] eqn:Hbe.
      * destruct (truthy data && typeof_object data
                  && truthy (prop data "incident")); [ discriminate | ].
        destruct (isArray (prop data "options")
                  && (1 <? length (array_or_empty (prop data "options")))%nat)
          eqn:Hopts; [ | discriminate ].
        destruct data; try discriminate Hopts; discriminate.
      * cbv beta iota zeta.
        destruct (ToString E (ClientSide.error_detail e0)) eqn:Hd;
          cbn; intros H; [discriminate H | injection H as <-].
        eexists _, e0. cbn. eauto.
    + destruct (be (createTicket query)) as [data|e0] eqn:Hbe.
      * destruct data; cbv beta iota zeta;
          rewrite ?(proj1 (own_error_prints _ _));
          try discriminate;
          match goal with
          | |- context [match ToString E ?v with _ => _ end] =>
              destruct (ToString E v); cbv beta iota zeta;
              rewrite ?(proj2 (own_error_prints _)); discriminate
          end.
      * cbv beta iota zeta.
        destruct (ToString E (ClientSide.error_detail e0)) eqn:Hd;
          cbn; intros H; [discriminate H | injection H as <-].
        eexists _, e0. cbn. eauto.
Qed.

(** X4.  A dispatch sends exactly the request of the intent of the
    utterance: none for a chart request, otherwise one status lookup, one
    install lookup without a version, or one ticket creation.  Neither the
    state of the page nor what the backend answers changes that. *)
Theorem dispatch_sends_request_of_intent (st : ClientSide.state)
    (cs : list call) (query : string) :
  calls_after (ClientSide.decideAndCallTool E be query (world_of st cs))
  = cs ++ requests_of query /\
  length (requests_of query) <= 1.
Proof.
  split.
  - destruct (dispatch_effect query (world_of st cs)) as (r & p' & Hr & _).
    unfold calls_after. rewrite Hr. reflexivity.
  - unfold requests_of. destruct (classify query); cbn; lia.
Qed.
End ClientDispatch.

Section ClientBranches.
Import Js Backend Handler.
Variable E : engine.
Variable be : backend.

(** Reading a property of what is neither [null] nor [undefined]. *)
Lemma member_ok (v : jsval) (k : string) (w : world ClientSide.state) :
  is_nullish v = false ->
  member E v k w = (Ok (prop v k), w).
Proof. destruct v; intros H; try discriminate H; reflexivity. Qed.

Ltac unfold_branch :=
  unfold ClientSide.decideAndCallTool, returned, state_after, calls_after,
    world_of, try_catch, bind, await, member, template, ret, throw,
    ClientSide.setPending, ClientSide.setShowChart, modify_ui.

(** X5.  A status lookup that resolves always clears the pending
    confirmation.  The reply is the status line, with [Unknown] for a
    missing or null status, when the status converts to a string.  When it
    does not, or when the body of the response is null, the try block
    throws and the reply is the error line with the message of that
    TypeError; the pending confirmation has been cleared all the same. *)
Theorem status_lookup_resolved (st : ClientSide.state) (cs : list call)
    (query inc : string) (data : jsval) :
  classify query = IncidentStatus inc ->
  be (showStatus inc) = Resolved data ->
  ClientSide.pending
    (state_after (ClientSide.decideAndCallTool E be query (world_of st cs)))
  = None /\
  (forall text,
     is_nullish data = false ->
     ToString E (js_nullish (prop data "incident_status") (JStr "Unknown"))
     = Some text ->
     returned (ClientSide.decideAndCallTool E be query (world_of st cs))
     = Some (JStr ("Incident " ++ inc ++ " status: " ++ text))) /\
  (is_nullish data = false ->
   ToString E (js_nullish (prop data "incident_status") (JStr "Unknown"))
   = None ->
   returned (ClientSide.decideAndCallTool E be query (world_of st cs))
   = Some (JStr ("Error while checking status: "
                 ++ ToPrimitive_message E
                      (js_nullish (prop data "incident_status")
                         (JStr "Unknown"))))) /\
  (is_nullish data = true ->
   returned (ClientSide.decideAndCallTool E be query (world_of st cs))
   = Some (JStr ("Error while checking status: "
                 ++ TypeError_message E data "incident_status"))).
Proof.
  intros Hc Hbe.
  destruct (classify_incident _ _ Hc) as (Hchart & m & Hexec & ->).
  unfold_branch. rewrite Hchart, Hexec. cbv beta iota zeta. rewrite Hbe.
  destruct data; cbv beta iota zeta;
    try (cbn; repeat split; intros; try discriminate; reflexivity);
    cbn [prop is_nullish];
    match goal with
    | |- context [match ToString E ?v with _ => _ end] =>
        destruct (ToString E v) eqn:Hs
    end;
    cbn; repeat split; intros; try discriminate; congruence.
Qed.

(** X6.  An install dispatch leaves a pending confirmation exactly when
    the lookup resolved without a ticket identifier and with more than one
    option; the confirmation is then for this query and these options. *)
Theorem install_pending_iff (st : ClientSide.state) (cs : list call)
    (query : string) :
  classify query = InstallRequest ->
  forall p,
    ClientSide.pending
      (state_after (ClientSide.decideAndCallTool E be query (world_of st cs)))
    = Some p <->
    exists data opts,
      be (requestInstall query JNull) = Resolved data /\
      truthy (prop data "incident") = false /\
      prop data "options" = JArr opts /\
      1 < length opts /\
      p = {| ClientSide.user_query := query; ClientSide.options := opts |}.
Proof.
  intros Hc p. split.
  - destruct (classify_install _ Hc) as (Hchart & Hexec & Htest).
    unfold_branch. rewrite Hchart, Hexec, Htest. cbv beta iota zeta.
    destruct (be (requestInstall query JNull)) as [data|e] eqn:Hbe;
      [ | cbv beta iota zeta; split_conversions; cbn; discriminate ].
    destruct (truthy data && typeof_object data && truthy (prop data "incident"))
      eqn:Hticket; [ cbn; discriminate | ].
    destruct (isArray (prop data "options")) eqn:Harr; cbn [andb];
      [ | cbn; discriminate ].
    destruct (1 <? length (array_or_empty (prop data "options")))%nat eqn:Hlen;
      [ | cbn; discriminate ].
    apply Nat.ltb_lt in Hlen.
    destruct data; try discriminate Harr.
    cbn [truthy typeof_object andb] in Hticket.
    destruct (prop (JObj fields) "options") as [ | | | | |opts| ] eqn:Hopts;
      try discriminate Harr.
    cbn [array_or_empty] in Hlen. cbn.
    intros H; injection H as <-.
    exists (JObj fields), opts. auto.
  - intros (data & opts & Hbe & Hinc & Hopts & Hlen & ->).
    exact (proj1 (proj2 (install_ambiguous E be st cs query data opts
                           Hc Hbe Hinc Hopts Hlen))).
Qed.

(** X7.  A generic-ticket dispatch always clears the pending confirmation,
    whether the creation resolves or rejects.  The reply quotes the
    [incident] of the response as a template literal does, so a response
    without that key is reported as ticket [undefined]; and an [incident]
    that has no conversion to a string throws in the try block, so that the
    reply is the error line with the message of that TypeError. *)
Theorem generic_ticket_reply (st : ClientSide.state) (cs : list call)
    (query : string) :
  classify query = GenericTicket ->
  ClientSide.pending
    (state_after (ClientSide.decideAndCallTool E be query (world_of st cs)))
  = None /\
  (forall data text,
     be (createTicket query) = Resolved data ->
     is_nullish data = false ->
     ToString E (prop data "incident") = Some text ->
     returned (ClientSide.decideAndCallTool E be query (world_of st cs))
     = Some (JStr ("Ticket " ++ text ++ " created for: " ++ query))) /\
  (forall data,
     be (createTicket query) = Resolved data ->
     is_nullish data = false ->
     prop data "incident" = JUndefined ->
     returned (ClientSide.decideAndCallTool E be query (world_of st cs))
     = Some (JStr ("Ticket undefined created for: " ++ query))) /\
  (forall data,
     be (createTicket query) = Resolved data ->
     is_nullish data = false ->
     ToString E (prop data "incident") = None ->
     returned (ClientSide.decideAndCallTool E be query (world_of st cs))
     = Some (JStr ("Error while creating ticket: "
                   ++ ToPrimitive_message E (prop data "incident")))).
Proof.
  intros Hc.
  destruct (classify_generic _ Hc) as (Hchart & Hexec & Htest).
  unfold ClientSide.decideAndCallTool. rewrite Hchart, Hexec, Htest.
  unfold returned, state_after, world_of, try_catch, bind, await, ret,
    ClientSide.setPending, ClientSide.setShowChart, modify_ui.
  cbn [ui calls render_error].
  destruct (be (createTicket query)) as [data|e].
  - split.
    { destruct data; unfold member, template, throw, ret;
        cbv beta iota zeta; split_conversions; reflexivity. }
    repeat split; intros d; intros; 
      match goal with
      | H0 : Resolved _ = Resolved _ |- _ => injection H0 as <-
      end;
      rewrite (member_ok data "incident" _ H0); unfold template, throw, ret.
    + rewrite H1. reflexivity.
    + rewrite H1. reflexivity.
    + rewrite H1. cbv beta iota zeta.
      rewrite (proj2 (own_error_prints E _ "")). reflexivity.
  - unfold template, throw, ret. cbv beta iota zeta. split_conversions; cbn;
      repeat split; intros; discriminate.
Qed.
End ClientBranches.

Lemma status_lookup_resolved_witness :
  classify "status of inc7?" = IncidentStatus "INC7" /\
  ClientSide.pending
    (state_after
       (ClientSide.decideAndCallTool Sample.engine0
          (fun _ => Backend.Resolved
                      (Js.JObj [ ("incident_status",
                                  Js.JObj [ ("toString", Js.JNum 1%float) ]) ]))
          "status of inc7?" (world_of Sample.awaiting [])))
  = None /\
  returned
    (ClientSide.decideAndCallTool Sample.engine0
       (fun _ => Backend.Resolved
                   (Js.JObj [ ("incident_status",
                               Js.JObj [ ("toString", Js.JNum 1%float) ]) ]))
       "status of inc7?" (world_of Sample.awaiting []))
  = Some (Js.JStr "Error while checking status: Cannot convert object to primitive value").
Proof.
  split; [reflexivity|].
  destruct (status_lookup_resolved Sample.engine0
              (fun _ => Backend.Resolved
                          (Js.JObj [ ("incident_status",
                                      Js.JObj [ ("toString", Js.JNum 1%float) ]) ]))
              Sample.awaiting []
              "status of inc7?" "INC7" _ eq_refl eq_refl)
    as (Hp & _ & Hthrow & _).
  split; [exact Hp | exact (Hthrow eq_refl eq_refl)].
Defined.

Lemma install_pending_iff_witness :
  ClientSide.pending
    (state_after
       (ClientSide.decideAndCallTool Sample.engine0 Sample.three_versions
          "install vscode" (world_of Sample.idle [])))
  = Some {| ClientSide.user_query := "install vscode";
            ClientSide.options := [Js.JStr "1.0"; Js.JStr "2.0"; Js.JStr "3.0"] |}.
Proof.
  apply (proj2 (install_pending_iff Sample.engine0 Sample.three_versions
                  Sample.idle [] "install vscode" eq_refl _)).
  exists (Js.JObj [ ("options", Js.JArr [Js.JStr "1.0"; Js.JStr "2.0"; Js.JStr "3.0"]);
                    ("message", Js.JStr "Which version do you want?") ]),
    [Js.JStr "1.0"; Js.JStr "2.0"; Js.JStr "3.0"].
  repeat split. exact (le_n_S _ _ (le_S _ _ (le_n 1))).
Defined.

Lemma generic_ticket_reply_witness :
  classify "my laptop is slow" = GenericTicket /\
  returned
    (ClientSide.decideAndCallTool Sample.engine0
       (fun _ => Backend.Resolved (Js.JObj [ ("ok", Js.JBool true) ]))
       "my laptop is slow" (world_of Sample.awaiting []))
  = Some (Js.JStr "Ticket undefined created for: my laptop is slow") /\
  ClientSide.pending
    (state_after
       (ClientSide.decideAndCallTool Sample.engine0
          (fun _ => Backend.Resolved (Js.JObj [ ("ok", Js.JBool true) ]))
          "my laptop is slow" (world_of Sample.awaiting [])))
  = None.
Proof.
  split; [reflexivity|].
  destruct (generic_ticket_reply Sample.engine0
              (fun _ => Backend.Resolved (Js.JObj [ ("ok", Js.JBool true) ]))
              Sample.awaiting [] "my laptop is slow" eq_refl)
    as (Hp & _ & Hundef & _).
  split; [exact (Hundef _ eq_refl eq_refl eq_refl) | exact Hp].
Defined.

(* ------------------------------------------------------------------ *)
(** ** The client-side page as a machine *)
(* ------------------------------------------------------------------ *)

Lemma client_chart_range (query c : string) :
  ClientSide.checkForChartRequest query = Some c -> In c static_charts.
Proof.
  unfold ClientSide.checkForChartRequest, static_charts.
  repeat match goal with
         | |- context [if ?b then _ else _] => destruct b
         end;
    intros H; try discriminate H; injection H as <-; cbn; auto.
Qed.

Lemma visible_app (a b : list ChatTurn) :
  visible (a ++ b) = visible a ++ visible b.
Proof. apply filter_app. Qed.

Section ClientMachineFacts.
Import Js Backend Handler ClientMachine.
Variable E : engine.
Variable be : backend.

(** What [handleSend] does: nothing on a blank input; otherwise the user
    turn is appended, the input box is emptied and the dispatch has had its
    effect; when the dispatch returns a reply, the reply is appended and
    [thinking] ends false; when it throws, [handleSend] throws with it and
    [thinking] stays set. *)
Lemma handleSend_effect (w : world ClientSide.state) :
  (trim (ClientSide.input (ui w)) = "" /\
   ClientSide.handleSend E be w = (Ok tt, w)) \/
  (trim (ClientSide.input (ui w)) <> "" /\
   exists r p',
     ClientSide.handleSend E be w
     = (match r with
        | Ok _ => Ok tt
        | Throw e => Throw e
        end,
        {| ui := {| ClientSide.messages :=
                      ClientSide.messages (ui w)
                      ++ turn user (JStr (trim (ClientSide.input (ui w))))
                         :: match r with
                            | Ok reply => [turn assistant reply]
                            | Throw _ => []
                            end;
                    ClientSide.input := "";
                    ClientSide.pending := p';
                    ClientSide.thinking := match r with
                                           | Ok _ => false
                                           | Throw _ => true
                                           end;
                    ClientSide.showChart :=
                      ClientSide.checkForChartRequest
                        (trim (ClientSide.input (ui w)));
                    ClientSide.chat_history_v1 :=
                      ClientSide.chat_history_v1 (ui w) |};
           calls := calls w ++ requests_of (trim (ClientSide.input (ui w)));
           render_error := render_error w |}) /\
     (forall w0,
        fst (ClientSide.decideAndCallTool E be
               (trim (ClientSide.input (ui w))) w0) = r) /\
     (p' = ClientSide.pending (ui w) \/ p' = None \/
      exists opts,
        p' = Some {| ClientSide.user_query := trim (ClientSide.input (ui w));
                     ClientSide.options := opts |} /\
        2 <= length opts)).
Proof.
  destruct (String.eqb (trim (ClientSide.input (ui w))) "") eqn:Hin.
  - left. split; [apply String.eqb_eq; exact Hin|].
    unfold ClientSide.handleSend, bind, get_ui, ret. rewrite Hin. reflexivity.
  - right. split; [apply String.eqb_neq; exact Hin|].
    unfold ClientSide.handleSend, bind, get_ui, ret,
      ClientSide.setMessages, ClientSide.setInput, ClientSide.setThinking,
      modify_ui.
    cbn [ui calls render_error]. rewrite Hin.
    match goal with
    | |- context [ClientSide.decideAndCallTool E be ?q ?w0] =>
        destruct (dispatch_effect E be q w0) as (r & p' & Hr & Hp);
        rewrite Hr
    end.
    exists r, p'. cbn in Hp.
    split; [ destruct r; cbn; rewrite <- ?app_assoc; reflexivity | ].
    split; [|exact Hp].
    intros w1.
    match type of Hr with
    | ClientSide.decideAndCallTool E be ?q ?w0 = _ =>
        rewrite (dispatch_reply_stateless E be q w1 w0), Hr
    end.
    reflexivity.
Qed.

(** What [confirmVersion] does on a choice that is not empty: it returns,
    the dropdown is closed, and one turn is appended unless the updater
    throws. *)
Lemma confirmVersion_effect (choice : jsval) (w : world ClientSide.state) :
  truthy choice = true ->
  exists suffix err,
    ClientSide.confirmVersion E be choice w
    = (Ok tt,
       {| ui := {| ClientSide.messages := ClientSide.messages (ui w) ++ suffix;
                   ClientSide.input := ClientSide.input (ui w);
                   ClientSide.pending := None;
                   ClientSide.thinking := ClientSide.thinking (ui w);
                   ClientSide.showChart := ClientSide.showChart (ui w);
                   ClientSide.chat_history_v1 :=
                     ClientSide.chat_history_v1 (ui w) |};
          calls := calls w ++
                   match ClientSide.pending (ui w) with
                   | Some p => [requestInstall (ClientSide.user_query p) choice]
                   | None => []
                   end;
          render_error := err |}) /\
    (suffix = [] \/ exists reply, suffix = [turn assistant reply]).
Proof.
  intros H. unfold ClientSide.confirmVersion, js_not. rewrite H. cbn [negb].
  unfold ClientSide.setMessages_with.
  unfold try_finally, try_catch, bind, await, ret, throw, get_ui,
    ClientSide.setPending, ClientSide.setMessages, updater_throws, modify_ui.
  destruct (ClientSide.pending (ui w)) as [p|].
  - destruct (be (requestInstall (ClientSide.user_query p) choice));
      cbv beta iota zeta; split_conversions; cbn;
      first [ eexists [_], _; (split; [reflexivity | eauto])
            | eexists [], _; rewrite app_nil_r; (split; [reflexivity | auto]) ].
  - cbn. rewrite app_nil_r. eexists [_], _. split; [reflexivity | eauto].
Qed.

(** Every event: the handler sends one request at most, keeps the page
    well formed and, unless it is the clear button, only appends turns that
    are rendered.  It throws only the TypeError of a catch clause that has
    to print an error whose detail has no conversion to a string. *)
Lemma handle_effect (ev : event) (w : world ClientSide.state) :
  exists r w',
    handle E be ev w = (r, w') /\
    (wf (ui w) -> wf (ui w')) /\
    (is_clear ev = false ->
     exists suffix,
       ClientSide.messages (ui w') = ClientSide.messages (ui w) ++ suffix /\
       visible suffix = suffix) /\
    (exists sent, calls w' = calls w ++ sent /\ length sent <= 1) /\
    (forall e,
       r = Throw e ->
       exists c e0,
         be c = Rejected e0 /\
         ToString E (ClientSide.error_detail e0) = None /\
         e = ConversionError E (ClientSide.error_detail e0)).
Proof.
  assert (Hsame : forall w0 : world ClientSide.state,
             (wf (ui w0) -> wf (ui w0)) /\
             (is_clear ev = false ->
              exists suffix,
                ClientSide.messages (ui w0) = ClientSide.messages (ui w0) ++ suffix /\
                visible suffix = suffix) /\
             (exists sent, calls w0 = calls w0 ++ sent /\ length sent <= 1) /\
             (forall e,
                Ok tt = Throw e ->
                exists c e0,
                  be c = Rejected e0 /\
                  ToString E (ClientSide.error_detail e0) = None /\
                  e = ConversionError E (ClientSide.error_detail e0))).
  { intros w0. split; [auto|]. split; [|split].
    - intros _. exists []. rewrite app_nil_r. auto.
    - exists []. rewrite app_nil_r. cbn. auto.
    - intros e He. discriminate He. }
  assert (Hsend : exists r w',
             ClientSide.handleSend E be w = (r, w') /\
             (wf (ui w) -> wf (ui w')) /\
             (is_clear ev = false ->
              exists suffix,
                ClientSide.messages (ui w') = ClientSide.messages (ui w) ++ suffix /\
                visible suffix = suffix) /\
             (exists sent, calls w' = calls w ++ sent /\ length sent <= 1) /\
             (forall e,
                r = Throw e ->
                exists c e0,
                  be c = Rejected e0 /\
                  ToString E (ClientSide.error_detail e0) = None /\
                  e = ConversionError E (ClientSide.error_detail e0))).
  { destruct (handleSend_effect w) as [[_ Hr] | (_ & r & p' & Hr & Hst & Hp)].
    - exists (Ok tt), w. split; [exact Hr | apply Hsame].
    - eexists _, _. split; [exact Hr|]. cbn [ui calls]. split; [|split; [|split]].
      + intros (Hpw & Hcw & rest & Hm & Hv). split; [|split].
        * unfold pending_wf in *. cbn [ClientSide.pending].
          destruct Hp as [-> | [-> | (opts & -> & Hlen)]];
            [exact Hpw | exact I | exact Hlen].
        * unfold showChart_wf. cbn [ClientSide.showChart].
          destruct (ClientSide.checkForChartRequest _) eqn:Hq; [|exact I].
          exact (client_chart_range _ _ Hq).
        * unfold transcript_wf. cbn [ClientSide.messages]. rewrite Hm.
          eexists. split; [reflexivity|].
          rewrite visible_app, Hv. destruct r; reflexivity.
      + intros _. eexists. split; [reflexivity|]. destruct r; reflexivity.
      + eexists. split; [reflexivity|].
        unfold requests_of. destruct (classify _); cbn; lia.
      + intros e He. destruct r as [reply|e1]; [discriminate He|].
        injection He as <-.
        destruct (dispatch_throws E be _ w e1 (Hst w))
          as (c & e0 & _ & Hbe & Hd & He).
        eauto. }
  destruct ev as [value|e| |choice| ]; cbn [handle is_clear] in *.
  - eexists _, _. split; [reflexivity|]. cbn [ui calls]. split; [|split; [|split]].
    + intros (Hpw & Hcw & Htw). split; [|split]; assumption.
    + intros _. exists []. rewrite app_nil_r. auto.
    + exists []. rewrite app_nil_r. cbn. auto.
    + intros e He. discriminate He.
  - unfold ClientSide.onKeyDown.
    destruct (String.eqb (key e) "Enter" && negb (shiftKey e)).
    + exact Hsend.
    + exists (Ok tt), w. split; [reflexivity | apply Hsame].
  - unfold ClientSide.onClick_send, bind, get_ui.
    destruct (ClientSide.thinking (ui w)
              || String.eqb (trim (ClientSide.input (ui w))) "").
    + exists (Ok tt), w. split; [reflexivity | apply Hsame].
    + exact Hsend.
  - unfold bind, get_ui.
    destruct (ClientSide.dropdown_visible (ui w));
      [ | exists (Ok tt), w; split; [reflexivity | apply Hsame] ].
    destruct (truthy choice) eqn:Hc.
    + destruct (confirmVersion_effect choice w Hc) as (suffix & err & Hr & Hsuf).
      eexists _, _. split; [exact Hr|]. cbn [ui calls].
      assert (Hvis : visible suffix = suffix)
        by (destruct Hsuf as [-> | [reply ->]]; reflexivity).
      split; [|split; [|split]].
      * intros (Hpw & Hcw & rest & Hm & Hv). split; [exact I|].
        split; [exact Hcw|].
        unfold transcript_wf. cbn [ClientSide.messages]. rewrite Hm.
        eexists. split; [reflexivity|]. rewrite visible_app, Hv, Hvis.
        reflexivity.
      * intros _. eexists. split; [reflexivity | exact Hvis].
      * eexists. split; [reflexivity|].
        destruct (ClientSide.pending (ui w)); cbn; lia.
      * intros e He. discriminate He.
    + rewrite (confirmVersion_empty E be w choice Hc).
      exists (Ok tt), w. split; [reflexivity | apply Hsame].
  - eexists _, _. split; [reflexivity|]. cbn. split; [|split; [|split]].
    + intros _. split; [exact I|]. split; [exact I|].
      eexists. split; reflexivity.
    + discriminate.
    + exists []. rewrite app_nil_r. cbn. auto.
    + intros e He. discriminate He.
Qed.
End ClientMachineFacts.

Section ClientMachineTheorems.
Import Js Backend Handler ClientMachine.
Variable E : engine.
Variable be : backend.

Lemma run_events_cons (ev : event) (evs : list event)
    (w : world ClientSide.state) :
  run_events E be (ev :: evs) w = run_events E be evs (snd (handle E be ev w)).
Proof. reflexivity. Qed.

Lemma run_events_wf (evs : list event) :
  forall w, wf (ui w) -> wf (ui (run_events E be evs w)).
Proof.
  induction evs as [|ev evs IH]; intros w Hw; [exact Hw|].
  rewrite run_events_cons. apply IH.
  destruct (handle_effect E be ev w) as (r & w' & Hr & Hwf & _).
  rewrite Hr. exact (Hwf Hw).
Qed.

Lemma rendered_charts_wf (st : ClientSide.state) :
  showChart_wf st ->
  rendered_charts st
  = match ClientSide.showChart st with
    | Some c => [c]
    | None => []
    end.
Proof.
  unfold showChart_wf, rendered_charts, static_charts.
  destruct (ClientSide.showChart st) as [c|]; [|reflexivity].
  intros [<- | [<- | [<- | []]]]; reflexivity.
Qed.

(** X8.  Every event of the client-side page sends one request at
    most.  A handler throws only where a catch clause has to print an error
    whose detail (the body of the failed response, or else the message) has
    no conversion to a string, and what escapes is the TypeError of that
    conversion; so no handler throws when every error of the backend can be
    printed. *)
Theorem client_events_throw_only_in_catch (ev : event)
    (w : world ClientSide.state) :
  (exists sent,
     calls (snd (handle E be ev w)) = calls w ++ sent /\ length sent <= 1) /\
  (forall e,
     fst (handle E be ev w) = Throw e ->
     exists c e0,
       be c = Rejected e0 /\
       ToString E (ClientSide.error_detail e0) = None /\
       e = ConversionError E (ClientSide.error_detail e0)) /\
  ((forall c e0,
      be c = Rejected e0 -> ToString E (ClientSide.error_detail e0) <> None) ->
   fst (handle E be ev w) = Ok tt).
Proof.
  destruct (handle_effect E be ev w) as (r & w' & Hr & _ & _ & Hsent & Hthrow).
  rewrite Hr. cbn [fst snd]. split; [exact Hsent|]. split; [exact Hthrow|].
  intros Hprint. destruct r as [[]|e]; [reflexivity|].
  destruct (Hthrow e eq_refl) as (c & e0 & Hbe & Hd & _).
  destruct (Hprint c e0 Hbe Hd).
Qed.

(** X9.  Starting from a well-formed page, whatever the user does and
    whatever the backend answers, the page stays well formed.  So the
    version dropdown is on the page exactly when a confirmation is pending,
    the chart blocks show exactly the chart named by [showChart], and the
    rendered transcript is the transcript without its first turn. *)
Theorem client_page_stays_well_formed (evs : list event)
    (st : ClientSide.state) (cs : list call) :
  wf st ->
  wf (ui (run_events E be evs (world_of st cs))) /\
  (ClientSide.dropdown_visible (ui (run_events E be evs (world_of st cs))) = true
   <-> ClientSide.pending (ui (run_events E be evs (world_of st cs))) <> None) /\
  rendered_charts (ui (run_events E be evs (world_of st cs)))
  = match ClientSide.showChart (ui (run_events E be evs (world_of st cs))) with
    | Some c => [c]
    | None => []
    end /\
  visible (ClientSide.messages (ui (run_events E be evs (world_of st cs))))
  = tl (ClientSide.messages (ui (run_events E be evs (world_of st cs)))).
Proof.
  intros Hst.
  pose proof (run_events_wf evs (world_of st cs) Hst) as Hwf.
  set (st' := ui (run_events E be evs (world_of st cs))) in *.
  split; [exact Hwf|]. destruct Hwf as (Hp & Hc & rest & Hm & Hv).
  split; [|split].
  - unfold pending_wf, ClientSide.dropdown_visible in *.
    destruct (ClientSide.pending st') as [p|].
    + split; [discriminate | intros _; apply Nat.ltb_lt; exact Hp].
    + split; [discriminate | intros H; destruct (H eq_refl)].
  - exact (rendered_charts_wf st' Hc).
  - rewrite Hm. cbn. exact Hv.
Qed.

Lemma run_events_appends (evs : list event) :
  forall w : world ClientSide.state,
    forallb (fun ev => negb (is_clear ev)) evs = true ->
    exists suffix,
      ClientSide.messages (ui (run_events E be evs w))
      = ClientSide.messages (ui w) ++ suffix /\
      visible suffix = suffix.
Proof.
  induction evs as [|ev evs IH]; intros w Hevs.
  - exists []. rewrite app_nil_r. auto.
  - cbn [forallb] in Hevs. apply andb_true_iff in Hevs.
    destruct Hevs as [Hev Hevs]. apply negb_true_iff in Hev.
    rewrite run_events_cons.
    destruct (handle_effect E be ev w) as (r & w' & Hr & _ & Hsuf & _).
    rewrite Hr. cbn [snd].
    destruct (Hsuf Hev) as (s1 & Hm1 & Hv1).
    destruct (IH w' Hevs) as (s2 & Hm2 & Hv2).
    exists (s1 ++ s2). rewrite Hm2, Hm1, <- app_assoc.
    rewrite visible_app, Hv1, Hv2. auto.
Qed.

(** X10.  Unless the clear button is pressed, the transcript only grows:
    what was there stays, and every turn added is one that is rendered. *)
Theorem transcript_is_append_only (evs : list event)
    (st : ClientSide.state) (cs : list call) :
  forallb (fun ev => negb (is_clear ev)) evs = true ->
  exists suffix,
    ClientSide.messages (ui (run_events E be evs (world_of st cs)))
    = ClientSide.messages st ++ suffix /\
    visible suffix = suffix.
Proof.
  intros Hevs. exact (run_events_appends evs (world_of st cs) Hevs).
Qed.

(** X11.  [handleSend] ignores a blank input.  On any other input it
    appends the trimmed text as a user turn, empties the input box and sends
    the request of the intent.  When the dispatch returns a reply, the reply
    is appended as an assistant turn and [thinking] ends false; when the
    dispatch throws, [handleSend] throws too, the user turn stays without a
    reply and [thinking] stays set. *)
Theorem handleSend_appends_exchange (st : ClientSide.state) (cs : list call) :
  (trim (ClientSide.input st) = "" ->
   ClientSide.handleSend E be (world_of st cs) = (Ok tt, world_of st cs)) /\
  (trim (ClientSide.input st) <> "" ->
   ClientSide.input
     (state_after (ClientSide.handleSend E be (world_of st cs))) = "" /\
   calls_after (ClientSide.handleSend E be (world_of st cs))
   = cs ++ requests_of (trim (ClientSide.input st)) /\
   (forall reply,
      returned
        (ClientSide.decideAndCallTool E be (trim (ClientSide.input st))
           (world_of st cs)) = Some reply ->
      returned (ClientSide.handleSend E be (world_of st cs)) = Some tt /\
      ClientSide.messages
        (state_after (ClientSide.handleSend E be (world_of st cs)))
      = ClientSide.messages st
        ++ [ turn user (JStr (trim (ClientSide.input st)));
             turn assistant reply ] /\
      ClientSide.thinking
        (state_after (ClientSide.handleSend E be (world_of st cs))) = false) /\
   (returned
      (ClientSide.decideAndCallTool E be (trim (ClientSide.input st))
         (world_of st cs)) = None ->
    returned (ClientSide.handleSend E be (world_of st cs)) = None /\
    ClientSide.messages
      (state_after (ClientSide.handleSend E be (world_of st cs)))
    = ClientSide.messages st
      ++ [ turn user (JStr (trim (ClientSide.input st))) ] /\
    ClientSide.thinking
      (state_after (ClientSide.handleSend E be (world_of st cs))) = true)).
Proof.
  destruct (handleSend_effect E be (world_of st cs))
    as [[Hb Hr] | (Hn & r & p' & Hr & Hreply & _)]; cbn [world_of ui] in *.
  - split; [intros _; exact Hr | intros H; destruct (H Hb)].
  - split; [intros H; destruct (Hn H) | intros _].
    unfold returned, state_after, calls_after.
    rewrite Hr, Hreply. cbn [fst snd ui calls ClientSide.input
                             ClientSide.messages ClientSide.thinking].
    split; [reflexivity|]. split; [reflexivity|]. split.
    + intros reply. destruct r as [reply'|e]; intros H; [|discriminate H].
      injection H as ->. repeat split.
    + destruct r as [reply'|e]; intros H; [discriminate H|]. repeat split.
Qed.

(** X12.  Every chart the heuristic can name has a block on the page:
    after a chart request the page shows exactly the chart named in the
    reply. *)
Theorem chart_reply_shows_chart (st : ClientSide.state) (cs : list call)
    (query chartType : string) :
  ClientSide.checkForChartRequest query = Some chartType ->
  In chartType static_charts /\
  rendered_charts
    (state_after (ClientSide.decideAndCallTool E be query (world_of st cs)))
  = [chartType].
Proof.
  intros Hq. pose proof (client_chart_range query chartType Hq) as Hin.
  split; [exact Hin|].
  destruct (dispatch_effect E be query (world_of st cs)) as (r & p' & Hr & _).
  unfold state_after. rewrite Hr. cbn [snd ui].
  rewrite rendered_charts_wf.
  - cbn [ClientSide.showChart]. rewrite Hq. reflexivity.
  - unfold showChart_wf. cbn [ClientSide.showChart]. rewrite Hq. exact Hin.
Qed.
End ClientMachineTheorems.

Lemma initial_wf : ClientMachine.wf ClientMachine.initial.
Proof.
  split; [exact I|]. split; [exact I|].
  eexists. split; reflexivity.
Qed.

Lemma client_events_throw_only_in_catch_witness :
  fst (ClientMachine.handle Sample.engine0 Sample.unprintable
         (ClientMachine.KeyDown Sample.enter) (world_of Sample.busy []))
  = Handler.Throw
      (Js.ConversionError Sample.engine0
         (ClientSide.error_detail Sample.unprintable_error)) /\
  exists c e0,
    Sample.unprintable c = Backend.Rejected e0 /\
    Js.ToString Sample.engine0 (ClientSide.error_detail e0) = None /\
    Js.ConversionError Sample.engine0
      (ClientSide.error_detail Sample.unprintable_error)
    = Js.ConversionError Sample.engine0 (ClientSide.error_detail e0).
Proof.
  split; [reflexivity|].
  exact (proj1 (proj2 (client_events_throw_only_in_catch Sample.engine0
                         Sample.unprintable (ClientMachine.KeyDown Sample.enter)
                         (world_of Sample.busy [])))
           _ eq_refl).
Defined.

Lemma client_page_stays_well_formed_witness :
  ClientMachine.wf
    (Handler.ui
       (ClientMachine.run_events Sample.engine0 Sample.two_versions
          [ ClientMachine.Change "install vscode";
            ClientMachine.KeyDown Sample.enter;
            ClientMachine.ClickConfirm (Js.JStr "1.85");
            ClientMachine.Change "monthly sales";
            ClientMachine.ClickSend ]
          (world_of ClientMachine.initial []))).
Proof.
  exact (proj1 (client_page_stays_well_formed Sample.engine0 Sample.two_versions
                  [ ClientMachine.Change "install vscode";
                    ClientMachine.KeyDown Sample.enter;
                    ClientMachine.ClickConfirm (Js.JStr "1.85");
                    ClientMachine.Change "monthly sales";
                    ClientMachine.ClickSend ]
                  ClientMachine.initial [] initial_wf)).
Defined.

Lemma transcript_is_append_only_witness :
  exists suffix,
    ClientSide.messages
      (Handler.ui
         (ClientMachine.run_events Sample.engine0 Sample.offline
            [ ClientMachine.Change "hello"; ClientMachine.KeyDown Sample.enter ]
            (world_of Sample.awaiting [])))
    = ClientSide.messages Sample.awaiting ++ suffix /\
    visible suffix = suffix.
Proof.
  exact (transcript_is_append_only Sample.engine0 Sample.offline
           [ ClientMachine.Change "hello"; ClientMachine.KeyDown Sample.enter ]
           Sample.awaiting [] eq_refl).
Defined.

Lemma handleSend_appends_exchange_witness :
  returned (ClientSide.handleSend Sample.engine0 Sample.unprintable
              (world_of Sample.busy [])) = None /\
  ClientSide.messages
    (state_after (ClientSide.handleSend Sample.engine0 Sample.unprintable
                    (world_of Sample.busy [])))
  = ClientSide.messages Sample.busy
    ++ [ turn user (Js.JStr (trim (ClientSide.input Sample.busy))) ] /\
  ClientSide.thinking
    (state_after (ClientSide.handleSend Sample.engine0 Sample.unprintable
                    (world_of Sample.busy []))) = true.
Proof.
  assert (Hin : trim (ClientSide.input Sample.busy) <> "")
    by (vm_compute; discriminate).
  exact (proj2 (proj2 (proj2
           (proj2 (handleSend_appends_exchange Sample.engine0 Sample.unprintable
                     Sample.busy []) Hin))) eq_refl).
Defined.

Lemma chart_reply_shows_chart_witness :
  In "quarterly" static_charts /\
  ClientMachine.rendered_charts
    (state_after
       (ClientSide.decideAndCallTool Sample.engine0 Sample.offline
          "Show me revenue by quarter" (world_of Sample.idle [])))
  = ["quarterly"].
Proof.
  exact (chart_reply_shows_chart Sample.engine0 Sample.offline Sample.idle []
           "Show me revenue by quarter" "quarterly" eq_refl).
Defined.

(* ------------------------------------------------------------------ *)
(** ** The backend-driven page *)
(* ------------------------------------------------------------------ *)

Lemma backend_chart_range (query c : string) :
  BackendDriven.checkForChartRequest query = Some c -> In c static_charts.
Proof.
  unfold BackendDriven.checkForChartRequest, static_charts.
  repeat match goal with
         | |- context [if ?b then _ else _] => destruct b
         end;
    intros H; try discriminate H; injection H as <-; cbn; auto.
Qed.

Lemma truthy_js_or_r (a b : Js.jsval) :
  Js.truthy b = true -> Js.truthy (Js.js_or a b) = true.
Proof.
  intros Hb. unfold Js.js_or. destruct (Js.truthy a) eqn:Ha; assumption.
Qed.

Section BackendMachineFacts.
Import Js Backend Handler BackendMachine.
Variable be : backend.

(** Everything the backend-driven dispatch does to the page. *)
Lemma analytics_effect (query : string) (w : world BackendDriven.state) :
  exists reply c' l' e',
    BackendDriven.decideAndCallTool be query w
    = (Ok reply,
       {| ui := {| BackendDriven.messages := BackendDriven.messages (ui w);
                   BackendDriven.input := BackendDriven.input (ui w);
                   BackendDriven.thinking := BackendDriven.thinking (ui w);
                   BackendDriven.showChart := c';
                   BackendDriven.lastPayload := l';
                   BackendDriven.errorMsg := e';
                   BackendDriven.chat_history_v1 :=
                     BackendDriven.chat_history_v1 (ui w) |};
          calls := calls w ++ [queryChatbot query (hint_of query)];
          render_error := render_error w |}) /\
    truthy reply = true /\
    (e' <> "" -> l' = JNull /\ c' = None) /\
    (forall c, c' = Some c -> In c static_charts).
Proof.
  unfold BackendDriven.decideAndCallTool, hint_of, try_catch, bind, await, ret,
    BackendDriven.setErrorMsg, BackendDriven.setLastPayload,
    BackendDriven.setShowChart, modify_ui.
  cbn [ui calls].
  destruct (be (queryChatbot query _)) as [data|e]; cbv beta iota zeta.
  - destruct (BackendDriven.is_static_chart (prop data "chart_type")) as [c|] eqn:Hc;
      [ | destruct (truthy (prop data "chart")) ];
      cbn; do 4 eexists; (split; [reflexivity|]);
      (split; [apply truthy_js_or_r; reflexivity|]);
      (split; [intros H; destruct (H eq_refl)|]);
      intros c0 H0; try discriminate H0.
    + injection H0 as <-. apply is_static_chart_declared in Hc. tauto.
    + exact (backend_chart_range query c0 H0).
  - cbn. do 4 eexists. split; [reflexivity|]. split; [reflexivity|].
    split; [auto | discriminate].
Qed.
(** What the backend-driven [handleSend] does. *)
Lemma analytics_handleSend_effect (w : world BackendDriven.state) :
  ((trim (BackendDriven.input (ui w)) = "" \/
    BackendDriven.thinking (ui w) = true) /\
   BackendDriven.handleSend be w = (Ok tt, w)) \/
  (trim (BackendDriven.input (ui w)) <> "" /\
   BackendDriven.thinking (ui w) = false /\
   exists reply c' l' e',
     BackendDriven.handleSend be w
     = (Ok tt,
        {| ui := {| BackendDriven.messages :=
                      BackendDriven.messages (ui w)
                      ++ [ turn user (JStr (trim (BackendDriven.input (ui w))));
                           turn assistant reply ];
                    BackendDriven.input := "";
                    BackendDriven.thinking := false;
                    BackendDriven.showChart := c';
                    BackendDriven.lastPayload := l';
                    BackendDriven.errorMsg := e';
                    BackendDriven.chat_history_v1 :=
                      BackendDriven.chat_history_v1 (ui w) |};
           calls := calls w
                    ++ [queryChatbot (trim (BackendDriven.input (ui w)))
                          (hint_of (trim (BackendDriven.input (ui w))))];
           render_error := render_error w |}) /\
     truthy reply = true /\
     (e' <> "" -> l' = JNull /\ c' = None) /\
     (forall c, c' = Some c -> In c static_charts)).
Proof.
  unfold BackendDriven.handleSend, bind, get_ui, ret,
    BackendDriven.setMessages, BackendDriven.setInput,
    BackendDriven.setThinking, modify_ui.
  cbn [ui calls].
  destruct (String.eqb (trim (BackendDriven.input (ui w))) "") eqn:Hin.
  { left. apply String.eqb_eq in Hin. auto. }
  destruct (BackendDriven.thinking (ui w)) eqn:Hth.
  { left. auto. }
  right. apply String.eqb_neq in Hin. split; [exact Hin|]. split; [reflexivity|].
  cbn [orb].
  match goal with
  | |- context [BackendDriven.decideAndCallTool be ?q ?w0] =>
      destruct (analytics_effect q w0)
        as (reply & c' & l' & e' & Hr & Ht & He & Hc);
      rewrite Hr
  end.
  exists reply, c', l', e'. cbn. rewrite <- app_assoc. auto.
Qed.

Lemma analytics_handle_effect (ev : event) (w : world BackendDriven.state) :
  exists w',
    handle be ev w = (Ok tt, w') /\
    (wf (ui w) -> wf (ui w')) /\
    (exists sent, calls w' = calls w ++ sent /\ length sent <= 1).
Proof.
  assert (Hsame : (wf (ui w) -> wf (ui w)) /\
                  (exists sent, calls w = calls w ++ sent /\ length sent <= 1)).
  { split; [auto|]. exists []. rewrite app_nil_r. cbn. auto. }
  assert (Hsend : exists w',
             BackendDriven.handleSend be w = (Ok tt, w') /\
             (wf (ui w) -> wf (ui w')) /\
             (exists sent, calls w' = calls w ++ sent /\ length sent <= 1)).
  { destruct (analytics_handleSend_effect w)
      as [[_ Hr] | (_ & _ & reply & c' & l' & e' & Hr & _ & He & Hc)].
    - exists w. auto.
    - eexists. split; [exact Hr|]. cbn [ui calls]. split.
      + intros _. split.
        * unfold banner_wf. cbn. exact He.
        * unfold showChart_wf. cbn. destruct c' as [c|]; [|exact I].
          exact (Hc c eq_refl).
      + eexists. split; [reflexivity|]. cbn. lia. }
  destruct ev as [value|e| | ]; cbn [handle].
  - eexists. split; [reflexivity|]. cbn [ui calls]. split.
    + intros [Hb Hc]. split; assumption.
    + exists []. rewrite app_nil_r. cbn. auto.
  - unfold BackendDriven.onKeyDown.
    destruct (String.eqb (key e) "Enter" && negb (shiftKey e));
      [exact Hsend | exists w; auto].
  - unfold BackendDriven.onClick_send, bind, get_ui.
    destruct (BackendDriven.thinking (ui w)
              || String.eqb (trim (BackendDriven.input (ui w))) "");
      [exists w; auto | exact Hsend].
  - eexists. split; [reflexivity|]. cbn. split.
    + intros _. split; [intros H; destruct (H eq_refl) | exact I].
    + exists []. rewrite app_nil_r. cbn. auto.
Qed.

Lemma analytics_run_events_cons (ev : event) (evs : list event)
    (w : world BackendDriven.state) :
  run_events be (ev :: evs) w = run_events be evs (snd (handle be ev w)).
Proof. reflexivity. Qed.

Lemma analytics_rejected (st : BackendDriven.state) (cs : list call)
    (query : string) (e : js_error) :
  be (queryChatbot query (hint_of query)) = Rejected e ->
  BackendDriven.lastPayload
    (state_after (BackendDriven.decideAndCallTool be query (world_of st cs)))
  = JNull /\
  BackendDriven.showChart
    (state_after (BackendDriven.decideAndCallTool be query (world_of st cs)))
  = None /\
  (message e <> "" ->
   returned (BackendDriven.decideAndCallTool be query (world_of st cs))
   = Some (JStr ("Chatbot error: " ++ message e)) /\
   BackendDriven.errorMsg
     (state_after (BackendDriven.decideAndCallTool be query (world_of st cs)))
   = message e) /\
  (message e = "" ->
   returned (BackendDriven.decideAndCallTool be query (world_of st cs))
   = Some (JStr "Chatbot error: Unknown error") /\
   BackendDriven.errorMsg
     (state_after (BackendDriven.decideAndCallTool be query (world_of st cs)))
   = "Unknown error").
Proof.
  intros Hbe.
  unfold BackendDriven.decideAndCallTool, returned, state_after, world_of,
    try_catch, bind, await, ret, BackendDriven.setErrorMsg,
    BackendDriven.setLastPayload, BackendDriven.setShowChart, modify_ui.
  cbn [ui calls]. unfold hint_of in Hbe. rewrite Hbe. cbv beta iota zeta.
  cbn [fst snd ui BackendDriven.lastPayload BackendDriven.showChart
       BackendDriven.errorMsg].
  split; [reflexivity|]. split; [reflexivity|]. split.
  - intros Hm. apply String.eqb_neq in Hm. rewrite Hm. auto.
  - intros ->. auto.
Qed.

(** X13.  When the analytics request rejects, the reply is the error
    line with the message of the error, or with [Unknown error] when the
    message is empty; the same text goes into the error banner, and the last
    payload and the chart are reset. *)
Theorem analytics_failure (st : BackendDriven.state) (cs : list call)
    (query : string) (e : js_error) :
  be (queryChatbot query (hint_of query)) = Rejected e ->
  BackendDriven.lastPayload
    (state_after (BackendDriven.decideAndCallTool be query (world_of st cs)))
  = JNull /\
  BackendDriven.showChart
    (state_after (BackendDriven.decideAndCallTool be query (world_of st cs)))
  = None /\
  (message e <> "" ->
   returned (BackendDriven.decideAndCallTool be query (world_of st cs))
   = Some (JStr ("Chatbot error: " ++ message e)) /\
   BackendDriven.errorMsg
     (state_after (BackendDriven.decideAndCallTool be query (world_of st cs)))
   = message e) /\
  (message e = "" ->
   returned (BackendDriven.decideAndCallTool be query (world_of st cs))
   = Some (JStr "Chatbot error: Unknown error") /\
   BackendDriven.errorMsg
     (state_after (BackendDriven.decideAndCallTool be query (world_of st cs)))
   = "Unknown error").
Proof. exact (analytics_rejected st cs query e). Qed.

(** X14.  The backend-driven dispatch never throws and never answers
    with an empty bubble: it returns a reply that is truthy, after exactly
    one request whose chart hint is the inferred chart or [auto]. *)
Theorem analytics_always_replies (st : BackendDriven.state) (cs : list call)
    (query : string) :
  exists reply,
    returned (BackendDriven.decideAndCallTool be query (world_of st cs))
    = Some reply /\
    truthy reply = true /\
    calls_after (BackendDriven.decideAndCallTool be query (world_of st cs))
    = cs ++ [queryChatbot query (hint_of query)] /\
    In (hint_of query) ("auto" :: static_charts).
Proof.
  destruct (analytics_effect query (world_of st cs))
    as (reply & c' & l' & e' & Hr & Ht & _ & _).
  exists reply. unfold returned, calls_after. rewrite Hr.
  repeat split; try assumption.
  unfold hint_of.
  destruct (BackendDriven.checkForChartRequest query) as [c|] eqn:Hq.
  - right. exact (backend_chart_range query c Hq).
  - left. reflexivity.
Qed.

(** X15.  After a successful analytics dispatch the static placeholder
    is rendered exactly when the response carries no inline chart and a
    static chart was chosen; an inline chart hides it even when the response
    declares a chart type. *)
Theorem static_placeholder_after_dispatch (st : BackendDriven.state)
    (cs : list call) (query : string) (data : jsval) :
  be (queryChatbot query (hint_of query)) = Resolved data ->
  (truthy (prop data "chart") = true ->
   BackendDriven.static_fallback_visible
     (state_after (BackendDriven.decideAndCallTool be query (world_of st cs)))
   = false) /\
  (truthy (prop data "chart") = false ->
   (BackendDriven.static_fallback_visible
      (state_after (BackendDriven.decideAndCallTool be query (world_of st cs)))
    = true <->
    BackendDriven.showChart
      (state_after (BackendDriven.decideAndCallTool be query (world_of st cs)))
    <> None)).
Proof.
  intros Hbe.
  assert (Hprop : prop (js_nullish data JNull) "chart" = prop data "chart")
    by (destruct data; reflexivity).
  unfold BackendDriven.decideAndCallTool, state_after, world_of,
    try_catch, bind, await, ret, BackendDriven.setErrorMsg,
    BackendDriven.setLastPayload, BackendDriven.setShowChart, modify_ui.
  cbn [ui calls]. unfold hint_of in Hbe. rewrite Hbe. cbv beta iota zeta.
  unfold BackendDriven.static_fallback_visible, js_not.
  destruct (BackendDriven.is_static_chart (prop data "chart_type")) as [c|] eqn:Hc;
    [ | destruct (truthy (prop data "chart")) eqn:Hchart ];
    cbn [snd ui BackendDriven.lastPayload BackendDriven.showChart];
    rewrite Hprop.
  - apply is_static_chart_declared in Hc. destruct Hc as [_ Hin]. split.
    + intros ->. reflexivity.
    + intros ->. cbn [negb andb]. split; [discriminate | intros _].
      destruct Hin as [<- | [<- | [<- | []]]]; reflexivity.
  - rewrite Hchart. split; [reflexivity | discriminate].
  - rewrite Hchart. split; [discriminate | intros _]. cbn [negb andb].
    destruct (BackendDriven.checkForChartRequest query) as [c|] eqn:Hq.
    + split; [discriminate | intros _].
      destruct (backend_chart_range query c Hq) as [<- | [<- | [<- | []]]];
        reflexivity.
    + split; [discriminate | intros H; destruct (H eq_refl)].
Qed.
Lemma analytics_run_events_wf (evs : list event) :
  forall w, wf (ui w) -> wf (ui (run_events be evs w)).
Proof.
  induction evs as [|ev evs IH]; intros w Hw; [exact Hw|].
  rewrite analytics_run_events_cons. apply IH.
  destruct (analytics_handle_effect ev w) as (w' & Hr & Hwf & _).
  rewrite Hr. exact (Hwf Hw).
Qed.

(** X16.  No handler of the backend-driven page lets an exception
    escape, and from a well-formed page every sequence of events leads to a
    well-formed page: the chart chosen is one of the three static charts or
    none, and while the error banner is up there is no payload, no chart and
    no static placeholder on the page. *)
Theorem analytics_page_stays_well_formed (evs : list event)
    (st : BackendDriven.state) (cs : list call) :
  wf st ->
  (forall ev w, fst (handle be ev w) = Ok tt) /\
  wf (ui (run_events be evs (world_of st cs))) /\
  (BackendDriven.errorMsg (ui (run_events be evs (world_of st cs))) <> "" ->
   BackendDriven.lastPayload (ui (run_events be evs (world_of st cs))) = JNull /\
   BackendDriven.static_fallback_visible
     (ui (run_events be evs (world_of st cs))) = false).
Proof.
  intros Hst. split; [|split].
  - intros ev w. destruct (analytics_handle_effect ev w) as (w' & Hr & _).
    rewrite Hr. reflexivity.
  - exact (analytics_run_events_wf evs (world_of st cs) Hst).
  - pose proof (analytics_run_events_wf evs (world_of st cs) Hst) as [Hb _].
    intros He. destruct (Hb He) as [Hl Hc]. split; [exact Hl|].
    unfold BackendDriven.static_fallback_visible. rewrite Hc.
    apply andb_false_r.
Qed.

(** X17.  The backend-driven [handleSend] does nothing on a blank input
    or while a dispatch is in flight.  Otherwise it appends the trimmed text
    as a user turn and a truthy reply as an assistant turn, empties the
    input box, sends the one analytics request and ends with [thinking]
    false. *)
Theorem analytics_handleSend_exchange (st : BackendDriven.state)
    (cs : list call) :
  (trim (BackendDriven.input st) = "" \/ BackendDriven.thinking st = true ->
   BackendDriven.handleSend be (world_of st cs) = (Ok tt, world_of st cs)) /\
  (trim (BackendDriven.input st) <> "" ->
   BackendDriven.thinking st = false ->
   exists reply,
     truthy reply = true /\
     returned (BackendDriven.handleSend be (world_of st cs)) = Some tt /\
     BackendDriven.messages
       (state_after (BackendDriven.handleSend be (world_of st cs)))
     = BackendDriven.messages st
       ++ [ turn user (JStr (trim (BackendDriven.input st)));
            turn assistant reply ] /\
     BackendDriven.input
       (state_after (BackendDriven.handleSend be (world_of st cs))) = "" /\
     BackendDriven.thinking
       (state_after (BackendDriven.handleSend be (world_of st cs))) = false /\
     calls_after (BackendDriven.handleSend be (world_of st cs))
     = cs ++ [queryChatbot (trim (BackendDriven.input st))
                (hint_of (trim (BackendDriven.input st)))]).
Proof.
  destruct (analytics_handleSend_effect (world_of st cs))
    as [[Hb Hr] | (Hn & Hth & reply & c' & l' & e' & Hr & Ht & _)];
    cbn [world_of ui] in *.
  - split; [intros _; exact Hr|].
    intros Hin Hth. destruct Hb as [Hb | Hb];
      [destruct (Hin Hb) | rewrite Hb in Hth; discriminate Hth].
  - split.
    + intros [H | H]; [destruct (Hn H) | rewrite H in Hth; discriminate Hth].
    + intros _ _. exists reply. unfold returned, state_after, calls_after.
      rewrite Hr. cbn. repeat split. exact Ht.
Qed.
End BackendMachineFacts.

Lemma analytics_failure_witness :
  returned (BackendDriven.decideAndCallTool
              (fun _ => Backend.Rejected Fixture.server_error)
              "top customers" (world_of Sample.insights []))
  = Some (Js.JStr "Chatbot error: Request failed with status code 500") /\
  BackendDriven.lastPayload
    (state_after (BackendDriven.decideAndCallTool
                    (fun _ => Backend.Rejected Fixture.server_error)
                    "top customers" (world_of Sample.insights [])))
  = Js.JNull.
Proof.
  destruct (analytics_failure (fun _ => Backend.Rejected Fixture.server_error)
              Sample.insights [] "top customers" Fixture.server_error eq_refl)
    as (Hl & _ & Hm & _).
  split; [apply Hm; discriminate | exact Hl].
Defined.

Lemma static_placeholder_after_dispatch_witness :
  BackendDriven.showChart
    (state_after (BackendDriven.decideAndCallTool Fixture.analytics
                    "top customers" (world_of Fixture.ready [])))
  = Some "products" /\
  BackendDriven.static_fallback_visible
    (state_after (BackendDriven.decideAndCallTool Fixture.analytics
                    "top customers" (world_of Fixture.ready [])))
  = false.
Proof.
  split; [reflexivity|].
  exact (proj1 (static_placeholder_after_dispatch Fixture.analytics
                  Fixture.ready [] "top customers" _ eq_refl) eq_refl).
Defined.

Lemma analytics_initial_wf : BackendMachine.wf BackendMachine.initial.
Proof. split; [intros H; destruct (H eq_refl) | exact I]. Qed.

Lemma analytics_page_stays_well_formed_witness :
  BackendMachine.wf
    (Handler.ui
       (BackendMachine.run_events (fun _ => Backend.Rejected Fixture.server_error)
          [ BackendMachine.Change "monthly sales";
            BackendMachine.ClickSend;
            BackendMachine.Change "again";
            BackendMachine.KeyDown Sample.enter ]
          (world_of BackendMachine.initial []))).
Proof.
  exact (proj1 (proj2 (analytics_page_stays_well_formed
                         (fun _ => Backend.Rejected Fixture.server_error)
                         [ BackendMachine.Change "monthly sales";
                           BackendMachine.ClickSend;
                           BackendMachine.Change "again";
                           BackendMachine.KeyDown Sample.enter ]
                         BackendMachine.initial [] analytics_initial_wf))).
Defined.

Lemma analytics_handleSend_exchange_witness :
  exists reply,
    Js.truthy reply = true /\
    returned (BackendDriven.handleSend Fixture.analytics (world_of Fixture.ready []))
    = Some tt /\
    BackendDriven.messages
      (state_after (BackendDriven.handleSend Fixture.analytics
                      (world_of Fixture.ready [])))
    = BackendDriven.messages Fixture.ready
      ++ [ turn user (Js.JStr (trim (BackendDriven.input Fixture.ready)));
           turn assistant reply ] /\
    BackendDriven.input
      (state_after (BackendDriven.handleSend Fixture.analytics
                      (world_of Fixture.ready []))) = "" /\
    BackendDriven.thinking
      (state_after (BackendDriven.handleSend Fixture.analytics
                      (world_of Fixture.ready []))) = false /\
    calls_after (BackendDriven.handleSend Fixture.analytics
                   (world_of Fixture.ready []))
    = [] ++ [Backend.queryChatbot (trim (BackendDriven.input Fixture.ready))
               (BackendMachine.hint_of (trim (BackendDriven.input Fixture.ready)))].
Proof.
  apply (proj2 (analytics_handleSend_exchange Fixture.analytics Fixture.ready [])).
  - vm_compute. discriminate.
  - reflexivity.
Defined.

(* ------------------------------------------------------------------ *)
(** ** Charts *)
(* ------------------------------------------------------------------ *)

Lemma chart_kind_lowered (E : Js.engine) (spec : Js.jsval) :
  well_typed_chart spec = true ->
  BackendDriven.call_toLowerCase E
    (Js.js_or (Js.prop spec "type") (Js.JStr "bar")) = Handler.Ok (chart_kind spec).
Proof.
  unfold well_typed_chart, chart_kind, Js.js_or, Js.js_not.
  destruct (Js.prop spec "type") as [ | |b|n|s|items|fields]; cbn;
    try (intros _; reflexivity).
  - destruct b; [discriminate | reflexivity].
  - unfold PrimFloat.is_zero.
    destruct ((n =? PrimFloat.zero)%float || PrimFloat.is_nan n); cbn;
      [reflexivity | discriminate].
  - destruct (String.eqb s ""); reflexivity.
  - discriminate.
  - discriminate.
Qed.

(** X18.  [GenericChart] draws nothing for a missing spec.  Otherwise,
    when the values of the chart all coerce to numbers, the component
    follows the type of the chart whatever its case: a pie for [pie], a line
    for [line] and a bar for anything else; but the y axis of a bar chart is
    configured only when the type is [bar] or [line], so a chart of an
    unknown type is drawn as a bar without it.  A value that has no coercion
    makes the component throw. *)
Theorem generic_chart_component (E : Js.engine) (spec : Js.jsval) :
  well_typed_chart spec = true ->
  (Js.truthy spec = false ->
   BackendDriven.GenericChart E spec = Handler.Ok None) /\
  (forall nums,
   Js.truthy spec = true ->
   map (coerce E) (Js.array_or_empty (Js.prop spec "values")) = map Some nums ->
   exists s,
     BackendDriven.buildChartJsSpec E spec = Handler.Ok s /\
     BackendDriven.type s = chart_kind spec /\
     exists component,
       BackendDriven.GenericChart E spec
       = Handler.Ok (Some (component, BackendDriven.chart_data s,
                           BackendDriven.options s)) /\
       (component = BackendDriven.Pie <-> chart_kind spec = "pie") /\
       (component = BackendDriven.Line <-> chart_kind spec = "line") /\
       (BackendDriven.scales (BackendDriven.options s) <> None <->
        chart_kind spec = "bar" \/ chart_kind spec = "line")) /\
  (Js.truthy spec = true ->
   (exists v,
      In v (Js.array_or_empty (Js.prop spec "values")) /\ coerce E v = None) ->
   exists e, BackendDriven.GenericChart E spec = Handler.Throw e).
Proof.
  intros Hty. unfold BackendDriven.GenericChart, Js.js_not.
  split; [|split].
  - intros ->. reflexivity.
  - intros nums -> Hnums. cbn [negb]. unfold BackendDriven.buildChartJsSpec.
    rewrite (chart_kind_lowered E spec Hty).
    rewrite (coerce_all E _ nums Hnums).
    eexists. split; [reflexivity|].
    cbn [BackendDriven.type BackendDriven.options BackendDriven.scales
         BackendDriven.chart_data].
    split; [reflexivity|].
    destruct (String.eqb (chart_kind spec) "pie") eqn:Hpie;
      [ | destruct (String.eqb (chart_kind spec) "line") eqn:Hline;
          [ | destruct (String.eqb (chart_kind spec) "bar") eqn:Hbar ] ].
    + apply String.eqb_eq in Hpie. rewrite Hpie. cbn.
      eexists. split; [reflexivity|].
      repeat split; try discriminate; try tauto.
      intros [H | H]; discriminate H.
    + apply String.eqb_eq in Hline. rewrite Hline. cbn.
      eexists. split; [reflexivity|].
      repeat split; try discriminate; auto.
    + apply String.eqb_eq in Hbar. rewrite Hbar. cbn.
      eexists. split; [reflexivity|].
      repeat split; try discriminate; auto.
    + rewrite orb_false_r. cbn [orb].
      eexists. split; [reflexivity|].
      apply String.eqb_neq in Hpie, Hline, Hbar.
      repeat split; try discriminate; try tauto.
  - intros -> Hbad. cbn [negb]. unfold BackendDriven.buildChartJsSpec.
    rewrite (chart_kind_lowered E spec Hty).
    destruct (coerce_throws E _ Hbad) as [e He]. rewrite He. eauto.
Qed.

Lemma generic_chart_component_witness :
  BackendDriven.GenericChart Sample.engine0 Js.JNull = Handler.Ok None /\
  (exists s component,
     BackendDriven.GenericChart Sample.engine0
       (Js.JObj [ ("type", Js.JStr "Scatter"); ("values", Js.JArr [Js.JStr "7"]) ])
     = Handler.Ok (Some (component, BackendDriven.chart_data s,
                         BackendDriven.options s)) /\
     BackendDriven.type s = "scatter") /\
  exists e,
    BackendDriven.GenericChart Sample.engine0
      (Js.JObj [ ("type", Js.JStr "pie");
                 ("values", Js.JArr [Js.JObj [ ("toString", Js.JNull) ]]) ])
    = Handler.Throw e.
Proof.
  split; [|split].
  - exact (proj1 (generic_chart_component Sample.engine0 Js.JNull eq_refl) eq_refl).
  - destruct (proj1 (proj2 (generic_chart_component Sample.engine0
                       (Js.JObj [ ("type", Js.JStr "Scatter");
                                  ("values", Js.JArr [Js.JStr "7"]) ])
                       eq_refl))
                [Sample.decimal PrimFloat.zero "7"] eq_refl eq_refl)
      as (s & _ & Hk & component & Hg & _).
    exists s, component. split; [exact Hg | exact Hk].
  - apply (proj2 (proj2 (generic_chart_component Sample.engine0
                           (Js.JObj [ ("type", Js.JStr "pie");
                                      ("values",
                                       Js.JArr [Js.JObj [ ("toString", Js.JNull) ]]) ])
                           eq_refl)) eq_refl).
    eexists. split; [left; reflexivity | reflexivity].
Defined.

(** X19.  A chart without a [values] list has no value that fails to
    coerce: the series is empty and labelled "Value", however many labels
    there are; no count per label is substituted. *)
Theorem chart_without_values (E : Js.engine) (spec : Js.jsval) :
  well_typed_chart spec = true ->
  Js.isArray (Js.prop spec "values") = false ->
  exists s d,
    BackendDriven.buildChartJsSpec E spec = Handler.Ok s /\
    BackendDriven.datasets (BackendDriven.chart_data s) = [d] /\
    BackendDriven.labels (BackendDriven.chart_data s)
      = Js.array_or_empty (Js.prop spec "labels") /\
    BackendDriven.data d = [] /\
    BackendDriven.label d = "Value".
Proof.
  intros Hty Hvals. unfold BackendDriven.buildChartJsSpec.
  rewrite (chart_kind_lowered E spec Hty).
  assert (Hempty : Js.array_or_empty (Js.prop spec "values") = []).
  { destruct (Js.prop spec "values"); try reflexivity. discriminate Hvals. }
  rewrite Hempty. cbn [Handler.mapM map forallb].
  do 2 eexists. repeat split.
Qed.

Lemma chart_without_values_witness :
  exists s d,
    BackendDriven.buildChartJsSpec Sample.engine0
      (Js.JObj [ ("labels", Js.JArr [Js.JStr "A"; Js.JStr "B"]) ]) = Handler.Ok s /\
    BackendDriven.datasets (BackendDriven.chart_data s) = [d] /\
    BackendDriven.labels (BackendDriven.chart_data s) = [Js.JStr "A"; Js.JStr "B"] /\
    BackendDriven.data d = [] /\
    BackendDriven.label d = "Value".
Proof.
  exact (chart_without_values Sample.engine0
           (Js.JObj [ ("labels", Js.JArr [Js.JStr "A"; Js.JStr "B"]) ])
           eq_refl eq_refl).
Defined.

(* ------------------------------------------------------------------ *)
(** ** The two chart heuristics *)
(* ------------------------------------------------------------------ *)

Lemma startsWith_app (w b : string) : startsWith (w ++ b) w = true.
Proof.
  induction w as [|x w IH]; [destruct b; reflexivity|].
  cbn [append startsWith]. rewrite Ascii.eqb_refl, IH. reflexivity.
Qed.

Lemma includes_middle (a w b : string) : includes (a ++ w ++ b) w = true.
Proof.
  induction a as [|x a IH].
  - cbn [append]. destruct (w ++ b)%string eqn:Hwb; cbn [includes];
      rewrite <- Hwb, startsWith_app; reflexivity.
  - cbn [append includes]. rewrite IH. apply orb_true_r.
Qed.

Lemma quarter_digit (d : ascii) :
  cls_match false (CRange "1" "4") d = true ->
  d = "1"%char \/ d = "2"%char \/ d = "3"%char \/ d = "4"%char.
Proof.
  destruct d as [[|] [|] [|] [|] [|] [|] [|] [|]]; vm_compute;
    intros H; try discriminate H; auto.
Qed.

(** The quarter pattern only matches where [q1], [q2], [q3] or [q4] is. *)
Lemma quarter_pattern_includes (l : string) :
  test false re_quarter l = true ->
  includes l "q1" || includes l "q2" || includes l "q3" || includes l "q4" = true.
Proof.
  unfold test, exec.
  destruct (search false re_quarter None (list_ascii_of_string l)) as [m|] eqn:Hs;
    [intros _ | discriminate].
  destruct (search_sound false re_quarter _ None m Hs) as (pre & rest & Hl & Hrun).
  unfold re_quarter in Hrun. cbn [run] in Hrun.
  destruct (at_boundary (prev_after None pre) rest); [|discriminate Hrun].
  destruct rest as [|q [|d rest]]; try discriminate Hrun.
  - destruct (cls_match false (CChar "q") q); discriminate Hrun.
  - destruct (cls_match false (CChar "q") q) eqn:Hq; [|discriminate Hrun].
    destruct (cls_match false (CRange "1" "4") d) eqn:Hd; [|discriminate Hrun].
    cbn [cls_match] in Hq. apply Ascii.eqb_eq in Hq. subst q.
    pose proof (string_split l pre ("q"%char :: d :: rest) Hl) as Hsplit.
    change (string_of_list_ascii ("q"%char :: d :: rest))
      with (String "q" (String d EmptyString) ++ string_of_list_ascii rest)%string
      in Hsplit.
    rewrite Hsplit.
    destruct (quarter_digit d Hd) as [-> | [-> | [-> | ->]]];
      rewrite includes_middle; rewrite ?orb_true_r; reflexivity.
Qed.

(** X20.  The heuristic of the backend-driven variant is the stricter of
    the two: whenever it infers a chart, so does the heuristic of the
    client-side variant, and the same one, except that the client-side
    variant reads a [q1] to [q4] inside a longer word as a quarter where the
    backend-driven one falls back to the monthly chart. *)
Theorem chart_heuristics_agree (query c : string) :
  BackendDriven.checkForChartRequest query = Some c ->
  ClientSide.checkForChartRequest query = Some c \/
  (c = "monthly" /\ ClientSide.checkForChartRequest query = Some "quarterly").
Proof.
  unfold BackendDriven.checkForChartRequest, ClientSide.checkForChartRequest.
  generalize (quarter_pattern_includes (toLowerCase query)).
  generalize (toLowerCase query) as l. intros l Hq.
  destruct (includes l "sales" || includes l "revenue"); [|discriminate].
  destruct (includes l "month" || includes l "monthly"); [auto|].
  destruct (includes l "product" || includes l "item"); [auto|].
  destruct (includes l "quarter") eqn:Hquarter; cbn [orb]; [auto|].
  destruct (test false re_quarter l).
  - rewrite (Hq eq_refl). auto.
  - destruct (includes l "q1" || includes l "q2" || includes l "q3"
              || includes l "q4"); [|auto].
    destruct (includes l "chart" || includes l "graph" || includes l "visual");
      [|discriminate].
    intros H; injection H as <-. auto.
Qed.

Lemma chart_heuristics_agree_witness :
  (ClientSide.checkForChartRequest "sales chart, see faq1" = Some "monthly" \/
   ("monthly" = "monthly" /\
    ClientSide.checkForChartRequest "sales chart, see faq1" = Some "quarterly")) /\
  ClientSide.checkForChartRequest "sales chart, see faq1" = Some "quarterly".
Proof.
  split; [|reflexivity].
  exact (chart_heuristics_agree "sales chart, see faq1" "monthly" eq_refl).
Defined.

(* ------------------------------------------------------------------ *)
(** ** The version dropdown and its global *)
(* ------------------------------------------------------------------ *)

Section DropdownFacts.
Import Js Backend Handler PendingInstall.
Variable E : engine.
Variable be : backend.

(** The whole effect of an install dispatch that comes back with several
    options. *)
Lemma install_ambiguous_effect (w : world ClientSide.state) (query : string)
    (data : jsval) (opts : list jsval) :
  classify query = InstallRequest ->
  be (requestInstall query JNull) = Resolved data ->
  truthy (prop data "incident") = false ->
  prop data "options" = JArr opts ->
  1 < length opts ->
  ClientSide.decideAndCallTool E be query w
  = (Ok (js_or (prop data "message")
           (JStr "Multiple versions found. Please choose one.")),
     {| ui := {| ClientSide.messages := ClientSide.messages (ui w);
                 ClientSide.input := ClientSide.input (ui w);
                 ClientSide.pending :=
                   Some {| ClientSide.user_query := query;
                           ClientSide.options := opts |};
                 ClientSide.thinking := ClientSide.thinking (ui w);
                 ClientSide.showChart := None;
                 ClientSide.chat_history_v1 := ClientSide.chat_history_v1 (ui w) |};
        calls := calls w ++ [requestInstall query JNull];
        render_error := render_error w |}).
Proof.
  intros Hclass Hbe Hinc Hopts Hlen.
  destruct (classify_install _ Hclass) as (Hchart & Hexec & Htest).
  apply Nat.ltb_lt in Hlen.
  unfold ClientSide.decideAndCallTool, try_catch, bind, await, member, ret,
    throw, ClientSide.setPending, ClientSide.setShowChart, modify_ui.
  rewrite Hchart, Hexec, Htest. cbv beta iota zeta. rewrite Hbe.
  cbv beta iota zeta. rewrite Hinc, Hopts, andb_false_r.
  cbn [isArray array_or_empty andb]. rewrite Hlen.
  destruct data; try discriminate Hopts. reflexivity.
Qed.

(** X21.  The choice lives in a global that nothing resets.  When a
    version was chosen in an earlier dropdown and a new install request
    comes back with several options, pressing confirm without choosing
    submits the earlier version for the new query, whether or not it is one
    of the options now offered. *)
Theorem stale_choice_is_submitted (pg : page) (cs : list call)
    (text : string) (data : jsval) (opts : list jsval) :
  truthy (window_choice pg) = true ->
  trim text <> "" ->
  classify (trim text) = InstallRequest ->
  be (requestInstall (trim text) JNull) = Resolved data ->
  truthy (prop data "incident") = false ->
  prop data "options" = JArr opts ->
  1 < length opts ->
  calls (snd (confirm E be (snd (send E be text (world_of pg cs)))))
  = cs ++ [ requestInstall (trim text) JNull;
            requestInstall (trim text) (window_choice pg) ] /\
  window_choice (ui (snd (confirm E be (snd (send E be text (world_of pg cs))))))
  = window_choice pg /\
  ClientSide.pending
    (app (ui (snd (confirm E be (snd (send E be text (world_of pg cs)))))))
  = None.
Proof.
  intros Hc Htext Hclass Hbe Hinc Hopts Hlen.
  apply String.eqb_neq in Htext.
  unfold send, on_app, world_of, ClientSide.handleSend, ClientSide.setInput,
    ClientSide.setMessages, ClientSide.setThinking, bind, get_ui, ret,
    modify_ui.
  cbn [ui calls render_error app window_choice fst snd ClientSide.input
       ClientSide.messages ClientSide.pending ClientSide.thinking
       ClientSide.showChart ClientSide.chat_history_v1 ClientSide.options].
  rewrite Htext.
  rewrite (install_ambiguous_effect _ (trim text) data opts
             Hclass Hbe Hinc Hopts Hlen).
  cbn [ui calls render_error app window_choice fst snd ClientSide.input
       ClientSide.messages ClientSide.pending ClientSide.thinking
       ClientSide.showChart ClientSide.chat_history_v1 ClientSide.options].
  apply Nat.ltb_lt in Hlen.
  unfold confirm, button_onClick, on_app, bind, get_ui, ret,
    ClientSide.dropdown_visible.
  cbn [ui calls render_error app window_choice fst snd ClientSide.input
       ClientSide.messages ClientSide.pending ClientSide.thinking
       ClientSide.showChart ClientSide.chat_history_v1 ClientSide.options].
  rewrite Hlen.
  match goal with
  | |- context [ClientSide.confirmVersion E be ?c ?w0] =>
      destruct (confirmVersion_effect E be c w0 Hc) as (suffix & err & Hr & _)
  end.
  rewrite Hr. cbn. rewrite <- app_assoc. auto.
Qed.

End DropdownFacts.

Lemma stale_choice_is_submitted_witness :
  Handler.calls
    (snd (PendingInstall.confirm Sample.engine0 Fixture.zoom
            (snd (PendingInstall.send Sample.engine0 Fixture.zoom "install zoom"
                    (world_of PendingInstall.after_vscode [])))))
  = [] ++ [ Backend.requestInstall (trim "install zoom") Js.JNull;
            Backend.requestInstall (trim "install zoom") (Js.JStr "1.85") ].
Proof.
  exact (proj1 (stale_choice_is_submitted Sample.engine0 Fixture.zoom
                  PendingInstall.after_vscode [] "install zoom"
                  Fixture.zoom_options [Js.JStr "5.0"; Js.JStr "6.0"]
                  eq_refl ltac:(vm_compute; discriminate) eq_refl eq_refl
                  eq_refl eq_refl (le_n 2))).
Defined.


(* ------------------------------------------------------------------ *)
(** ** What goes over the wire *)
(* ------------------------------------------------------------------ *)

Lemma digit_upper_char (d : ascii) : is_digit d = true -> upper_char d = d.
Proof.
  destruct d as [[|] [|] [|] [|] [|] [|] [|] [|]]; vm_compute;
    intros H; try discriminate H; reflexivity.
Qed.

Lemma digits_toUpperCase (ds : string) :
  all_digits ds = true -> toUpperCase ds = ds.
Proof.
  unfold toUpperCase. induction ds as [|d ds IH]; [reflexivity|].
  cbn [all_digits smap]. intros H. apply andb_true_iff in H.
  destruct H as [Hd Hds]. rewrite (digit_upper_char d Hd), (IH Hds). reflexivity.
Qed.

(** The id of a status query is [INC] and digits. *)
Lemma incident_id_shape (query inc : string) :
  classify query = IncidentStatus inc ->
  exists d ds,
    inc = ("INC" ++ String d ds)%string /\
    is_digit d = true /\ all_digits ds = true.
Proof.
  intros Hc. destruct (classify_incident _ _ Hc) as (_ & m & Hm & ->).
  pose proof (exec_incident_sound query m Hm) as Hid.
  destruct (is_incident_id_shape m Hid) as (i & n & c & d & ds & ->).
  unfold is_incident_id in Hid.
  repeat (apply andb_true_iff in Hid; destruct Hid as [Hid ?]).
  apply Ascii.eqb_eq in Hid, H2, H1.
  exists d, ds. unfold toUpperCase. cbn [smap].
  rewrite Hid, H2, H1, (digit_upper_char d H0).
  fold (toUpperCase ds). rewrite (digits_toUpperCase ds H). auto.
Qed.

(** X23.  Whatever the utterance, the requests of the client-side
    dispatch are of three shapes only: a GET of [/show_status/] followed by
    [INC] and digits and nothing else; a POST to [/request_install] with the
    utterance and a null version; a POST to [/create_ticket] that carries
    the utterance as both descriptions, impact 2 and category Software. *)
Theorem dispatch_wire_requests (query : string) (c : Backend.call) :
  In c (requests_of query) ->
  (exists d ds,
     is_digit d = true /\ all_digits ds = true /\
     Api.wire c
     = Some (Api.GET ("http://127.0.0.1:8000/show_status/INC" ++ String d ds))) \/
  Api.wire c
  = Some (Api.POST "http://127.0.0.1:8000/request_install"
            (Js.JObj [ ("user_query", Js.JStr query);
                       ("chosen_version", Js.JNull) ])) \/
  Api.wire c
  = Some (Api.POST "http://127.0.0.1:8000/create_ticket"
            (Js.JObj [ ("short_description", Js.JStr query);
                       ("description", Js.JStr query);
                       ("impact", Js.JStr "2");
                       ("category", Js.JStr "Software") ])).
Proof.
  unfold requests_of. destruct (classify query) as [h|inc| | ] eqn:Hc;
    cbn [In]; intros Hin; try tauto.
  - destruct Hin as [<- | []]. left.
    destruct (incident_id_shape query inc Hc) as (d & ds & -> & Hd & Hds).
    exists d, ds. auto.
  - destruct Hin as [<- | []]. right. left. reflexivity.
  - destruct Hin as [<- | []]. right. right. reflexivity.
Qed.

Lemma dispatch_wire_requests_witness :
  (exists d ds,
     is_digit d = true /\ all_digits ds = true /\
     Api.wire (Backend.showStatus "INC42")
     = Some (Api.GET ("http://127.0.0.1:8000/show_status/INC" ++ String d ds))) \/
  Api.wire (Backend.showStatus "INC42")
  = Some (Api.POST "http://127.0.0.1:8000/request_install"
            (Js.JObj [ ("user_query", Js.JStr "status of inc42 please");
                       ("chosen_version", Js.JNull) ])) \/
  Api.wire (Backend.showStatus "INC42")
  = Some (Api.POST "http://127.0.0.1:8000/create_ticket"
            (Js.JObj [ ("short_description", Js.JStr "status of inc42 please");
                       ("description", Js.JStr "status of inc42 please");
                       ("impact", Js.JStr "2");
                       ("category", Js.JStr "Software") ])).
Proof.
  exact (dispatch_wire_requests "status of inc42 please"
           (Backend.showStatus "INC42") (or_introl eq_refl)).
Defined.

Section ChatbotFacts.
Import Js Backend Handler.
Variable E : engine.
Variable stringify : jsval -> jsval.
Variable BASE_URL : string.

(** X24.  [errorToText] shows a FastAPI error verbatim: the [error] of
    the detail when it is a string, else the detail when it is a string,
    else the body when it is a string; anything else is serialized.  Without
    a response it is the message of the error, or its name when the message
    is empty; and [Unknown error] for no error at all. *)
Theorem errorToText_reads_detail (err : Api.axios_error) :
  (forall d s,
     Api.response err = Some d ->
     prop (prop d "detail") "error" = JStr s ->
     Api.errorToText stringify (Some err) = JStr s) /\
  (forall d s,
     Api.response err = Some d ->
     prop d "detail" = JStr s ->
     Api.errorToText stringify (Some err) = JStr s) /\
  (forall d,
     Api.response err = Some d ->
     is_nullish (prop d "detail") = true ->
     Api.errorToText stringify (Some err)
     = if typeof_string d then d else stringify d) /\
  (Api.response err = None ->
   Api.errorToText stringify (Some err)
   = JStr (if String.eqb (Api.ax_message err) "" then Api.ax_name err
           else Api.ax_message err)) /\
  Api.errorToText stringify None = JStr "Unknown error".
Proof.
  unfold Api.errorToText. repeat split.
  - intros d s -> ->. reflexivity.
  - intros d s -> ->. reflexivity.
  - intros d -> Hn.
    assert (He : prop (prop d "detail") "error" = JUndefined)
      by (destruct (prop d "detail"); try discriminate Hn; reflexivity).
    rewrite He. destruct (prop d "detail"); try discriminate Hn; reflexivity.
  - intros ->. unfold js_or, Api.error_toString. cbn [truthy].
    destruct (String.eqb (Api.ax_message err) "") eqn:Hm; cbn [negb];
      [|reflexivity].
    apply String.eqb_eq in Hm. rewrite Hm.
    destruct (String.eqb (Api.ax_name err) "") eqn:Hname; [|reflexivity].
    apply String.eqb_eq in Hname. rewrite Hname. reflexivity.
Qed.

(** X25.  From the server to the bubble: when the chatbot endpoint
    answers with a FastAPI error whose detail is a text that is not empty,
    the reply of the dispatch is the error line with that text, the banner
    shows the text, and the payload and the chart are reset. *)
Theorem chatbot_error_reaches_user (be : backend) (t : Api.transport)
    (st : BackendDriven.state) (cs : list call) (query : string)
    (err : Api.axios_error) (d : jsval) (s : string) :
  Api.implements E stringify BASE_URL false be t ->
  t (Api.POST (BASE_URL ++ "/chatbot/query")
       (JObj [ ("prompt", JStr query);
               ("chart_type", JStr (BackendMachine.hint_of query)) ]))
  = Api.AxRejected err ->
  Api.response err = Some d ->
  prop d "detail" = JStr s ->
  s <> "" ->
  returned (BackendDriven.decideAndCallTool be query (world_of st cs))
  = Some (JStr ("Chatbot error: " ++ s)) /\
  BackendDriven.errorMsg
    (state_after (BackendDriven.decideAndCallTool be query (world_of st cs))) = s /\
  BackendDriven.lastPayload
    (state_after (BackendDriven.decideAndCallTool be query (world_of st cs)))
  = JNull /\
  BackendDriven.showChart
    (state_after (BackendDriven.decideAndCallTool be query (world_of st cs)))
  = None.
Proof.
  intros Himpl Ht Hresp Hdetail Hs.
  assert (Hbe : be (queryChatbot query (BackendMachine.hint_of query))
                = Rejected {| response_data := JUndefined; message := s |}).
  { rewrite Himpl. unfold Api.queryChatbot. rewrite Ht.
    unfold Api.errorToText. rewrite Hresp, Hdetail. reflexivity. }
  destruct (analytics_rejected be st cs query _ Hbe) as (Hl & Hc & Hm & _).
  cbn [message] in Hm. destruct (Hm Hs) as [Hr He]. auto.
Qed.

(** X26.  With the API disabled every utterance is answered from the
    sample payload and nothing depends on the network: the reply is its
    summary, the payload is kept, no static chart is chosen, and its chart
    is drawn as a bar of the values 1 and 1 labelled "Value". *)
Theorem mock_mode (be : backend) (t : Api.transport)
    (st : BackendDriven.state) (cs : list call) (query : string) :
  Api.implements E stringify BASE_URL true be t ->
  returned (BackendDriven.decideAndCallTool be query (world_of st cs))
  = Some (JStr "⚠️ API disabled (mock). Showing sample results.") /\
  BackendDriven.lastPayload
    (state_after (BackendDriven.decideAndCallTool be query (world_of st cs)))
  = Api.mock /\
  BackendDriven.showChart
    (state_after (BackendDriven.decideAndCallTool be query (world_of st cs)))
  = None /\
  BackendDriven.errorMsg
    (state_after (BackendDriven.decideAndCallTool be query (world_of st cs)))
  = "" /\
  exists s d,
    BackendDriven.buildChartJsSpec E (prop Api.mock "chart") = Ok s /\
    BackendDriven.type s = "bar" /\
    BackendDriven.datasets (BackendDriven.chart_data s) = [d] /\
    BackendDriven.data d = [PrimFloat.one; PrimFloat.one] /\
    BackendDriven.label d = "Value".
Proof.
  intros Himpl.
  unfold BackendDriven.decideAndCallTool, returned, state_after, world_of,
    try_catch, bind, await, ret, BackendDriven.setErrorMsg,
    BackendDriven.setLastPayload, BackendDriven.setShowChart, modify_ui.
  cbn [ui calls]. rewrite Himpl. unfold Api.queryChatbot.
  repeat split. do 2 eexists. repeat split.
Qed.
End ChatbotFacts.

(* ------------------------------------------------------------------ *)
(** ** The payload renderer *)
(* ------------------------------------------------------------------ *)

Section RendererFacts.
Import Js Handler Renderer.
Variable E : engine.
Variable keys_error : jsval -> js_error.
Variable builtin_text : jsval -> string -> string.

Lemma mapM_ok {A B : Type} (f : A -> result B) (l : list A) :
  (forall a, In a l -> exists b, f a = Ok b) ->
  exists bs,
    mapM f l = Ok bs /\
    length bs = length l /\
    (forall i a, nth_error l i = Some a ->
                 exists b, f a = Ok b /\ nth_error bs i = Some b).
Proof.
  induction l as [|a l IH]; intros Hall.
  - exists []. repeat split. intros [|i] a H; discriminate H.
  - destruct (Hall a (or_introl eq_refl)) as [b Hb].
    destruct (IH (fun a' Ha' => Hall a' (or_intror Ha'))) as (bs & Hbs & Hlen & Hnth).
    exists (b :: bs). cbn [mapM]. rewrite Hb, Hbs. split; [reflexivity|].
    split; [cbn; rewrite Hlen; reflexivity|].
    intros [|i] a' H; cbn in H.
    + injection H as <-. eauto.
    + exact (Hnth i a' H).
Qed.

Lemma mapM_throws {A B : Type} (f : A -> result B) (l : list A) (a : A) :
  In a l -> (exists e, f a = Throw e) -> exists e, mapM f l = Throw e.
Proof.
  induction l as [|x l IH]; intros Hin Ha; [destruct Hin|].
  cbn [mapM]. destruct (f x) as [b|e] eqn:Hx; [|eauto].
  destruct Hin as [-> | Hin].
  - destruct Ha as [e He]. rewrite He in Hx. discriminate Hx.
  - destruct (IH Hin Ha) as [e He]. rewrite He. eauto.
Qed.

Lemma cell_ok (row : jsval) (c : string) :
  is_nullish row = false ->
  cell E builtin_text row c
  = match own_property row c with
    | Some v => converted E v (ToString E v)
    | None => Ok (builtin_text row c)
    end.
Proof. destruct row; intros H; try discriminate H; reflexivity. Qed.

(** The text of a cell that can be drawn. *)
Lemma cell_text (row : jsval) (c : string) :
  is_nullish row = false ->
  (forall v, own_property row c = Some v -> ToString E v <> None) ->
  exists t,
    cell E builtin_text row c = Ok t /\
    (forall v, own_property row c = Some v -> ToString E v = Some t).
Proof.
  intros Hrow Hconv. rewrite (cell_ok row c Hrow).
  destruct (own_property row c) as [v|].
  - destruct (ToString E v) as [t|] eqn:Ht; [|destruct (Hconv v eq_refl Ht)].
    exists t. split; [reflexivity|]. intros v' Hv'. injection Hv' as <-. exact Ht.
  - eexists. split; [reflexivity|]. intros v Hv. discriminate Hv.
Qed.

Lemma row_ok (columns : list string) (row : jsval) :
  is_nullish row = false ->
  (forall c v, In c columns -> own_property row c = Some v ->
               ToString E v <> None) ->
  exists cells,
    mapM (cell E builtin_text row) columns = Ok cells /\
    length cells = length columns /\
    (forall j c v, nth_error columns j = Some c ->
                   own_property row c = Some v ->
                   nth_error cells j = ToString E v).
Proof.
  intros Hrow Hconv.
  destruct (mapM_ok (cell E builtin_text row) columns) as (cells & Hm & Hlen & Hnth).
  { intros c Hin.
    destruct (cell_text row c Hrow (fun v => Hconv c v Hin)) as (t & Ht & _).
    eauto. }
  exists cells. split; [exact Hm|]. split; [exact Hlen|].
  intros j c v Hj Hv. destruct (Hnth j c Hj) as (b & Hb & Hcell).
  destruct (cell_text row c Hrow
              (fun v' => Hconv c v' (nth_error_In _ _ Hj))) as (t & Ht & Htext).
  rewrite Ht in Hb. injection Hb as <-. rewrite Hcell, (Htext v Hv). reflexivity.
Qed.

(** X27.  When the payload has rows, none of them is null and every
    value under a column has a conversion to a string, the renderer draws a
    table whose header is the keys of the first row alone and which has one
    line per row, each with exactly one cell per column: a cell shows the
    own property of its row under that column, as a string.  The
    single-column list is drawn next to it exactly when the first row has
    one key.  A value under a column that has no conversion makes the
    renderer throw. *)
Theorem table_is_rectangular (payload : jsval) (rows : list jsval)
    (columns : list string) :
  truthy payload = true ->
  prop payload "data" = JArr rows ->
  rows <> [] ->
  (forall r, In r rows -> is_nullish r = false) ->
  Object_keys keys_error (hd JUndefined rows) = Ok columns ->
  ((forall r c x,
      In r rows -> In c columns -> own_property r c = Some x ->
      ToString E x <> None) ->
   exists v body,
     ApiPayloadRenderer E keys_error builtin_text payload = Ok (Some v) /\
     table v = Some (columns, body) /\
     length body = length rows /\
     (forall i row,
        nth_error rows i = Some row ->
        exists cells,
          nth_error body i = Some cells /\
          length cells = length columns /\
          forall j c x,
            nth_error columns j = Some c ->
            own_property row c = Some x ->
            nth_error cells j = ToString E x) /\
     (single_column v <> None <-> length columns = 1)) /\
  (forall r c x,
     In r rows -> In c columns -> own_property r c = Some x ->
     ToString E x = None ->
     exists e, ApiPayloadRenderer E keys_error builtin_text payload = Throw e).
Proof.
  intros Hp Hdata Hne Hrows Hkeys.
  destruct rows as [|r0 rows]; [destruct (Hne eq_refl)|]. clear Hne.
  unfold ApiPayloadRenderer, js_not. rewrite Hp, Hdata.
  cbn [negb array_or_empty]. change (0 <? length (r0 :: rows))%nat with true.
  cbv beta iota zeta. rewrite Hkeys. cbn [andb]. split.
  - intros Hconv.
    destruct (mapM_ok (fun row => mapM (cell E builtin_text row) columns)
                (r0 :: rows)) as (body & Hbody & Hlen & Hnth).
    { intros row Hin.
      destruct (row_ok columns row (Hrows row Hin)
                  (fun c x Hc => Hconv row c x Hin Hc)) as (cells & Hc & _).
      eauto. }
    assert (Hcells : forall i row,
               nth_error (r0 :: rows) i = Some row ->
               exists cells,
                 nth_error body i = Some cells /\
                 length cells = length columns /\
                 forall j c x,
                   nth_error columns j = Some c ->
                   own_property row c = Some x ->
                   nth_error cells j = ToString E x).
    { intros i row Hi. destruct (Hnth i row Hi) as (cells & Hc & Hcell).
      destruct (row_ok columns row (Hrows row (nth_error_In _ _ Hi))
                  (fun c x Hin => Hconv row c x (nth_error_In _ _ Hi) Hin))
        as (cells' & Hc' & Hl' & Hn').
      rewrite Hc' in Hc. injection Hc as <-. eauto. }
    rewrite Hbody.
    destruct (length columns =? 1)%nat eqn:Hone.
    + destruct (mapM_ok (fun r => cell E builtin_text r (hd "" columns))
                  (r0 :: rows)) as (items & Hitems & _ & _).
      { intros row Hin.
        assert (Hhd : In (hd "" columns) columns).
        { destruct columns as [|c0 columns]; [discriminate Hone | left; reflexivity]. }
        destruct (cell_text row (hd "" columns) (Hrows row Hin)
                    (fun x => Hconv row _ x Hin Hhd)) as (t & Ht & _).
        eauto. }
      rewrite Hitems.
      eexists; exists body. split; [reflexivity|].
      cbn [table single_column]. split; [reflexivity|]. split; [exact Hlen|].
      split; [exact Hcells|].
      apply Nat.eqb_eq in Hone. split; [auto | discriminate].
    + eexists; exists body. split; [reflexivity|].
      cbn [table single_column]. split; [reflexivity|]. split; [exact Hlen|].
      split; [exact Hcells|].
      apply Nat.eqb_neq in Hone. split; [intros H; destruct (H eq_refl) | auto].
  - intros r c x Hr Hc Hx Hnone.
    assert (Hcell : exists e, mapM (cell E builtin_text r) columns = Throw e).
    { apply (mapM_throws (cell E builtin_text r) columns c Hc).
      rewrite (cell_ok r c (Hrows r Hr)), Hx, Hnone. cbn. eauto. }
    destruct (mapM_throws (fun row => mapM (cell E builtin_text row) columns)
                (r0 :: rows) r Hr Hcell) as [e He].
    rewrite He.
    destruct (length columns =? 1)%nat; [|eauto].
    destruct (mapM (fun r1 => cell E builtin_text r1 (hd "" columns)) (r0 :: rows));
      eauto.
Qed.

(** X28.  Without rows there is neither a table nor a list, and the
    renderer does not throw: so it is for a payload whose [data] is missing,
    is no array, or is empty.  A falsy payload renders nothing at all. *)
Theorem nothing_to_tabulate (payload : jsval) :
  (truthy payload = false ->
   ApiPayloadRenderer E keys_error builtin_text payload = Ok None) /\
  (truthy payload = true ->
   array_or_empty (prop payload "data") = [] ->
   exists v,
     ApiPayloadRenderer E keys_error builtin_text payload = Ok (Some v) /\
     table v = None /\ single_column v = None).
Proof.
  unfold ApiPayloadRenderer, js_not. split.
  - intros ->. reflexivity.
  - intros -> ->. cbn. eexists. repeat split.
Qed.

(** X29.  A null row breaks the render.  When the first row is null the
    renderer throws on reading its keys; when a later row is null it throws
    on reading the cell, unless the first row has no key at all, in which
    case there is no cell to read. *)
Theorem null_row_throws (payload : jsval) (rows : list jsval) :
  truthy payload = true ->
  prop payload "data" = JArr rows ->
  rows <> [] ->
  (is_nullish (hd JUndefined rows) = true ->
   ApiPayloadRenderer E keys_error builtin_text payload
   = Throw (keys_error (hd JUndefined rows))) /\
  (forall columns r,
     Object_keys keys_error (hd JUndefined rows) = Ok columns ->
     columns <> [] ->
     In r rows -> is_nullish r = true ->
     exists e, ApiPayloadRenderer E keys_error builtin_text payload = Throw e) /\
  (Object_keys keys_error (hd JUndefined rows) = Ok [] ->
   exists v, ApiPayloadRenderer E keys_error builtin_text payload = Ok (Some v) /\
             table v = Some ([], map (fun _ => []) rows)).
Proof.
  intros Hp Hdata Hne.
  destruct rows as [|r0 rows]; [destruct (Hne eq_refl)|]. clear Hne.
  unfold ApiPayloadRenderer, js_not. rewrite Hp, Hdata.
  cbn [negb array_or_empty hd]. change (0 <? length (r0 :: rows))%nat with true.
  cbv beta iota zeta. split; [|split].
  - intros H0. destruct r0; try discriminate H0; reflexivity.
  - intros columns r Hkeys Hcols Hin Hr. rewrite Hkeys. cbn [andb].
    assert (Hcell : exists e, mapM (cell E builtin_text r) columns = Throw e).
    { destruct columns as [|c columns]; [destruct (Hcols eq_refl)|].
      cbn [mapM]. destruct r; try discriminate Hr; cbn; eauto. }
    destruct (mapM_throws (fun row => mapM (cell E builtin_text row) columns)
                (r0 :: rows) r Hin Hcell) as [e He].
    rewrite He.
    destruct (length columns =? 1)%nat; [|eauto].
    destruct (mapM (fun r1 => cell E builtin_text r1 (hd "" columns)) (r0 :: rows));
      eauto.
  - intros Hkeys. rewrite Hkeys. cbn [andb length Nat.eqb].
    assert (Hbody : mapM (fun row => mapM (cell E builtin_text row) [])
                      (r0 :: rows) = Ok (map (fun _ => []) (r0 :: rows))).
    { generalize (r0 :: rows) as l. induction l as [|x l IH]; [reflexivity|].
      cbn [mapM map] in *. rewrite IH. reflexivity. }
    rewrite Hbody. eexists. split; reflexivity.
Qed.
End RendererFacts.

Lemma errorToText_reads_detail_witness :
  Api.errorToText Fixture.compact (Some Fixture.bad_request)
  = Js.JStr "no such table: Orders".
Proof.
  exact (proj1 (proj2 (errorToText_reads_detail Fixture.compact Fixture.bad_request))
           _ "no such table: Orders" eq_refl eq_refl).
Defined.

Lemma chatbot_implements (disable : bool) :
  Api.implements Sample.engine0 Fixture.compact "http://127.0.0.1:8000" disable
    (Fixture.chatbot disable) Fixture.failing_transport.
Proof. intros prompt chartType. reflexivity. Qed.

Lemma chatbot_error_reaches_user_witness :
  returned (BackendDriven.decideAndCallTool (Fixture.chatbot false)
              "orders per month" (world_of Fixture.ready []))
  = Some (Js.JStr ("Chatbot error: " ++ "no such table: Orders")) /\
  BackendDriven.errorMsg
    (state_after (BackendDriven.decideAndCallTool (Fixture.chatbot false)
                    "orders per month" (world_of Fixture.ready [])))
  = "no such table: Orders".
Proof.
  destruct (chatbot_error_reaches_user Sample.engine0 Fixture.compact
              "http://127.0.0.1:8000" (Fixture.chatbot false)
              Fixture.failing_transport Fixture.ready [] "orders per month"
              Fixture.bad_request
              (Js.JObj [ ("detail", Js.JStr "no such table: Orders") ])
              "no such table: Orders"
              (chatbot_implements false) eq_refl eq_refl eq_refl
              ltac:(discriminate))
    as (Hr & He & _).
  split; [exact Hr | exact He].
Defined.

Lemma mock_mode_witness :
  returned (BackendDriven.decideAndCallTool (Fixture.chatbot true)
              "orders per month" (world_of Fixture.ready []))
  = Some (Js.JStr "⚠️ API disabled (mock). Showing sample results.") /\
  BackendDriven.showChart
    (state_after (BackendDriven.decideAndCallTool (Fixture.chatbot true)
                    "orders per month" (world_of Fixture.ready [])))
  = None.
Proof.
  destruct (mock_mode Sample.engine0 Fixture.compact "http://127.0.0.1:8000"
              (Fixture.chatbot true) Fixture.failing_transport Fixture.ready []
              "orders per month" (chatbot_implements true))
    as (Hr & _ & Hc & _).
  split; [exact Hr | exact Hc].
Defined.

Lemma customers_rows_not_null :
  forall r,
    In r [ Js.JObj [ ("CompanyName", Js.JStr "Acme"); ("Orders", Js.JStr "12") ];
           Js.JObj [ ("CompanyName", Js.JStr "Bolt") ] ] ->
    is_nullish r = false.
Proof. intros r [<- | [<- | []]]; reflexivity. Qed.

Lemma customers_cells_convert :
  forall r c x,
    In r [ Js.JObj [ ("CompanyName", Js.JStr "Acme"); ("Orders", Js.JStr "12") ];
           Js.JObj [ ("CompanyName", Js.JStr "Bolt") ] ] ->
    In c ["CompanyName"; "Orders"] ->
    Renderer.own_property r c = Some x ->
    Js.ToString Sample.engine0 x <> None.
Proof.
  intros r c x [<- | [<- | []]] [<- | [<- | []]]; cbn;
    intros H; try discriminate H; injection H as <-; discriminate.
Qed.

Lemma table_is_rectangular_witness :
  (exists v body,
     Renderer.ApiPayloadRenderer Sample.engine0 Fixture.no_keys Fixture.no_builtin
       Fixture.customers = Handler.Ok (Some v) /\
     Renderer.table v = Some (["CompanyName"; "Orders"], body) /\
     length body = 2) /\
  exists e,
    Renderer.ApiPayloadRenderer Sample.engine0 Fixture.no_keys Fixture.no_builtin
      (Js.JObj [ ("data",
                  Js.JArr [ Js.JObj [ ("Orders",
                                       Js.JObj [ ("toString", Js.JNum 1%float) ]) ] ]) ])
    = Handler.Throw e.
Proof.
  split.
  - destruct (proj1 (table_is_rectangular Sample.engine0 Fixture.no_keys
                       Fixture.no_builtin Fixture.customers
                       [ Js.JObj [ ("CompanyName", Js.JStr "Acme");
                                   ("Orders", Js.JStr "12") ];
                         Js.JObj [ ("CompanyName", Js.JStr "Bolt") ] ]
                       ["CompanyName"; "Orders"]
                       eq_refl eq_refl ltac:(discriminate)
                       customers_rows_not_null eq_refl)
                customers_cells_convert)
      as (v & body & Hr & Ht & Hl & _).
    exists v, body. auto.
  - apply (proj2 (table_is_rectangular Sample.engine0 Fixture.no_keys
                    Fixture.no_builtin
                    (Js.JObj [ ("data",
                                Js.JArr [ Js.JObj [ ("Orders",
                                                     Js.JObj [ ("toString", Js.JNum 1%float) ]) ] ]) ])
                    [ Js.JObj [ ("Orders", Js.JObj [ ("toString", Js.JNum 1%float) ]) ] ]
                    ["Orders"]
                    eq_refl eq_refl ltac:(discriminate)
                    ltac:(intros r [<- | []]; reflexivity) eq_refl)
             (Js.JObj [ ("Orders", Js.JObj [ ("toString", Js.JNum 1%float) ]) ])
             "Orders" (Js.JObj [ ("toString", Js.JNum 1%float) ])
             (or_introl eq_refl) (or_introl eq_refl) eq_refl eq_refl).
Defined.

(** The table of the example, cell by cell: the second row has no
    [Orders]. *)
Example customers_table :
  match Renderer.ApiPayloadRenderer Sample.engine0 Fixture.no_keys
          Fixture.no_builtin Fixture.customers with
  | Handler.Ok (Some v) =>
      Renderer.table v
      = Some (["CompanyName"; "Orders"], [["Acme"; "12"]; ["Bolt"; "undefined"]]) /\
      Renderer.single_column v = None /\
      Renderer.summary v = Renderer.Element (Js.JStr "Two customers.")
  | _ => False
  end.
Proof. repeat split. Qed.

(** Keys that are array indices come first, in ascending order. *)
Example keys_order :
  Renderer.own_keys [ ("b", Js.JNull); ("10", Js.JNull); ("a", Js.JNull);
                      ("2", Js.JNull); ("01", Js.JNull) ]
  = ["2"; "10"; "b"; "a"; "01"].
Proof. reflexivity. Qed.

Lemma nothing_to_tabulate_witness :
  exists v,
    Renderer.ApiPayloadRenderer Sample.engine0 Fixture.no_keys Fixture.no_builtin
      (Js.JObj [ ("answer", Js.JStr "42"); ("data", Js.JStr "n/a") ])
    = Handler.Ok (Some v) /\
    Renderer.table v = None /\ Renderer.single_column v = None.
Proof.
  exact (proj2 (nothing_to_tabulate Sample.engine0 Fixture.no_keys Fixture.no_builtin
                  (Js.JObj [ ("answer", Js.JStr "42"); ("data", Js.JStr "n/a") ]))
           eq_refl eq_refl).
Defined.

Lemma null_row_throws_witness :
  exists e,
    Renderer.ApiPayloadRenderer Sample.engine0 Fixture.no_keys Fixture.no_builtin
      Fixture.broken = Handler.Throw e.
Proof.
  exact (proj1 (proj2 (null_row_throws Sample.engine0 Fixture.no_keys
                         Fixture.no_builtin Fixture.broken
                         [ Js.JObj [ ("CompanyName", Js.JStr "Acme") ]; Js.JNull ]
                         eq_refl eq_refl ltac:(discriminate)))
           ["CompanyName"] Js.JNull eq_refl ltac:(discriminate)
           (or_intror (or_introl eq_refl)) eq_refl).
Defined.

(* ================================================================== *)
(** ** The stored history *)
(* ================================================================== *)

Section HistoryFacts.
Import Js Handler History.
Variable E : engine.
Variable JSON_parse : string -> result jsval.
Variable not_a_function : jsval -> string -> js_error.

(** On a transcript of turns the filter of the render is [visible]. *)
Lemma rendered_turns_visible (h : list ChatTurn) :
  rendered_turns E not_a_function (history_js h) = Ok (map turn_js (visible h)).
Proof.
  unfold rendered_turns, history_js.
  induction h as [| [r c] h IH]; [reflexivity |].
  cbn [map filterM]. rewrite IH. destruct r; reflexivity.
Qed.

Lemma rendered_turns_no_array (v : jsval) :
  isArray v = false ->
  exists e, rendered_turns E not_a_function v = Throw e.
Proof. destruct v; cbn; intros H; try discriminate; eauto. Qed.

Lemma variants_cases (load : option string -> jsval) (fresh : list ChatTurn) :
  In (load, fresh) (variants JSON_parse) ->
  exists rules greeting,
    fresh = [turn system (JStr rules); turn assistant (JStr greeting)] /\
    forall raw,
      load raw
      = match raw with
        | None => history_js fresh
        | Some s =>
            if String.eqb s "" then history_js fresh
            else match JSON_parse s with
                 | Ok v => v
                 | Throw _ => history_js [turn system (JStr rules)]
                 end
        end.
Proof.
  intros [H | [H | []]]; inversion H; subst; clear H.
  - exists ClientSide.SYSTEM_RULES, ClientSide.greeting. split; reflexivity.
  - exists BackendDriven.SYSTEM_RULES, BackendDriven.greeting. split; reflexivity.
Qed.

(** X30.  [loadHistory] never throws, in either variant.  With nothing
    stored, or the empty text, the page starts from the fresh session and
    shows its greeting alone.  A stored text that does not parse leaves the
    system turn only, so the page starts with an empty transcript, without
    the greeting.  A stored text that parses is trusted as it is: when it is
    no array, [loadHistory] returns it all the same and the render of the
    transcript throws. *)
Theorem stored_history_is_trusted (load : option string -> jsval)
    (fresh : list ChatTurn) (s : string) :
  In (load, fresh) (variants JSON_parse) ->
  s <> "" ->
  load None = history_js fresh /\
  load (Some "") = history_js fresh /\
  (exists greeting,
     rendered_turns E not_a_function (load None)
     = Ok [turn_js (turn assistant (JStr greeting))]) /\
  (forall e,
     JSON_parse s = Throw e ->
     rendered_turns E not_a_function (load (Some s)) = Ok []) /\
  (forall v,
     JSON_parse s = Ok v ->
     load (Some s) = v /\
     (isArray v = false ->
      exists e, rendered_turns E not_a_function (load (Some s)) = Throw e)).
Proof.
  intros Hin Hs.
  destruct (variants_cases load fresh Hin) as (rules & greeting & -> & Hload).
  assert (Hne : String.eqb s "" = false) by (apply String.eqb_neq; exact Hs).
  repeat split.
  - rewrite Hload. reflexivity.
  - rewrite Hload. reflexivity.
  - exists greeting. rewrite Hload. apply rendered_turns_visible.
  - intros e He. rewrite Hload, Hne, He. apply rendered_turns_visible.
  - rewrite Hload, Hne, H. reflexivity.
  - intros Harr. rewrite Hload, Hne, H. apply rendered_turns_no_array, Harr.
Qed.
End HistoryFacts.

Lemma stored_history_is_trusted_witness :
  History.backend_loadHistory Fixture.parse (Some "{oops")
  = History.history_js [turn system (Js.JStr BackendDriven.SYSTEM_RULES)] /\
  History.rendered_turns Sample.engine0 Fixture.no_function
    (History.backend_loadHistory Fixture.parse (Some "{oops")) = Handler.Ok [] /\
  History.backend_loadHistory Fixture.parse (Some "null") = Js.JNull /\
  exists e,
    History.rendered_turns Sample.engine0 Fixture.no_function
      (History.backend_loadHistory Fixture.parse (Some "null")) = Handler.Throw e.
Proof.
  destruct (stored_history_is_trusted Sample.engine0 Fixture.parse
              Fixture.no_function
              (History.backend_loadHistory Fixture.parse) BackendDriven.fresh
              "{oops" (or_intror (or_introl eq_refl)) ltac:(discriminate))
    as (_ & _ & _ & Hbroken & _).
  destruct (stored_history_is_trusted Sample.engine0 Fixture.parse
              Fixture.no_function
              (History.backend_loadHistory Fixture.parse) BackendDriven.fresh
              "null" (or_intror (or_introl eq_refl)) ltac:(discriminate))
    as (_ & _ & _ & _ & Hnull).
  split; [reflexivity |].
  split; [exact (Hbroken _ eq_refl) |].
  destruct (Hnull Js.JNull eq_refl) as (Hv & Hthrow).
  split; [exact Hv | exact (Hthrow eq_refl)].
Defined.

Lemma install_pattern_matches_whole_words_witness :
  Regex.test true re_install "please Set Up zoom" = true /\
  has_install_word "please Set Up zoom".
Proof.
  split; [vm_compute; reflexivity |].
  apply (proj1 (install_pattern_matches_whole_words "please Set Up zoom")).
  vm_compute; reflexivity.
Defined.

Lemma incident_pattern_matches_tokens_witness :
  exists pre post,
    "status of inc0012345?" = (pre ++ "inc0012345" ++ post)%string /\
    is_incident_id "inc0012345" = true /\
    is_word_opt (last_char pre) = false /\
    is_word_opt (first_char post) = false.
Proof.
  apply (proj2 (incident_pattern_matches_tokens "status of inc0012345?")).
  vm_compute; reflexivity.
Defined.
